(** * The layout manager of fabric.js: a shallow embedding

    This development embeds [src/LayoutManager/LayoutManager.ts] (class
    [LayoutManager]) and the helper [groupSVGElements], and proves the
    properties that the layout specification states about them.

    Conventions of the embedding.
    - JavaScript numbers are exact rationals ([Q]); [===] on numbers is
      [Qeq_bool].  Rounding, [NaN] and infinities are not represented.
    - Objects live in stores indexed by identifiers; a reference is an
      identifier and [===] on references is equality of identifiers.  A store
      is a finite map read with a default: an identifier that was never written
      reads as the freshly constructed object.
    - The strict context built by [performLayout] is a record value local to
      the call; the [path] array it may share with its caller lives in the
      store of arrays.
    - Hooks and events fired on the target ([onBeforeLayout], [fire], ...) are
      recorded in a log; the listeners a user may have attached to them are
      outside the program.
    - Methods that belong to classes outside the files at hand (the container
      object, the strategy, the matrix utilities) are the fields of the class
      [Collaborators], and the constructor of [Group] is the field of the
      class [GroupClass]; every theorem holds for all of them. *)

From Stdlib Require Import QArith Lia.
From stdpp Require Import gmap strings list fin_maps.

Abbreviation ObjId := nat.
Abbreviation MgrId := nat.
Abbreviation StrategyId := nat.
Abbreviation ArrId := nat.

(** ** Geometric primitives *)

(** [TMat2D]: the six numbers [a b c d e f] of an affine transform. *)
Record TMat2D := mkMat { t0 : Q; t1 : Q; t2 : Q; t3 : Q; t4 : Q; t5 : Q }.

(** Modelled from the spec: [iMatrix] of [constants], "the identity
    transform". *)
Definition iMatrix : TMat2D := mkMat 1 0 0 1 0 0.

(** The class [Point] is outside the files at hand: its constructor and the
    methods that the manager calls are modelled here. *)
Module Point.

(** Modelled from the spec: [Point], a pair of numbers ("point/vector
    arithmetic"). *)
Record t := new { x : Q; y : Q }.

(** Modelled from the spec: [new Point()], "the zero point". *)
Definition zero : t := new 0 0.

(** Modelled from the spec: [Point.add], the sum of two vectors. *)
Definition add (p q : t) : t := new (x p + x q) (y p + y q).

(** Modelled from the spec: [Point.subtract], the spec's
    [prevCenter - nextCenter]. *)
Definition subtract (p q : t) : t := new (x p - x q) (y p - y q).

(** Modelled from the spec: [Point.multiply], the componentwise product that
    scales the dimensions "by the resolved origin factors". *)
Definition multiply (p q : t) : t := new (x p * x q) (y p * y q).

(** Modelled from the spec: [Point.eq], "if the center actually changed". *)
Definition eq (p q : t) : bool := Qeq_bool (x p) (x q) && Qeq_bool (y p) (y q).

(** Modelled from the spec: [Point.transform], the image of a point under an
    affine matrix; with [ignoreOffset] the translation is left out, which is
    how the manager maps "a parent-space delta into the container's local
    space". *)
Definition transform (p : t) (m : TMat2D) (ignoreOffset : bool) : t :=
  add (new (t0 m * x p + t2 m * y p) (t1 m * x p + t3 m * y p))
      (if ignoreOffset then zero else new (t4 m) (t5 m)).

(** Numeric equality of points, componentwise. *)
Definition equiv (p q : t) : Prop := (x p == x q)%Q /\ (y p == y q)%Q.

End Point.

(** ** Data model *)

Inductive LayoutType :=
| initialization | added | removed | object_modified | object_modifying.

#[global] Instance LayoutType_eq_dec : EqDecision LayoutType.
Proof. solve_decision. Defined.

Definition is_initialization (ty : LayoutType) : bool :=
  match ty with initialization => true | _ => false end.

(** Origin anchors of an object. *)
Inductive TOrigin :=
| origin_left | origin_center | origin_right | origin_top | origin_bottom
| origin_number (q : Q).

(** [CENTER] of [constants]. *)
Definition CENTER : TOrigin := origin_center.

(** What a strategy returns: the four corrections are optional. *)
Module LayoutStrategyResult.

Record t := make {
  centerX : Q; centerY : Q; width : Q; height : Q;
  correctionX : option Q; correctionY : option Q;
  relativeCorrectionX : option Q; relativeCorrectionY : option Q }.

End LayoutStrategyResult.

(** [LayoutResult], all fields present. *)
Module LayoutResult.

Record t := make {
  result : LayoutStrategyResult.t;
  prevCenter : Point.t;
  nextCenter : Point.t;
  offset : Point.t }.

End LayoutResult.

(** The context a caller hands to [performLayout].  [targets] and
    [objectsRelativeToGroup] are read for the types that carry them only.  A
    context is an open object: it may already carry [strategy], [prevStrategy]
    (possibly with the value [undefined]) and [strategyChange], as every
    bubbled context does. *)
Module LayoutContext.

Record t := make {
  type : LayoutType;
  target : ObjId;
  targets : list ObjId;
  objectsRelativeToGroup : bool;
  trigger : option string;
  e : option ObjId;
  path : option ArrId;
  strategy : option StrategyId;
  prevStrategy : option (option StrategyId);
  strategyChange : option bool }.

End LayoutContext.

(** The context after [performLayout] has attached the strategy to it. *)
Module StrictLayoutContext.

Record t := make {
  type : LayoutType;
  target : ObjId;
  targets : list ObjId;
  objectsRelativeToGroup : bool;
  trigger : option string;
  e : option ObjId;
  path : option ArrId;
  strategy : StrategyId;
  prevStrategy : option StrategyId;
  strategyChange : bool }.

(** [context.path = p] *)
Definition set_path (p : option ArrId) (c : t) : t :=
  make (type c) (target c) (targets c) (objectsRelativeToGroup c)
       (trigger c) (e c) p (strategy c) (prevStrategy c) (strategyChange c).

End StrictLayoutContext.

(** A listener closure created by [subscribe]: its identity and what it
    captured ([this], the trigger and type of the context it will build, the
    object it listens to and the target of the layout it requests). *)
Record Handler := mkHandler {
  h_id : nat;
  h_manager : MgrId;
  h_trigger : string;
  h_type : LayoutType;
  h_object : ObjId;
  h_target : ObjId }.

(** The disposer returned by [object.on(event, handler)]. *)
Record Disposer := mkDisposer {
  d_object : ObjId;
  d_event : string;
  d_handler : nat }.

(** The fields of an object of the scene that the manager reads or writes,
    and the scale and angle that its own matrix depends on.  A container is an
    object with children in [_objects]. *)
Module FabricObject.

Record t := make {
  left : Q; top : Q; width : Q; height : Q;
  scaleX : Q; scaleY : Q; angle : Q;
  originX : TOrigin; originY : TOrigin;
  group : option ObjId;
  layoutManager : option MgrId;
  _objects : list ObjId;
  clipPath : option ObjId;
  absolutePositioned : bool;
  dirty : bool;
  __eventListeners : list (string * Handler) }.

(** An object as its constructor leaves it. *)
Definition empty : t :=
  make 0 0 0 0 1 1 0 origin_left origin_top None None [] None false false [].

(** Modelled from the spec: [set({ left, top })] of the object class, "set
    absolute position". *)
Definition set_left_top (l tp : Q) (o : t) : t :=
  make l tp (width o) (height o) (scaleX o) (scaleY o) (angle o)
       (originX o) (originY o) (group o) (layoutManager o) (_objects o)
       (clipPath o) (absolutePositioned o) (dirty o) (__eventListeners o).

(** Modelled from the spec: [set({ width, height })] of the object class,
    "set width/height". *)
Definition set_width_height (w h : Q) (o : t) : t :=
  make (left o) (top o) w h (scaleX o) (scaleY o) (angle o)
       (originX o) (originY o) (group o) (layoutManager o) (_objects o)
       (clipPath o) (absolutePositioned o) (dirty o) (__eventListeners o).

(** Modelled from the spec: [_set('dirty', b)] of the object class, "mark the
    container dirty for redraw": the flag of the receiver.  What the object
    class does besides to the flags of the groups above the receiver is not
    part of the model: the statements on the objects that a layout does not
    move are made up to this flag. *)
Definition set_dirty (b : bool) (o : t) : t :=
  make (left o) (top o) (width o) (height o) (scaleX o) (scaleY o) (angle o)
       (originX o) (originY o) (group o) (layoutManager o) (_objects o)
       (clipPath o) (absolutePositioned o) b (__eventListeners o).

(** The listeners replaced. *)
Definition set_listeners (ls : list (string * Handler)) (o : t) : t :=
  make (left o) (top o) (width o) (height o) (scaleX o) (scaleY o) (angle o)
       (originX o) (originY o) (group o) (layoutManager o) (_objects o)
       (clipPath o) (absolutePositioned o) (dirty o) ls.

(** Modelled from the spec: [getRelativeXY] of the object class, "a child's
    relative position", kept in [left] and [top]. *)
Definition getRelativeXY (o : t) : Point.t := Point.new (left o) (top o).

(** Modelled from the spec: [setRelativeXY] of the object class, "set a
    child's relative position". *)
Definition setRelativeXY (p : Point.t) (o : t) : t :=
  set_left_top (Point.x p) (Point.y p) o.

End FabricObject.

(** The fields of a [LayoutManager] instance. *)
Module LayoutManager.

Record t := make {
  _firstLayoutDone : bool;
  _prevLayoutStrategy : option StrategyId;
  strategy : StrategyId;
  _subscriptions : gmap ObjId (list Disposer) }.

Definition set_firstLayoutDone (b : bool) (m : t) : t :=
  make b (_prevLayoutStrategy m) (strategy m) (_subscriptions m).
Definition set_prevLayoutStrategy (s : option StrategyId) (m : t) : t :=
  make (_firstLayoutDone m) s (strategy m) (_subscriptions m).
Definition set_subscriptions (subs : gmap ObjId (list Disposer)) (m : t) : t :=
  make (_firstLayoutDone m) (_prevLayoutStrategy m) (strategy m) subs.

(** The constructor: [new LayoutManager(strategy)]. *)
Definition constructor (strategy : StrategyId) : t :=
  make false None strategy ∅.

End LayoutManager.

(** The classes of strategy objects. *)
Inductive StrategyClass :=
| FitContentLayout
| OtherLayout (name : string).

(** [FitContentLayout.shouldPerformLayout]: layout on all triggers. *)
Definition FitContentLayout_shouldPerformLayout
    (context : StrictLayoutContext.t) : bool := true.

(** What the target is told: its hooks and the events fired on it. *)
Inductive LogEntry :=
| Call_onBeforeLayout (target : ObjId) (context : StrictLayoutContext.t)
| Fire_layout_before (target : ObjId) (context : StrictLayoutContext.t)
| Call_onAfterLayout (target : ObjId) (context : StrictLayoutContext.t)
    (result : option LayoutResult.t)
| Fire_layout (target : ObjId) (context : StrictLayoutContext.t)
    (result : option LayoutResult.t).

(** The heap. *)
Record State := mkState {
  objects : gmap ObjId FabricObject.t;
  managers : gmap MgrId LayoutManager.t;
  strategies : gmap StrategyId StrategyClass;
  arrays : gmap ArrId (list ObjId);
  next_handler : nat;
  log : list LogEntry }.

Definition set_objects (v : gmap ObjId FabricObject.t) (st : State) : State :=
  mkState v (managers st) (strategies st) (arrays st) (next_handler st) (log st).
Definition set_managers (v : gmap MgrId LayoutManager.t) (st : State) : State :=
  mkState (objects st) v (strategies st) (arrays st) (next_handler st) (log st).
Definition set_strategies (v : gmap StrategyId StrategyClass) (st : State) : State :=
  mkState (objects st) (managers st) v (arrays st) (next_handler st) (log st).
Definition set_arrays (v : gmap ArrId (list ObjId)) (st : State) : State :=
  mkState (objects st) (managers st) (strategies st) v (next_handler st) (log st).
Definition set_next_handler (v : nat) (st : State) : State :=
  mkState (objects st) (managers st) (strategies st) (arrays st) v (log st).
Definition append_log (en : LogEntry) (st : State) : State :=
  mkState (objects st) (managers st) (strategies st) (arrays st)
          (next_handler st) (log st ++ [en]).

(** Reading and writing through a reference. *)
Definition obj (st : State) (o : ObjId) : FabricObject.t :=
  default FabricObject.empty (objects st !! o).
Definition update_obj (o : ObjId) (f : FabricObject.t -> FabricObject.t)
    (st : State) : State :=
  set_objects (<[o := f (obj st o)]> (objects st)) st.

Definition mgr (st : State) (m : MgrId) : LayoutManager.t :=
  default (LayoutManager.constructor 0%nat) (managers st !! m).
Definition update_mgr (m : MgrId) (f : LayoutManager.t -> LayoutManager.t)
    (st : State) : State :=
  set_managers (<[m := f (mgr st m)]> (managers st)) st.

Definition array (st : State) (a : ArrId) : list ObjId :=
  default [] (arrays st !! a).

(** [a.push(v)] *)
Definition push (a : ArrId) (v : ObjId) (st : State) : State :=
  set_arrays (<[a := array st a ++ [v]]> (arrays st)) st.

(** [[]]: a new array, different from every array of the heap. *)
Definition new_array (st : State) : ArrId * State :=
  let a := fresh (dom (arrays st)) in
  (a, set_arrays (<[a := []]> (arrays st)) st).

(** ** Collaborators

    Code of the repository that the manager calls and that is not part of the
    files at hand: the two methods of the strategy object that the manager
    invokes, the geometry of the container object and the matrix utilities.
    The strategy methods and [getRelativeCenterPoint] read the heap;
    [setPositionByOrigin] and [setCoords] write the fields of their receiver. *)
Class Collaborators := {
  calcLayoutResult :
    StrategyId -> StrictLayoutContext.t -> list ObjId -> State ->
    option LayoutStrategyResult.t;
  shouldLayoutClipPath : StrategyId -> StrictLayoutContext.t -> State -> bool;
  getRelativeCenterPoint : FabricObject.t -> Point.t;
  calcOwnMatrix : FabricObject.t -> TMat2D;
  setPositionByOrigin :
    Point.t -> TOrigin -> TOrigin -> FabricObject.t -> FabricObject.t;
  setCoords : FabricObject.t -> FabricObject.t;
  invertTransform : TMat2D -> TMat2D;
  resolveOrigin : TOrigin -> Q }.

(** ** Event registration on objects *)

(** Modelled from the spec: [object.on(event, handler)] of the observable
    object, "register a listener per named trigger", returning the disposer
    that unregisters it.  The closure gets the next free identity. *)
Definition on (object : ObjId) (event : string) (handler : nat -> Handler)
    (st : State) : Disposer * State :=
  let id := next_handler st in
  let st := update_obj object (fun o =>
    FabricObject.set_listeners
      (FabricObject.__eventListeners o ++ [(event, handler id)]) o) st in
  (mkDisposer object event id, set_next_handler (S id) st).

(** The listener that a disposer unregisters: the closure it was made for, on
    the event it was registered for. *)
Definition disposes (d : Disposer) (l : string * Handler) : bool :=
  String.eqb (fst l) (d_event d) && Nat.eqb (h_id (snd l)) (d_handler d).

(** Modelled from the spec: calling a disposer unregisters its listener. *)
Definition dispose (d : Disposer) (st : State) : State :=
  update_obj (d_object d) (fun o =>
    FabricObject.set_listeners
      (List.filter (fun l => negb (disposes d l)) (FabricObject.__eventListeners o))
      o) st.

(** [keys.map((key) => object.on(key, ...))] *)
Fixpoint on_each (object : ObjId) (keys : list string)
    (handler : string -> nat -> Handler) (st : State) : list Disposer * State :=
  match keys with
  | [] => ([], st)
  | key :: keys' =>
      let '(d, st) := on object key (handler key) st in
      let '(ds, st) := on_each object keys' handler st in
      (d :: ds, st)
  end.

(** The events of [TModificationEvents] that [subscribe] listens to. *)
Definition TModificationEvents : list string :=
  ["moving"; "resizing"; "rotating"; "scaling"; "skewing"; "changed"]%string.

Section LayoutManager.
Context {collaborators : Collaborators}.

(** ** [LayoutManager.unsubscribe] *)
Definition unsubscribe (this : MgrId) (context : StrictLayoutContext.t)
    (object : ObjId) (st : State) : State :=
  foldl (fun st d => dispose d st) st
    (default [] (LayoutManager._subscriptions (mgr st this) !! object)).

(** ** [LayoutManager.subscribe] *)
Definition subscribe (this : MgrId) (context : StrictLayoutContext.t)
    (object : ObjId) (st : State) : State :=
  let target := StrictLayoutContext.target context in
  let st := unsubscribe this context object st in
  let '(d_modified, st) :=
    on object "modified"
       (fun id => mkHandler id this "modified" object_modified object target) st in
  let '(ds, st) :=
    on_each object TModificationEvents
       (fun key id => mkHandler id this key object_modifying object target) st in
  let '(d_text, st) :=
    on object "changed"
       (fun id => mkHandler id this "text:changed" object_modifying object target)
       st in
  let disposers := d_modified :: ds ++ [d_text] in
  update_mgr this (fun m =>
    LayoutManager.set_subscriptions
      (<[object := disposers]> (LayoutManager._subscriptions m)) m) st.

(** ** [LayoutManager.onBeforeLayout] *)
Definition onBeforeLayout (this : MgrId) (context : StrictLayoutContext.t)
    (st : State) : State :=
  let target := StrictLayoutContext.target context in
  let st :=
    match StrictLayoutContext.type context with
    | initialization | added =>
        foldl (fun st object => subscribe this context object st) st
              (StrictLayoutContext.targets context)
    | removed =>
        foldl (fun st object => unsubscribe this context object st) st
              (StrictLayoutContext.targets context)
    | _ => st
    end in
  let st := append_log (Call_onBeforeLayout target context) st in
  append_log (Fire_layout_before target context) st.

(** ** [LayoutManager.getLayoutResult] *)
Definition getLayoutResult (context : StrictLayoutContext.t) (st : State)
    : option LayoutResult.t :=
  let target := StrictLayoutContext.target context in
  let prevCenter :=
    if is_initialization (StrictLayoutContext.type context)
    then Point.zero
    else getRelativeCenterPoint (obj st target) in
  match calcLayoutResult (StrictLayoutContext.strategy context) context
          (FabricObject._objects (obj st target)) st with
  | None => None
  | Some result =>
      let nextCenter :=
        Point.new (LayoutStrategyResult.centerX result)
                  (LayoutStrategyResult.centerY result) in
      let correction :=
        Point.new (default 0%Q (LayoutStrategyResult.correctionX result))
                  (default 0%Q (LayoutStrategyResult.correctionY result)) in
      let relativeCorrection :=
        Point.new (default 0%Q (LayoutStrategyResult.relativeCorrectionX result))
                  (default 0%Q (LayoutStrategyResult.relativeCorrectionY result)) in
      let offset :=
        if is_initialization (StrictLayoutContext.type context)
           && StrictLayoutContext.objectsRelativeToGroup context
        then Point.zero
        else
          Point.add
            (Point.transform
               (Point.add (Point.subtract prevCenter nextCenter) correction)
               (if is_initialization (StrictLayoutContext.type context)
                then iMatrix
                else invertTransform (calcOwnMatrix (obj st target)))
               true)
            relativeCorrection in
      Some (LayoutResult.make result prevCenter nextCenter offset)
  end.

(** ** [LayoutManager.layoutObject] *)
Definition layoutObject (context : StrictLayoutContext.t)
    (layoutResult : LayoutResult.t) (object : ObjId) (st : State) : State :=
  update_obj object (fun o =>
    FabricObject.setRelativeXY
      (Point.add (FabricObject.getRelativeXY o) (LayoutResult.offset layoutResult))
      o) st.

(** ** [LayoutManager.layoutObjects] *)
Definition layoutObjects (context : StrictLayoutContext.t)
    (layoutResult : LayoutResult.t) (st : State) : State :=
  let target := StrictLayoutContext.target context in
  let st :=
    if negb (is_initialization (StrictLayoutContext.type context))
       || negb (StrictLayoutContext.objectsRelativeToGroup context)
    then
      foldl (fun st object =>
               if bool_decide (FabricObject.group (obj st object) = Some target)
               then layoutObject context layoutResult object st
               else st)
            st (FabricObject._objects (obj st target))
    else st in
  if shouldLayoutClipPath (StrictLayoutContext.strategy context) context st
  then
    match FabricObject.clipPath (obj st target) with
    | Some clipPath =>
        if negb (FabricObject.absolutePositioned (obj st clipPath))
        then layoutObject context layoutResult clipPath st
        else st
    | None => st
    end
  else st.

(** ** [LayoutManager.commitLayout] *)
Definition commitLayout (context : StrictLayoutContext.t)
    (layoutResult : LayoutResult.t) (st : State) : State :=
  let target := StrictLayoutContext.target context in
  let width := LayoutStrategyResult.width (LayoutResult.result layoutResult) in
  let height := LayoutStrategyResult.height (LayoutResult.result layoutResult) in
  let prevCenter := LayoutResult.prevCenter layoutResult in
  let nextCenter := LayoutResult.nextCenter layoutResult in
  let st := update_obj target (FabricObject.set_width_height width height) st in
  let st := layoutObjects context layoutResult st in
  let st :=
    if is_initialization (StrictLayoutContext.type context) then
      let origin :=
        Point.add nextCenter
          (Point.multiply (Point.new width height)
             (Point.new (resolveOrigin (FabricObject.originX (obj st target)))
                        (resolveOrigin (FabricObject.originY (obj st target))))) in
      update_obj target
        (FabricObject.set_left_top (Point.x origin) (Point.y origin)) st
    else if negb (Point.eq nextCenter prevCenter) then
      update_obj target (setPositionByOrigin nextCenter CENTER CENTER) st
    else st in
  let st :=
    if negb (is_initialization (StrictLayoutContext.type context))
    then update_obj target setCoords st
    else st in
  update_obj target (FabricObject.set_dirty true) st.

(** The strict context of [performLayout]: the manager's three fields, then
    the spread of the incoming context over them. *)
Definition strictContext_of (this : LayoutManager.t) (context : LayoutContext.t)
    : StrictLayoutContext.t :=
  StrictLayoutContext.make
    (LayoutContext.type context)
    (LayoutContext.target context)
    (LayoutContext.targets context)
    (LayoutContext.objectsRelativeToGroup context)
    (LayoutContext.trigger context)
    (LayoutContext.e context)
    (LayoutContext.path context)
    (default (LayoutManager.strategy this) (LayoutContext.strategy context))
    (default (LayoutManager._prevLayoutStrategy this)
             (LayoutContext.prevStrategy context))
    (default
       (bool_decide (is_Some (LayoutManager._prevLayoutStrategy this))
        && negb (bool_decide (Some (LayoutManager.strategy this)
                              = LayoutManager._prevLayoutStrategy this)))
       (LayoutContext.strategyChange context)).

(** [{ ...context, target: parent }] *)
Definition bubbled_context (context : StrictLayoutContext.t) (parent : ObjId)
    : LayoutContext.t :=
  LayoutContext.make
    (StrictLayoutContext.type context)
    parent
    (StrictLayoutContext.targets context)
    (StrictLayoutContext.objectsRelativeToGroup context)
    (StrictLayoutContext.trigger context)
    (StrictLayoutContext.e context)
    (StrictLayoutContext.path context)
    (Some (StrictLayoutContext.strategy context))
    (Some (StrictLayoutContext.prevStrategy context))
    (Some (StrictLayoutContext.strategyChange context)).

(** [target.group?.layoutManager]: the parent and its manager, when both
    exist. *)
Definition parent_layoutManager (st : State) (target : ObjId)
    : option (ObjId * MgrId) :=
  match FabricObject.group (obj st target) with
  | Some parent =>
      match FabricObject.layoutManager (obj st parent) with
      | Some manager => Some (parent, manager)
      | None => None
      end
  | None => None
  end.

(** [(context.path || (context.path = [])).push(target)]: the context with
    its path set, and the heap after the push. *)
Definition push_path (context : StrictLayoutContext.t) (target : ObjId)
    (st : State) : StrictLayoutContext.t * State :=
  match StrictLayoutContext.path context with
  | Some a => (context, push a target st)
  | None =>
      let '(a, st) := new_array st in
      (StrictLayoutContext.set_path (Some a) context, push a target st)
  end.

(** ** [LayoutManager.onAfterLayout]

    [performLayout] is the method it calls on the parent's manager. *)
Definition onAfterLayout
    (performLayout : MgrId -> LayoutContext.t -> State -> option State)
    (this : MgrId) (context : StrictLayoutContext.t)
    (layoutResult : option LayoutResult.t) (st : State) : option State :=
  let target := StrictLayoutContext.target context in
  let st := append_log (Call_onAfterLayout target context layoutResult) st in
  let st := append_log (Fire_layout target context layoutResult) st in
  match parent_layoutManager st target with
  | Some (parent, manager) =>
      let '(context, st) := push_path context target st in
      performLayout manager (bubbled_context context parent) st
  | None => Some st
  end.

(** The result handed to [onAfterLayout] when the strategy gave none and no
    layout was done before. *)
Definition fallback_result (context : StrictLayoutContext.t) (st : State)
    : LayoutResult.t :=
  let target := StrictLayoutContext.target context in
  let prevCenter := getRelativeCenterPoint (obj st target) in
  LayoutResult.make
    (LayoutStrategyResult.make (Point.x prevCenter) (Point.y prevCenter)
       (FabricObject.width (obj st target)) (FabricObject.height (obj st target))
       None None None None)
    prevCenter prevCenter Point.zero.

(** ** [LayoutManager.performLayout]

    The recursion through the parents ends when a container has no parent
    with a manager; [fuel] bounds its depth, and [None] is the call that
    did not return within it. *)
Fixpoint performLayout (fuel : nat) (this : MgrId) (context : LayoutContext.t)
    (st : State) : option State :=
  match fuel with
  | O => None
  | S fuel =>
      if negb (LayoutManager._firstLayoutDone (mgr st this))
         && negb (is_initialization (LayoutContext.type context))
      then Some st
      else
        let strictContext := strictContext_of (mgr st this) context in
        let st := onBeforeLayout this strictContext st in
        let layoutResult := getLayoutResult strictContext st in
        let '(bubblingContext, st) :=
          match layoutResult with
          | Some layoutResult =>
              (Some layoutResult, commitLayout strictContext layoutResult st)
          | None =>
              if negb (LayoutManager._firstLayoutDone (mgr st this))
              then (Some (fallback_result strictContext st), st)
              else (None, st)
          end in
        let st := update_mgr this (LayoutManager.set_firstLayoutDone true) st in
        match onAfterLayout (performLayout fuel) this strictContext
                bubblingContext st with
        | Some st =>
            Some (update_mgr this
                    (LayoutManager.set_prevLayoutStrategy
                       (Some (StrictLayoutContext.strategy strictContext))) st)
        | None => None
        end
  end.

End LayoutManager.

(** ** [groupSVGElements] *)

(** The values of the properties handed to the [Group] constructor. *)
Inductive PropValue :=
| prop_undefined
| prop_number (q : Q)
| prop_string (s : string)
| prop_bool (b : bool)
| prop_object (o : ObjId)
| prop_layoutManager (m : MgrId).

(** The class [Group] is outside the files at hand: its constructor, which
    [groupSVGElements] calls with the elements and the properties, is a
    parameter.  It gives the new group and the heap that it leaves. *)
Class GroupClass := {
  new_Group : list ObjId -> gmap string PropValue -> State -> ObjId * State }.

(** What [groupSVGElements] returns: one of its elements, or the group that
    [new Group(elements, props)] made. *)
Inductive GroupOrObject :=
| the_element (element : ObjId)
| the_group (group : ObjId).

(** [new FitContentLayout()] *)
Definition new_FitContentLayout (st : State) : StrategyId * State :=
  let s := fresh (dom (strategies st)) in
  (s, set_strategies (<[s := FitContentLayout]> (strategies st)) st).

(** [new LayoutManager(strategy)], with the default argument of the
    constructor. *)
Definition new_LayoutManager (strategy : option StrategyId) (st : State)
    : MgrId * State :=
  let '(s, st) :=
    match strategy with
    | Some s => (s, st)
    | None => new_FitContentLayout st
    end in
  let m := fresh (dom (managers st)) in
  (m, set_managers (<[m := LayoutManager.constructor s]> (managers st)) st).

(** [new Group(elements, { layoutManager: new LayoutManager(), ...options })]:
    the manager is made first, the keys of [options] win over it, and the
    constructor of [Group] runs last. *)
Definition groupSVGElements {Group : GroupClass} (elements : list ObjId)
    (options : option (gmap string PropValue)) (st : State)
    : GroupOrObject * State :=
  match elements with
  | [element] => (the_element element, st)
  | _ =>
      let '(m, st) := new_LayoutManager None st in
      let '(group, st) :=
        new_Group elements
          (default ∅ options ∪ {["layoutManager"%string := prop_layoutManager m]})
          st in
      (the_group group, st)
  end.

(** ** Vocabulary of the statements *)

(** The gate of [performLayout]. *)
Definition rejected (this : LayoutManager.t) (context : LayoutContext.t) : bool :=
  negb (LayoutManager._firstLayoutDone this)
  && negb (is_initialization (LayoutContext.type context)).

(** [manager.strategy = s], the assignment a user makes to swap strategies. *)
Definition set_strategy (s : StrategyId) (m : LayoutManager.t) : LayoutManager.t :=
  LayoutManager.make (LayoutManager._firstLayoutDone m)
    (LayoutManager._prevLayoutStrategy m) s (LayoutManager._subscriptions m).

(** The listeners on [object] that were installed by the manager [this]. *)
Definition owned_listeners (this : MgrId) (object : ObjId) (st : State)
    : list (string * Handler) :=
  List.filter (fun l => Nat.eqb (h_manager (snd l)) this)
    (FabricObject.__eventListeners (obj st object)).

(** The entry of the subscription table of [this] for [object]. *)
Definition subscription (this : MgrId) (object : ObjId) (st : State)
    : list Disposer :=
  default [] (LayoutManager._subscriptions (mgr st this) !! object).

(** The table accounts for the listeners of [this] on [object]: each one has
    its disposer in the entry of [object]. *)
Definition covered (this : MgrId) (object : ObjId) (st : State) : bool :=
  forallb
    (fun l =>
       existsb (fun d => Nat.eqb (d_object d) object && disposes d l)
               (subscription this object st))
    (owned_listeners this object st).

(** The eight listeners of one [subscribe], the first closure being [n]. *)
Definition subscribed_listeners (this : MgrId) (target object : ObjId) (n : nat)
    : list (string * Handler) :=
  [ ("modified", mkHandler n this "modified" object_modified object target);
    ("moving", mkHandler (1 + n) this "moving" object_modifying object target);
    ("resizing", mkHandler (2 + n) this "resizing" object_modifying object target);
    ("rotating", mkHandler (3 + n) this "rotating" object_modifying object target);
    ("scaling", mkHandler (4 + n) this "scaling" object_modifying object target);
    ("skewing", mkHandler (5 + n) this "skewing" object_modifying object target);
    ("changed", mkHandler (6 + n) this "changed" object_modifying object target);
    ("changed", mkHandler (7 + n) this "text:changed" object_modifying object target)
  ]%string.

(** The disposer that [on] returns for a listener. *)
Definition disposer_of (object : ObjId) (l : string * Handler) : Disposer :=
  mkDisposer object (fst l) (h_id (snd l)).

Section Statements.
Context {collaborators : Collaborators}.

(** Lines 30 to 62 of [performLayout]: what happens between the gate and
    [onAfterLayout].  It gives the strict context, the result handed to
    [onAfterLayout] and the heap at that point. *)
Definition layout_pass (this : MgrId) (context : LayoutContext.t) (st : State)
    : StrictLayoutContext.t * option LayoutResult.t * State :=
  let strictContext := strictContext_of (mgr st this) context in
  let st := onBeforeLayout this strictContext st in
  let '(bubblingContext, st) :=
    match getLayoutResult strictContext st with
    | Some layoutResult =>
        (Some layoutResult, commitLayout strictContext layoutResult st)
    | None =>
        if negb (LayoutManager._firstLayoutDone (mgr st this))
        then (Some (fallback_result strictContext st), st)
        else (None, st)
    end in
  (strictContext, bubblingContext,
   update_mgr this (LayoutManager.set_firstLayoutDone true) st).

(** [this._prevLayoutStrategy = strictContext.strategy], the last statement of
    [performLayout]. *)
Definition record_strategy (this : MgrId) (strictContext : StrictLayoutContext.t)
    (st : State) : State :=
  update_mgr this
    (LayoutManager.set_prevLayoutStrategy
       (Some (StrictLayoutContext.strategy strictContext))) st.

(** The offset of the specification:
    [transform(prevCenter - nextCenter + correction, M) + relativeCorrection]. *)
Definition spec_offset (prevCenter : Point.t) (M : TMat2D)
    (result : LayoutStrategyResult.t) : Point.t :=
  let nextCenter :=
    Point.new (LayoutStrategyResult.centerX result)
              (LayoutStrategyResult.centerY result) in
  let correction :=
    Point.new (default 0%Q (LayoutStrategyResult.correctionX result))
              (default 0%Q (LayoutStrategyResult.correctionY result)) in
  let relativeCorrection :=
    Point.new (default 0%Q (LayoutStrategyResult.relativeCorrectionX result))
              (default 0%Q (LayoutStrategyResult.relativeCorrectionY result)) in
  Point.add
    (Point.transform (Point.add (Point.subtract prevCenter nextCenter) correction)
                     M true)
    relativeCorrection.

End Statements.


(** ** Vocabulary of the proofs *)

(** Every field of an object but its listeners. *)
Definition geometry (o : FabricObject.t) : FabricObject.t :=
  FabricObject.set_listeners [] o.

(** The three scalar fields of a manager, its table left aside. *)
Definition bookkeeping (m : LayoutManager.t)
    : bool * option StrategyId * StrategyId :=
  (LayoutManager._firstLayoutDone m, LayoutManager._prevLayoutStrategy m,
   LayoutManager.strategy m).

(** A step that registers or unregisters listeners and does nothing else. *)
Record listeners_step (st st' : State) : Prop := {
  step_geometry : forall o, geometry (obj st' o) = geometry (obj st o);
  step_bookkeeping : forall m, bookkeeping (mgr st' m) = bookkeeping (mgr st m);
  step_strategies : strategies st' = strategies st;
  step_arrays : arrays st' = arrays st;
  step_log : log st' = log st }.

(** The listeners a list of disposers leaves on [object]. *)
Definition survives (ds : list Disposer) (object : ObjId) (l : string * Handler)
    : bool :=
  forallb (fun d => negb (Nat.eqb (d_object d) object && disposes d l)) ds.

(** Steps that write fields of objects and nothing else. *)
Definition objects_step (st st' : State) : Prop :=
  managers st' = managers st /\ strategies st' = strategies st
  /\ arrays st' = arrays st /\ log st' = log st.

(** The listeners registered on an object. *)
Definition listeners (st : State) (o : ObjId) : list (string * Handler) :=
  FabricObject.__eventListeners (obj st o).

(** [on] in one piece. *)
Definition add_listener (object : ObjId) (l : string * Handler) (st : State)
    : State :=
  set_next_handler (S (next_handler st))
    (update_obj object (fun o =>
       FabricObject.set_listeners (FabricObject.__eventListeners o ++ [l]) o) st).

(** Several [on] in a row. *)
Definition add_listeners (object : ObjId) (ls : list (string * Handler))
    (st : State) : State :=
  foldl (fun st l => add_listener object l st) st ls.

(** The listeners that [on_each] installs, the first closure being [n]. *)
Fixpoint each_listeners (keys : list string) (handler : string -> nat -> Handler)
    (n : nat) : list (string * Handler) :=
  match keys with
  | [] => []
  | key :: keys => (key, handler key n) :: each_listeners keys handler (S n)
  end.

(** The disposers that [on_each] returns. *)
Fixpoint each_disposers (object : ObjId) (keys : list string) (n : nat)
    : list Disposer :=
  match keys with
  | [] => []
  | key :: keys => mkDisposer object key n :: each_disposers object keys (S n)
  end.

(** All objects are where they were, up to numeric equality. *)
Definition same_positions (st st' : State) : Prop :=
  forall o,
    Point.equiv (FabricObject.getRelativeXY (obj st' o))
                (FabricObject.getRelativeXY (obj st o)).

(** A function on objects that leaves the links of the scene graph alone. *)
Definition keeps_links (f : FabricObject.t -> FabricObject.t) : Prop :=
  forall o,
    FabricObject.group (f o) = FabricObject.group o
    /\ FabricObject.layoutManager (f o) = FabricObject.layoutManager o.

(** Two heaps with the same scene graph. *)
Definition same_links (st st' : State) : Prop :=
  forall o,
    FabricObject.group (obj st' o) = FabricObject.group (obj st o)
    /\ FabricObject.layoutManager (obj st' o)
       = FabricObject.layoutManager (obj st o).

(** Above [target] there are at most [n] containers, one in the other, that
    have a layout manager. *)
Fixpoint bubbles_at_most (n : nat) (st : State) (target : ObjId) : bool :=
  match parent_layoutManager st target with
  | None => true
  | Some (parent, _) =>
      match n with
      | O => false
      | S n => bubbles_at_most n st parent
      end
  end.

(** ** A scene

    Three nested containers, [group_C] holding [group_B] holding [group_A]
    holding two rectangles, each container with a manager of its own, and
    collaborators that follow the library: origins resolve to [-1/2], [0] and
    [1/2], the centre of an object is its position moved back by its origin,
    the own matrix scales and translates, and [invertTransform] divides by the
    determinant.  The strategy [declining] gives no result; any other strategy
    [s] asks for the centre [(s, 0)] and for 200 by 100. *)
Module Scene.
Local Open Scope Q_scope.

Definition resolve (o : TOrigin) : Q :=
  match o with
  | origin_left | origin_top => - (1 # 2)
  | origin_center => 0
  | origin_right | origin_bottom => 1 # 2
  | origin_number q => q - (1 # 2)
  end.

Definition center (o : FabricObject.t) : Point.t :=
  Point.subtract
    (Point.new (FabricObject.left o) (FabricObject.top o))
    (Point.multiply
       (Point.new (FabricObject.width o) (FabricObject.height o))
       (Point.new (resolve (FabricObject.originX o))
                  (resolve (FabricObject.originY o)))).

Definition position_by_origin (p : Point.t) (ox oy : TOrigin)
    (o : FabricObject.t) : FabricObject.t :=
  let size := Point.new (FabricObject.width o) (FabricObject.height o) in
  let c := Point.subtract p (Point.multiply size (Point.new (resolve ox) (resolve oy))) in
  let origin :=
    Point.add c
      (Point.multiply size
         (Point.new (resolve (FabricObject.originX o))
                    (resolve (FabricObject.originY o)))) in
  FabricObject.set_left_top (Point.x origin) (Point.y origin) o.

Definition own_matrix (o : FabricObject.t) : TMat2D :=
  mkMat (FabricObject.scaleX o) 0 0 (FabricObject.scaleY o)
        (Point.x (center o)) (Point.y (center o)).

Definition invert (t : TMat2D) : TMat2D :=
  let a := 1 / (t0 t * t3 t - t1 t * t2 t) in
  let r := mkMat (a * t3 t) (- a * t1 t) (- a * t2 t) (a * t0 t) 0 0 in
  let p := Point.transform (Point.new (t4 t) (t5 t)) r true in
  mkMat (t0 r) (t1 r) (t2 r) (t3 r) (- Point.x p) (- Point.y p).

Definition declining : StrategyId := 999%nat.

Definition result_of (s : StrategyId) : option LayoutStrategyResult.t :=
  if Nat.eqb s declining then None
  else Some (LayoutStrategyResult.make (inject_Z (Z.of_nat s)) 0 200 100
               None None None None).

Definition collaborators : Collaborators := {|
  calcLayoutResult := fun s _ _ _ => result_of s;
  shouldLayoutClipPath := fun _ context _ =>
    negb (is_initialization (StrictLayoutContext.type context));
  getRelativeCenterPoint := center;
  calcOwnMatrix := own_matrix;
  setPositionByOrigin := position_by_origin;
  setCoords := fun o => o;
  invertTransform := invert;
  resolveOrigin := resolve |}.

Definition rect_a : ObjId := 3%nat.
Definition rect_b : ObjId := 4%nat.
Definition group_A : ObjId := 1%nat.
Definition group_B : ObjId := 2%nat.
Definition group_C : ObjId := 5%nat.
Definition manager_A : MgrId := 10%nat.
Definition manager_B : MgrId := 20%nat.
Definition manager_C : MgrId := 30%nat.

Definition rect (l tp : Q) (parent : ObjId) : FabricObject.t :=
  FabricObject.make l tp 100 100 1 1 0 origin_center origin_center
    (Some parent) None [] None false false [].

Definition container (l tp scale : Q) (parent : option ObjId) (manager : MgrId)
    (children : list ObjId) : FabricObject.t :=
  FabricObject.make l tp 200 100 scale scale 0 origin_center origin_center
    parent (Some manager) children None false false [].

(** The scene with the three managers in the given states. *)
Definition scene (mA mB mC : LayoutManager.t) : State :=
  mkState
    (<[rect_a := rect (-50) 0 group_A]>
      (<[rect_b := rect 50 0 group_A]>
        (<[group_A := container 0 0 2 (Some group_B) manager_A [rect_a; rect_b]]>
          (<[group_B := container 0 0 1 (Some group_C) manager_B [group_A]]>
            (<[group_C := container 0 0 1 None manager_C [group_B]]> ∅)))))
    (<[manager_A := mA]> (<[manager_B := mB]> (<[manager_C := mC]> ∅)))
    (<[100%nat := FitContentLayout]>
      (<[200%nat := FitContentLayout]> (<[300%nat := FitContentLayout]> ∅)))
    (<[7%nat := [rect_a]]> ∅)
    0%nat [].

(** A manager that has laid out before, with [prev] recorded. *)
Definition laid_out (strategy : StrategyId) (prev : option StrategyId)
    : LayoutManager.t :=
  LayoutManager.make true prev strategy ∅.

(** Nothing laid out yet. *)
Definition fresh_scene : State :=
  scene (LayoutManager.constructor 100%nat) (LayoutManager.constructor 200%nat)
        (LayoutManager.constructor 300%nat).

(** Every manager has laid out once with its own strategy. *)
Definition settled_scene : State :=
  scene (laid_out 100%nat (Some 100%nat)) (laid_out 200%nat (Some 200%nat))
        (laid_out 300%nat (Some 300%nat)).

(** A context as the listeners of [subscribe] and the container build it. *)
Definition request (ty : LayoutType) (target : ObjId) (targets : list ObjId)
    (path : option ArrId) : LayoutContext.t :=
  LayoutContext.make ty target targets false None None path None None None.

(** [performLayout] with the collaborators of the scene. *)
Definition run (fuel : nat) (this : MgrId) (context : LayoutContext.t)
    (st : State) : option State :=
  performLayout (collaborators := collaborators) fuel this context st.

End Scene.

(** ** Vocabulary of the further properties *)

(** The container [k] levels above [target], going through groups that have a
    layout manager. *)
Fixpoint ancestor (k : nat) (st : State) (target : ObjId) : option ObjId :=
  match k with
  | O => Some target
  | S k =>
      match parent_layoutManager st target with
      | Some (parent, _) => ancestor k st parent
      | None => None
      end
  end.

(** The scene of [Scene] with a loop: [group_C], the outermost container, is
    put inside [group_A], the innermost one. *)
Definition looped_scene : State :=
  update_obj Scene.group_C
    (fun _ => Scene.container 0 0 1 (Some Scene.group_A) Scene.manager_C
                [Scene.group_B])
    Scene.fresh_scene.

(** The table of [this] files every disposer under the object on which it
    registered its listener, as [subscribe] does. *)
Definition keyed (this : MgrId) (st : State) : bool :=
  forallb
    (fun entry =>
       forallb (fun d => Nat.eqb (d_object d) (fst entry)) (snd entry))
    (map_to_list (LayoutManager._subscriptions (mgr st this))).

(** Closures are numbered in the order of their creation: the listeners on
    the objects of the heap were all made before [next_handler]. *)
Definition listeners_made (st : State) : bool :=
  forallb
    (fun entry =>
       forallb (fun l => Nat.ltb (h_id (snd l)) (next_handler st))
               (FabricObject.__eventListeners (snd entry)))
    (map_to_list (objects st)).

(** The disposers in the table of [m] unregister closures made before
    [next_handler]. *)
Definition disposers_made (m : MgrId) (st : State) : bool :=
  forallb
    (fun entry =>
       forallb (fun d => Nat.ltb (d_handler d) (next_handler st)) (snd entry))
    (map_to_list (LayoutManager._subscriptions (mgr st m))).

(** The disposers in the table of [m] unregister listeners that [m]
    installed, and no other. *)
Definition disposers_own (m : MgrId) (st : State) : bool :=
  forallb
    (fun entry =>
       forallb
         (fun d =>
            forallb (fun l => implb (disposes d l) (Nat.eqb (h_manager (snd l)) m))
                    (listeners st (d_object d)))
         (snd entry))
    (map_to_list (LayoutManager._subscriptions (mgr st m))).

(** The table of [m] and the listeners of the heap are as calls of
    [subscribe] and of disposers leave them. *)
Definition closures_ok (m : MgrId) (st : State) : bool :=
  listeners_made st && disposers_made m st && disposers_own m st.

(** The context that a closure of [subscribe] hands to [performLayout]:
    [{ trigger, e: { ...e, target: object }, type, target }]. *)
Definition listener_context (h : Handler) : LayoutContext.t :=
  LayoutContext.make (h_type h) (h_target h) [] false (Some (h_trigger h))
    (Some (h_object h)) None None None None.

Section Events.
Context {collaborators : Collaborators}.

(** The body of the closures of [subscribe]:
    [(e) => this.performLayout({ ... })]. *)
Definition call_listener (fuel : nat) (l : string * Handler) (st : State)
    : option State :=
  performLayout fuel (h_manager (snd l)) (listener_context (snd l)) st.

(** Modelled from the spec: [object.fire(event)] of the observable object, "a
    listener per named trigger ... that, when fired, constructs a new
    LayoutContext and calls performLayout".  The listeners registered on the
    event when it fires are called in the order of their registration. *)
Definition fire (fuel : nat) (object : ObjId) (event : string) (st : State)
    : option State :=
  foldl (fun r l => r ≫= call_listener fuel l) (Some st)
    (List.filter (fun l => String.eqb (fst l) event) (listeners st object)).

End Events.

(** The fields of an object that the manager itself never assigns: its own
    transform, its origins and its place in the scene graph. *)
Definition shape (o : FabricObject.t) :=
  (FabricObject.scaleX o, FabricObject.scaleY o, FabricObject.angle o,
   FabricObject.originX o, FabricObject.originY o,
   FabricObject.group o, FabricObject.layoutManager o,
   FabricObject._objects o, FabricObject.clipPath o,
   FabricObject.absolutePositioned o).

(** The object [o] is out of reach of a layout of [target] that bubbles
    through at most [n] containers: it is none of these containers, nor a
    child or the clip path of one of them. *)
Fixpoint outside (n : nat) (st : State) (target o : ObjId) : bool :=
  negb (Nat.eqb o target)
  && negb (bool_decide (FabricObject.group (obj st o) = Some target))
  && negb (bool_decide (FabricObject.clipPath (obj st target) = Some o))
  && match parent_layoutManager st target with
     | None => true
     | Some (parent, _) =>
         match n with
         | O => false
         | S n => outside n st parent o
         end
     end.

(** Lines 225 to 229 of [layoutObjects]: the loop over the children.  It
    leaves the heap in which [shouldLayoutClipPath] is evaluated. *)
Definition layoutObjects_children (context : StrictLayoutContext.t)
    (layoutResult : LayoutResult.t) (st : State) : State :=
  let target := StrictLayoutContext.target context in
  if negb (is_initialization (StrictLayoutContext.type context))
     || negb (StrictLayoutContext.objectsRelativeToGroup context)
  then
    foldl (fun st object =>
             if bool_decide (FabricObject.group (obj st object) = Some target)
             then layoutObject context layoutResult object st
             else st)
          st (FabricObject._objects (obj st target))
  else st.


(** A constructor of [Group] for the scene, which does what the constructor
    of the library is known for: the new group takes the elements as its
    objects and becomes their [group], it gets the layout manager of the
    properties, and it asks this manager for the initialization layout. *)
Definition scene_Group : GroupClass := {|
  new_Group := fun elements props st =>
    let group := fresh (dom (objects st)) in
    let manager :=
      match props !! "layoutManager"%string with
      | Some (prop_layoutManager m) => Some m
      | _ => None
      end in
    let st :=
      update_obj group
        (fun _ => FabricObject.make 0 0 0 0 1 1 0 origin_center origin_center
                    None manager elements None false false []) st in
    let st :=
      foldl (fun st element =>
               update_obj element
                 (fun o =>
                    FabricObject.make
                      (FabricObject.left o) (FabricObject.top o)
                      (FabricObject.width o) (FabricObject.height o)
                      (FabricObject.scaleX o) (FabricObject.scaleY o)
                      (FabricObject.angle o)
                      (FabricObject.originX o) (FabricObject.originY o)
                      (Some group) (FabricObject.layoutManager o)
                      (FabricObject._objects o) (FabricObject.clipPath o)
                      (FabricObject.absolutePositioned o) (FabricObject.dirty o)
                      (FabricObject.__eventListeners o)) st)
            st elements in
    match manager with
    | Some m =>
        (group,
         default st
           (Scene.run 1 m (Scene.request initialization group elements None) st))
    | None => (group, st)
    end |}.

(** The settled scene with two more objects: a rectangle in a group of its
    own, which is not in the scene of the three containers, and a clip path
    on [group_A]. *)
Definition scene_with_clip : State :=
  update_obj Scene.group_A
    (fun _ => FabricObject.make 0 0 200 100 2 2 0 origin_center origin_center
                (Some Scene.group_B) (Some Scene.manager_A)
                [Scene.rect_a; Scene.rect_b] (Some 6%nat) false false [])
    (update_obj 6%nat (fun _ => Scene.rect 5 5 8%nat)
       (update_obj 9%nat (fun _ => Scene.rect 10 10 8%nat) Scene.settled_scene)).

(** * Properties *)

(** ** Reading after writing *)

Lemma obj_update_obj o f st o' :
  obj (update_obj o f st) o' = if decide (o = o') then f (obj st o) else obj st o'.
Proof.
  unfold obj, update_obj; simpl. rewrite lookup_insert.
  destruct (decide (o = o')); reflexivity.
Qed.

Lemma obj_update_obj_eq o f st : obj (update_obj o f st) o = f (obj st o).
Proof. rewrite obj_update_obj. destruct (decide (o = o)); congruence. Qed.

Lemma obj_update_obj_ne o f st o' :
  o ≠ o' -> obj (update_obj o f st) o' = obj st o'.
Proof. intros Hne. rewrite obj_update_obj. destruct (decide (o = o')); congruence. Qed.

Lemma mgr_update_mgr m f st m' :
  mgr (update_mgr m f st) m' = if decide (m = m') then f (mgr st m) else mgr st m'.
Proof.
  unfold mgr, update_mgr; simpl. rewrite lookup_insert.
  destruct (decide (m = m')); reflexivity.
Qed.

Lemma mgr_update_mgr_eq m f st : mgr (update_mgr m f st) m = f (mgr st m).
Proof. rewrite mgr_update_mgr. destruct (decide (m = m)); congruence. Qed.

Lemma array_push a v st a' :
  array (push a v st) a' = if decide (a = a') then array st a ++ [v] else array st a'.
Proof.
  unfold array, push; simpl. rewrite lookup_insert.
  destruct (decide (a = a')); reflexivity.
Qed.

Lemma array_app_of_lookup st st' (a : ArrId) :
  arrays st' !! a = arrays st !! a -> array st' a = array st a.
Proof. unfold array. intros ->. reflexivity. Qed.

Lemma listeners_update_mgr m f st o :
  listeners (update_mgr m f st) o = listeners st o.
Proof. reflexivity. Qed.

Lemma next_handler_update_mgr m f st :
  next_handler (update_mgr m f st) = next_handler st.
Proof. reflexivity. Qed.

(** ** The shape of [performLayout] *)

Section Shape.
Context {collaborators : Collaborators}.

Lemma performLayout_rejected fuel this context st :
  rejected (mgr st this) context = true ->
  performLayout (S fuel) this context st = Some st.
Proof. unfold rejected. intros Hr. simpl. rewrite Hr. reflexivity. Qed.

Lemma performLayout_pass fuel this context st :
  rejected (mgr st this) context = false ->
  performLayout (S fuel) this context st =
    let '(strictContext, bubblingContext, st1) := layout_pass this context st in
    match onAfterLayout (performLayout fuel) this strictContext bubblingContext st1 with
    | Some st2 => Some (record_strategy this strictContext st2)
    | None => None
    end.
Proof.
  unfold rejected. intros Hr. simpl. rewrite Hr. unfold layout_pass.
  destruct (getLayoutResult _ _); [reflexivity|].
  destruct (LayoutManager._firstLayoutDone (mgr (onBeforeLayout _ _ _) _));
    reflexivity.
Qed.

Lemma performLayout_records_strategy fuel this context st st' :
  rejected (mgr st this) context = false ->
  performLayout fuel this context st = Some st' ->
  LayoutManager._prevLayoutStrategy (mgr st' this)
  = Some (StrictLayoutContext.strategy (strictContext_of (mgr st this) context)).
Proof.
  intros Hr Hrun. destruct fuel as [|fuel]; [discriminate|].
  rewrite (performLayout_pass _ _ _ _ Hr) in Hrun.
  unfold layout_pass in Hrun.
  destruct (match getLayoutResult _ _ with Some _ => _ | None => _ end)
    as [bubblingContext st1].
  destruct (onAfterLayout _ _ _ _ _) as [st2|]; [|discriminate].
  injection Hrun as <-. unfold record_strategy. rewrite mgr_update_mgr_eq.
  reflexivity.
Qed.

End Shape.

(** ** Steps that touch listeners only *)

Section ListenerSteps.
Context {collaborators : Collaborators}.

Lemma listeners_step_refl st : listeners_step st st.
Proof. split; reflexivity. Qed.

Lemma listeners_step_trans st1 st2 st3 :
  listeners_step st1 st2 -> listeners_step st2 st3 -> listeners_step st1 st3.
Proof.
  intros [G1 B1 S1 A1 L1] [G2 B2 S2 A2 L2]. split.
  - intros o. rewrite G2. apply G1.
  - intros m. rewrite B2. apply B1.
  - congruence.
  - congruence.
  - congruence.
Qed.

Lemma listeners_step_update o ls st :
  listeners_step st
    (update_obj o (fun ob => FabricObject.set_listeners (ls ob) ob) st).
Proof.
  split; try reflexivity.
  intros o'. rewrite obj_update_obj. destruct (decide (o = o')); subst; reflexivity.
Qed.

Lemma dispose_step d st : listeners_step st (dispose d st).
Proof. unfold dispose. apply (listeners_step_update (d_object d) (fun ob => _)). Qed.

Lemma on_step object event handler st :
  listeners_step st (snd (on object event handler st)).
Proof.
  unfold on; simpl.
  eapply listeners_step_trans;
    [apply (listeners_step_update object
              (fun ob => FabricObject.__eventListeners ob
                         ++ [(event, handler (next_handler st))]))|].
  split; reflexivity.
Qed.

Lemma on_each_step object keys handler st :
  listeners_step st (snd (on_each object keys handler st)).
Proof.
  revert st. induction keys as [|key keys IH]; intros st; cbn [on_each].
  - apply listeners_step_refl.
  - pose proof (on_step object key (handler key) st) as Hon.
    destruct (on object key (handler key) st) as [d st1]. simpl in Hon.
    specialize (IH st1). destruct (on_each object keys handler st1) as [ds st2].
    simpl in *. eapply listeners_step_trans; eassumption.
Qed.

Lemma foldl_step {A} (f : State -> A -> State) (l : list A) st :
  (forall st a, listeners_step st (f st a)) ->
  listeners_step st (foldl f st l).
Proof.
  intros Hf. revert st. induction l as [|a l IH]; intros st; simpl.
  - apply listeners_step_refl.
  - eapply listeners_step_trans; [apply Hf | apply IH].
Qed.

Lemma unsubscribe_step this context object st :
  listeners_step st (unsubscribe this context object st).
Proof. unfold unsubscribe. apply foldl_step. intros; apply dispose_step. Qed.

Lemma subscription_update_step this f st :
  listeners_step st
    (update_mgr this (fun m =>
       LayoutManager.set_subscriptions (f m) m) st).
Proof.
  split; try reflexivity.
  intros m. rewrite mgr_update_mgr. destruct (decide (this = m)); subst; reflexivity.
Qed.

Lemma subscribe_step this context object st :
  listeners_step st (subscribe this context object st).
Proof.
  unfold subscribe.
  pose proof (unsubscribe_step this context object st) as H0.
  set (st0 := unsubscribe this context object st) in *.
  match goal with |- context [on object ?ev ?h st0] =>
    pose proof (on_step object ev h st0) as H1;
    destruct (on object ev h st0) as [d1 st1] end.
  match goal with |- context [on_each object ?ks ?h st1] =>
    pose proof (on_each_step object ks h st1) as H2;
    destruct (on_each object ks h st1) as [ds st2] end.
  match goal with |- context [on object ?ev ?h st2] =>
    pose proof (on_step object ev h st2) as H3;
    destruct (on object ev h st2) as [d3 st3] end.
  simpl in *.
  repeat (eapply listeners_step_trans; [eassumption|]).
  apply (subscription_update_step this (fun m => <[object := _]> _)).
Qed.

Lemma onBeforeLayout_subscriptions_step this context st :
  exists st1,
    listeners_step st st1 /\
    onBeforeLayout this context st =
      append_log
        (Fire_layout_before (StrictLayoutContext.target context) context)
        (append_log
           (Call_onBeforeLayout (StrictLayoutContext.target context) context)
           st1).
Proof.
  unfold onBeforeLayout.
  destruct (StrictLayoutContext.type context);
    (eexists; split; [|reflexivity]);
    try apply listeners_step_refl;
    apply foldl_step; intros;
    first [apply subscribe_step | apply unsubscribe_step].
Qed.

Lemma onBeforeLayout_frame this context st :
  (forall o, geometry (obj (onBeforeLayout this context st) o)
             = geometry (obj st o))
  /\ (forall m, bookkeeping (mgr (onBeforeLayout this context st) m)
                = bookkeeping (mgr st m)).
Proof.
  destruct (onBeforeLayout_subscriptions_step this context st)
    as (st1 & [Hg Hb _ _ _] & ->).
  split; [exact Hg | exact Hb].
Qed.

End ListenerSteps.

(** ** Steps that touch objects only *)

Section ObjectSteps.
Context {collaborators : Collaborators}.

Lemma objects_step_refl st : objects_step st st.
Proof. repeat split. Qed.

Lemma objects_step_trans st1 st2 st3 :
  objects_step st1 st2 -> objects_step st2 st3 -> objects_step st1 st3.
Proof. unfold objects_step. intuition congruence. Qed.

Lemma update_obj_step o f st : objects_step st (update_obj o f st).
Proof. repeat split. Qed.

Lemma foldl_objects_step {A} (f : State -> A -> State) (l : list A) st :
  (forall st a, objects_step st (f st a)) ->
  objects_step st (foldl f st l).
Proof.
  intros Hf. revert st. induction l as [|a l IH]; intros st; simpl.
  - apply objects_step_refl.
  - eapply objects_step_trans; [apply Hf | apply IH].
Qed.

Lemma layoutObjects_step context layoutResult st :
  objects_step st (layoutObjects context layoutResult st).
Proof.
  unfold layoutObjects.
  match goal with |- context [foldl ?f st ?l] =>
    assert (Hfold : objects_step st (foldl f st l)) end.
  { apply foldl_objects_step. intros st0 a.
    destruct (bool_decide _); [apply update_obj_step | apply objects_step_refl]. }
  match goal with |- objects_step st (if _ then ?t else _) =>
    assert (Hclip : forall st1, objects_step st st1 ->
      objects_step st
        (match FabricObject.clipPath (obj st1 (StrictLayoutContext.target context)) with
         | Some clipPath =>
             if negb (FabricObject.absolutePositioned (obj st1 clipPath))
             then layoutObject context layoutResult clipPath st1
             else st1
         | None => st1
         end)) end.
  { intros st1 H1. destruct (FabricObject.clipPath _); [|exact H1].
    destruct (negb _); [|exact H1].
    eapply objects_step_trans; [exact H1 | apply update_obj_step]. }
  destruct (negb _ || negb _).
  - destruct (shouldLayoutClipPath _ _ _); [apply Hclip|]; exact Hfold.
  - destruct (shouldLayoutClipPath _ _ _); [apply Hclip|]; apply objects_step_refl.
Qed.

Lemma commitLayout_step context layoutResult st :
  objects_step st (commitLayout context layoutResult st).
Proof.
  unfold commitLayout.
  eapply objects_step_trans; [|apply update_obj_step].
  eapply objects_step_trans;
    [|destruct (negb _); [apply update_obj_step | apply objects_step_refl]].
  eapply objects_step_trans;
    [|destruct (is_initialization _);
      [apply update_obj_step
      |destruct (negb _); [apply update_obj_step | apply objects_step_refl]]].
  eapply objects_step_trans; [apply update_obj_step | apply layoutObjects_step].
Qed.

(** The heap after [layout_pass]: arrays and strategies are the ones it found,
    and the log has two more entries. *)
Lemma layout_pass_frame this context st :
  let strictContext := strictContext_of (mgr st this) context in
  exists result st1,
    layout_pass this context st = (strictContext, result, st1)
    /\ arrays st1 = arrays st
    /\ strategies st1 = strategies st
    /\ log st1
       = log st ++ [Call_onBeforeLayout (LayoutContext.target context) strictContext;
                    Fire_layout_before (LayoutContext.target context) strictContext].
Proof.
  intros strictContext. unfold layout_pass. fold strictContext.
  destruct (onBeforeLayout_subscriptions_step this strictContext st)
    as (st0 & [_ _ Hs Ha Hl] & Hbefore).
  assert (Hframe : arrays (onBeforeLayout this strictContext st) = arrays st
          /\ strategies (onBeforeLayout this strictContext st) = strategies st
          /\ log (onBeforeLayout this strictContext st)
             = log st ++ [Call_onBeforeLayout (LayoutContext.target context) strictContext;
                          Fire_layout_before (LayoutContext.target context) strictContext]).
  { rewrite Hbefore. simpl. rewrite Hs, Ha, Hl, <- app_assoc. repeat split. }
  destruct Hframe as (Ha1 & Hs1 & Hl1).
  destruct (getLayoutResult strictContext _) as [layoutResult|].
  - destruct (commitLayout_step strictContext layoutResult
                (onBeforeLayout this strictContext st)) as (_ & Hs2 & Ha2 & Hl2).
    eexists. eexists. split; [reflexivity|].
    unfold update_mgr, set_managers; cbn [arrays strategies log].
    rewrite Hs2, Ha2, Hl2. repeat split; assumption.
  - destruct (negb _); (eexists; eexists; split; [reflexivity|]);
      unfold update_mgr, set_managers; cbn [arrays strategies log];
      repeat split; assumption.
Qed.

(** The log only grows, and so does the set of arrays. *)
Lemma performLayout_log fuel : forall this context st st',
  performLayout fuel this context st = Some st' ->
  exists entries, log st' = log st ++ entries.
Proof.
  induction fuel as [|fuel IH]; intros this context st st' Hrun; [discriminate|].
  destruct (rejected (mgr st this) context) eqn:Hr.
  - rewrite (performLayout_rejected _ _ _ _ Hr) in Hrun. injection Hrun as <-.
    exists []. rewrite app_nil_r. reflexivity.
  - rewrite (performLayout_pass _ _ _ _ Hr) in Hrun.
    destruct (layout_pass_frame this context st)
      as (result & st1 & Hpass & _ & _ & Hlog).
    rewrite Hpass in Hrun. unfold onAfterLayout in Hrun.
    match type of Hrun with context [parent_layoutManager ?s ?t] =>
      destruct (parent_layoutManager s t) as [[parent manager]|] end.
    + match type of Hrun with context [push_path ?c ?t ?s] =>
        assert (Hpush : log (snd (push_path c t s)) = log s)
          by (unfold push_path; destruct (StrictLayoutContext.path c); reflexivity);
        destruct (push_path c t s) as [context' st2] end.
      simpl in Hpush.
      destruct (performLayout fuel manager _ st2) as [st3|] eqn:Hparent;
        [|discriminate].
      injection Hrun as <-. destruct (IH _ _ _ _ Hparent) as [entries Hentries].
      simpl. rewrite Hentries, Hpush. simpl. rewrite Hlog.
      eexists. rewrite <- !app_assoc. reflexivity.
    + injection Hrun as <-. simpl. rewrite Hlog.
      eexists. rewrite <- !app_assoc. reflexivity.
Qed.

End ObjectSteps.

(** ** Termination *)

Lemma same_links_refl st : same_links st st.
Proof. intros o. split; reflexivity. Qed.

Lemma same_links_trans st1 st2 st3 :
  same_links st1 st2 -> same_links st2 st3 -> same_links st1 st3.
Proof.
  intros H1 H2 o. destruct (H1 o) as [Hg1 Hm1], (H2 o) as [Hg2 Hm2].
  split; congruence.
Qed.

Lemma same_links_update o f st :
  keeps_links f -> same_links st (update_obj o f st).
Proof.
  intros Hf o'. rewrite obj_update_obj.
  destruct (decide (o = o')) as [->|_]; [apply Hf | split; reflexivity].
Qed.

Lemma same_links_foldl {A} (f : State -> A -> State) (l : list A) st :
  (forall st a, same_links st (f st a)) -> same_links st (foldl f st l).
Proof.
  intros Hf. revert st. induction l as [|a l IH]; intros st; cbn [foldl].
  - apply same_links_refl.
  - eapply same_links_trans; [apply Hf | apply IH].
Qed.

Lemma same_links_listeners_step st st' :
  listeners_step st st' -> same_links st st'.
Proof.
  intros [Hgeo _ _ _ _] o. specialize (Hgeo o). unfold geometry in Hgeo.
  split; [apply (f_equal FabricObject.group) in Hgeo
         |apply (f_equal FabricObject.layoutManager) in Hgeo]; exact Hgeo.
Qed.

Lemma same_links_parent st st' target :
  same_links st st' ->
  parent_layoutManager st' target = parent_layoutManager st target.
Proof.
  intros Hlinks. unfold parent_layoutManager.
  destruct (Hlinks target) as [-> _].
  destruct (FabricObject.group (obj st target)) as [parent|]; [|reflexivity].
  destruct (Hlinks parent) as [_ ->]. reflexivity.
Qed.

Lemma same_links_bubbles n : forall st st' target,
  same_links st st' ->
  bubbles_at_most n st' target = bubbles_at_most n st target.
Proof.
  induction n as [|n IH]; intros st st' target Hlinks; cbn [bubbles_at_most];
    rewrite (same_links_parent _ _ _ Hlinks);
    destruct (parent_layoutManager st target) as [[parent manager]|];
    try reflexivity.
  apply IH, Hlinks.
Qed.

Section Termination.
Context {collaborators : Collaborators}.
Hypothesis setPositionByOrigin_links :
  forall p ox oy, keeps_links (setPositionByOrigin p ox oy).
Hypothesis setCoords_links : keeps_links setCoords.

Lemma keeps_links_fields :
  (forall w h, keeps_links (FabricObject.set_width_height w h))
  /\ (forall l t, keeps_links (FabricObject.set_left_top l t))
  /\ (forall b, keeps_links (FabricObject.set_dirty b)).
Proof. repeat split. Qed.

Lemma layoutObject_links context layoutResult object st :
  same_links st (layoutObject context layoutResult object st).
Proof. apply same_links_update. intros o. split; reflexivity. Qed.

Lemma layoutObjects_links context layoutResult st :
  same_links st (layoutObjects context layoutResult st).
Proof.
  unfold layoutObjects.
  match goal with |- context [foldl ?f st ?l] =>
    assert (Hfold : same_links st (foldl f st l)) end.
  { apply same_links_foldl. intros st0 a.
    destruct (bool_decide _);
      [apply layoutObject_links | apply same_links_refl]. }
  assert (Hclip : forall st1, same_links st st1 ->
    same_links st
      (match FabricObject.clipPath (obj st1 (StrictLayoutContext.target context)) with
       | Some clipPath =>
           if negb (FabricObject.absolutePositioned (obj st1 clipPath))
           then layoutObject context layoutResult clipPath st1
           else st1
       | None => st1
       end)).
  { intros st1 H1. destruct (FabricObject.clipPath _); [|exact H1].
    destruct (negb _); [|exact H1].
    eapply same_links_trans; [exact H1 | apply layoutObject_links]. }
  destruct (negb _ || negb _).
  - destruct (shouldLayoutClipPath _ _ _); [apply Hclip|]; exact Hfold.
  - destruct (shouldLayoutClipPath _ _ _); [apply Hclip|];
      apply same_links_refl.
Qed.

Lemma commitLayout_links context layoutResult st :
  same_links st (commitLayout context layoutResult st).
Proof.
  destruct keeps_links_fields as (Hsize & Hposition & Hdirty).
  unfold commitLayout.
  eapply same_links_trans; [|apply same_links_update, Hdirty].
  eapply same_links_trans;
    [|destruct (negb _);
      [apply same_links_update, setCoords_links | apply same_links_refl]].
  eapply same_links_trans;
    [|destruct (is_initialization _);
      [apply same_links_update, Hposition
      |destruct (negb _);
       [apply same_links_update, setPositionByOrigin_links
       |apply same_links_refl]]].
  eapply same_links_trans;
    [apply same_links_update, Hsize | apply layoutObjects_links].
Qed.

Lemma layout_pass_links this context st :
  same_links st (snd (layout_pass this context st)).
Proof.
  unfold layout_pass.
  set (strictContext := strictContext_of (mgr st this) context).
  assert (Hbefore : same_links st (onBeforeLayout this strictContext st)).
  { destruct (onBeforeLayout_subscriptions_step this strictContext st)
      as (st0 & Hstep & ->).
    apply same_links_listeners_step in Hstep. exact Hstep. }
  destruct (getLayoutResult strictContext _) as [layoutResult|].
  - cbn [snd]. intros o.
    destruct (same_links_trans _ _ _ Hbefore
                (commitLayout_links strictContext layoutResult _) o) as [Hg Hm].
    split; [exact Hg | exact Hm].
  - destruct (negb _); cbn [snd]; exact Hbefore.
Qed.

(** [performLayout] returns when the containers above the target are finitely
    many, for collaborators that leave the scene graph as it is: the fuel
    needed is one more than the number of containers to bubble through. *)
Lemma performLayout_returns n : forall this context st,
  bubbles_at_most n st (LayoutContext.target context) = true ->
  is_Some (performLayout (S n) this context st).
Proof.
  induction n as [|n IH]; intros this context st Hchain;
    (destruct (rejected (mgr st this) context) eqn:Hr;
     [rewrite (performLayout_rejected _ _ _ _ Hr); eexists; reflexivity|]);
    rewrite (performLayout_pass _ _ _ _ Hr);
    pose proof (layout_pass_links this context st) as Hlinks;
    destruct (layout_pass_frame this context st) as (result & st1 & Hpass & _);
    rewrite Hpass in Hlinks |- *; cbn [snd] in Hlinks;
    unfold onAfterLayout;
    set (strictContext := strictContext_of (mgr st this) context) in *;
    replace (StrictLayoutContext.target strictContext)
      with (LayoutContext.target context) by reflexivity;
    set (target := LayoutContext.target context) in *;
    set (st_hook := append_log (Fire_layout target strictContext result)
                      (append_log (Call_onAfterLayout target strictContext result)
                         st1));
    change (parent_layoutManager st_hook target)
      with (parent_layoutManager st1 target);
    rewrite (same_links_parent _ _ _ Hlinks);
    cbn [bubbles_at_most] in Hchain;
    destruct (parent_layoutManager st target) as [[parent manager]|];
    try discriminate; try (eexists; reflexivity).
  assert (Hpush : same_links st (snd (push_path strictContext target st_hook))).
  { unfold push_path. destruct (StrictLayoutContext.path strictContext);
      cbn [snd]; exact Hlinks. }
  destruct (push_path strictContext target st_hook) as [bubbling st2].
  cbn [snd] in Hpush.
  destruct (IH manager (bubbled_context bubbling parent) st2) as [st3 Hst3].
  { change (LayoutContext.target (bubbled_context bubbling parent)) with parent.
    rewrite (same_links_bubbles _ _ _ _ Hpush). exact Hchain. }
  rewrite Hst3. eexists. reflexivity.
Qed.

End Termination.

(** The scene has three containers in a row, and its collaborators leave the
    scene graph as it is: a layout of the innermost one returns. *)
Lemma scene_returns :
  is_Some (Scene.run 3 Scene.manager_A
             (Scene.request object_modified Scene.group_A [] None)
             Scene.settled_scene).
Proof.
  apply (performLayout_returns (collaborators := Scene.collaborators)).
  - intros p ox oy o. split; reflexivity.
  - intros o. split; reflexivity.
  - reflexivity.
Qed.

(** ** The offset of [getLayoutResult] *)

Section Offset.
Context {collaborators : Collaborators}.

Lemma getLayoutResult_result context st result :
  calcLayoutResult (StrictLayoutContext.strategy context) context
    (FabricObject._objects (obj st (StrictLayoutContext.target context))) st
  = Some result ->
  let init := is_initialization (StrictLayoutContext.type context) in
  let container := obj st (StrictLayoutContext.target context) in
  let prevCenter :=
    if init then Point.zero else getRelativeCenterPoint container in
  let M := if init then iMatrix else invertTransform (calcOwnMatrix container) in
  getLayoutResult context st
  = Some (LayoutResult.make result prevCenter
            (Point.new (LayoutStrategyResult.centerX result)
                       (LayoutStrategyResult.centerY result))
            (if init && StrictLayoutContext.objectsRelativeToGroup context
             then Point.zero else spec_offset prevCenter M result)).
Proof. intros Hres. unfold getLayoutResult. rewrite Hres. reflexivity. Qed.

(** C1. When the strategy returns a result, [getLayoutResult] returns it with
    the offset [transform(prevCenter - nextCenter + correction, M) +
    relativeCorrection]: [prevCenter] is the container's current relative
    centre and [M] the inverse of its own matrix, or the zero point and the
    identity when the type is [initialization]; absent corrections count as
    0; and the offset is the zero point when the type is [initialization] and
    the context says that the objects are relative to the group.  Written out
    with the linear part of [M], the offset of a pass that is not an
    initialization is [M0 * dx + M2 * dy + rx] and [M1 * dx + M3 * dy + ry],
    for [d = prevCenter - nextCenter + correction]. *)
Theorem getLayoutResult_offset context st result :
  calcLayoutResult (StrictLayoutContext.strategy context) context
    (FabricObject._objects (obj st (StrictLayoutContext.target context))) st
  = Some result ->
  let init := is_initialization (StrictLayoutContext.type context) in
  let container := obj st (StrictLayoutContext.target context) in
  let prevCenter :=
    if init then Point.zero else getRelativeCenterPoint container in
  let M := if init then iMatrix else invertTransform (calcOwnMatrix container) in
  let nextCenter :=
    Point.new (LayoutStrategyResult.centerX result)
              (LayoutStrategyResult.centerY result) in
  let offset :=
    if init && StrictLayoutContext.objectsRelativeToGroup context
    then Point.zero else spec_offset prevCenter M result in
  getLayoutResult context st
  = Some (LayoutResult.make result prevCenter nextCenter offset)
  /\ (init = false ->
      let dx := (Point.x prevCenter - LayoutStrategyResult.centerX result
                 + default 0 (LayoutStrategyResult.correctionX result))%Q in
      let dy := (Point.y prevCenter - LayoutStrategyResult.centerY result
                 + default 0 (LayoutStrategyResult.correctionY result))%Q in
      (Point.x offset ==
         t0 M * dx + t2 M * dy
         + default 0 (LayoutStrategyResult.relativeCorrectionX result))%Q
      /\ (Point.y offset ==
            t1 M * dx + t3 M * dy
            + default 0 (LayoutStrategyResult.relativeCorrectionY result))%Q).
Proof.
  intros Hres init container prevCenter M nextCenter offset. split.
  - apply getLayoutResult_result, Hres.
  - intros Hinit dx dy. subst offset dx dy. rewrite Hinit.
    unfold spec_offset, Point.transform, Point.subtract, Point.zero, Point.add.
    cbn [andb Point.x Point.y]. split; ring.
Qed.

End Offset.

Lemma getLayoutResult_offset_witness :
  let context :=
    strictContext_of (mgr Scene.settled_scene Scene.manager_A)
      (Scene.request object_modified Scene.group_A [] None) in
  Scene.result_of 100%nat
  = Some (LayoutStrategyResult.make 100 0 200 100 None None None None)
  /\ exists layoutResult,
       getLayoutResult (collaborators := Scene.collaborators) context
         Scene.settled_scene = Some layoutResult
       /\ (Point.x (LayoutResult.offset layoutResult) == -50)%Q
       /\ (Point.y (LayoutResult.offset layoutResult) == 0)%Q.
Proof.
  intros context. split; [reflexivity|].
  destruct (getLayoutResult_offset (collaborators := Scene.collaborators)
              context Scene.settled_scene
              (LayoutStrategyResult.make 100 0 200 100 None None None None)
              eq_refl) as [Heq _].
  eexists. split; [exact Heq|]. split; reflexivity.
Defined.

(** ** The gate *)

Section Gate.
Context {collaborators : Collaborators}.

(** C2. A manager that has not laid out yet drops every request that is not
    an initialization: [performLayout] returns, and the heap it leaves
    (objects and their listeners, managers and their tables, arrays, and the
    log of hooks and events) is the heap it found. *)
Theorem performLayout_before_initialization fuel this context st :
  LayoutManager._firstLayoutDone (mgr st this) = false ->
  LayoutContext.type context <> initialization ->
  performLayout (S fuel) this context st = Some st.
Proof.
  intros Hdone Hty. apply performLayout_rejected. unfold rejected.
  rewrite Hdone. destruct (LayoutContext.type context); simpl; congruence.
Qed.

End Gate.

Lemma performLayout_before_initialization_witness :
  LayoutManager._firstLayoutDone (mgr Scene.fresh_scene Scene.manager_A) = false
  /\ Scene.run 1 Scene.manager_A
       (Scene.request object_modified Scene.group_A [] None) Scene.fresh_scene
     = Some Scene.fresh_scene.
Proof.
  split; [reflexivity|].
  apply (performLayout_before_initialization (collaborators := Scene.collaborators)
           0 Scene.manager_A _ Scene.fresh_scene); [reflexivity | discriminate].
Defined.

(** ** The first layout of a strategy that gives no result *)

Section FirstLayout.
Context {collaborators : Collaborators}.

(** C3. The manager never laid out, the request is an initialization and the
    strategy returns no result: [onAfterLayout] is called with a result whose
    [prevCenter] and [nextCenter] are the current relative centre of the
    container, whose offset is the zero point and whose [centerX], [centerY],
    [width] and [height] are the centre and the current size of the container.
    The hook and the event receive that result: they are the entries that
    follow the two of [onBeforeLayout] in the log, before anything is asked of
    a parent.  Nothing was committed: at that point every object has the
    fields it had when [performLayout] was entered, listeners apart. *)
Theorem first_layout_fallback fuel this context st :
  LayoutManager._firstLayoutDone (mgr st this) = false ->
  LayoutContext.type context = initialization ->
  let strictContext := strictContext_of (mgr st this) context in
  let target := LayoutContext.target context in
  let st1 := onBeforeLayout this strictContext st in
  calcLayoutResult (StrictLayoutContext.strategy strictContext) strictContext
    (FabricObject._objects (obj st1 target)) st1 = None ->
  let center := getRelativeCenterPoint (obj st1 target) in
  let fallback :=
    LayoutResult.make
      (LayoutStrategyResult.make (Point.x center) (Point.y center)
         (FabricObject.width (obj st target))
         (FabricObject.height (obj st target)) None None None None)
      center center Point.zero in
  let st2 := update_mgr this (LayoutManager.set_firstLayoutDone true) st1 in
  let st3 :=
    append_log (Fire_layout target strictContext (Some fallback))
      (append_log (Call_onAfterLayout target strictContext (Some fallback)) st2) in
  layout_pass this context st = (strictContext, Some fallback, st2)
  /\ log st3
     = log st ++ [Call_onBeforeLayout target strictContext;
                  Fire_layout_before target strictContext;
                  Call_onAfterLayout target strictContext (Some fallback);
                  Fire_layout target strictContext (Some fallback)]
  /\ (forall o, geometry (obj st3 o) = geometry (obj st o))
  /\ performLayout (S fuel) this context st
     = (match parent_layoutManager st3 target with
        | Some (parent, manager) =>
            let '(bubbling, st4) := push_path strictContext target st3 in
            performLayout fuel manager (bubbled_context bubbling parent) st4
        | None => Some st3
        end ≫= fun st5 => Some (record_strategy this strictContext st5))
  /\ (forall st',
        performLayout (S fuel) this context st = Some st' ->
        exists entries, log st' = log st3 ++ entries).
Proof.
  intros Hdone Hty strictContext target st1 Hnone center fallback st2 st3.
  destruct (onBeforeLayout_frame this strictContext st) as [Hgeo Hbook].
  fold st1 in Hgeo, Hbook.
  assert (Hdone1 : LayoutManager._firstLayoutDone (mgr st1 this) = false).
  { specialize (Hbook this). unfold bookkeeping in Hbook. congruence. }
  assert (Hsize : FabricObject.width (obj st1 target)
                  = FabricObject.width (obj st target)
                  /\ FabricObject.height (obj st1 target)
                     = FabricObject.height (obj st target)).
  { specialize (Hgeo target). unfold geometry in Hgeo.
    split; [apply (f_equal FabricObject.width) in Hgeo
           |apply (f_equal FabricObject.height) in Hgeo]; exact Hgeo. }
  destruct Hsize as [Hw Hh].
  assert (Hpass : layout_pass this context st = (strictContext, Some fallback, st2)).
  { unfold layout_pass. fold strictContext. fold st1.
    unfold getLayoutResult.
    replace (StrictLayoutContext.target strictContext) with target by reflexivity.
    rewrite Hnone, Hdone1. simpl. unfold fallback_result.
    replace (StrictLayoutContext.target strictContext) with target by reflexivity.
    fold center. rewrite Hw, Hh. reflexivity. }
  assert (Hr : rejected (mgr st this) context = false).
  { unfold rejected. rewrite Hty, andb_false_r. reflexivity. }
  assert (Hrun : performLayout (S fuel) this context st
     = (match parent_layoutManager st3 target with
        | Some (parent, manager) =>
            let '(bubbling, st4) := push_path strictContext target st3 in
            performLayout fuel manager (bubbled_context bubbling parent) st4
        | None => Some st3
        end ≫= fun st5 => Some (record_strategy this strictContext st5))).
  { rewrite (performLayout_pass _ _ _ _ Hr), Hpass. reflexivity. }
  assert (Hlog3 : log st3
     = log st ++ [Call_onBeforeLayout target strictContext;
                  Fire_layout_before target strictContext;
                  Call_onAfterLayout target strictContext (Some fallback);
                  Fire_layout target strictContext (Some fallback)]).
  { destruct (layout_pass_frame this context st)
      as (result' & st1' & Hpass' & _ & _ & Hlog).
    fold strictContext in Hpass', Hlog. rewrite Hpass in Hpass'.
    injection Hpass' as _ <-.
    change (log st3)
      with ((log st2 ++ [Call_onAfterLayout target strictContext (Some fallback)])
            ++ [Fire_layout target strictContext (Some fallback)]).
    rewrite Hlog, <- !app_assoc. reflexivity. }
  split; [exact Hpass|]. split; [exact Hlog3|]. split; [|split; [exact Hrun|]].
  - intros o. change (obj st3 o) with (obj st1 o). apply Hgeo.
  - intros st' Hst'. rewrite Hrun in Hst'.
    destruct (parent_layoutManager st3 target) as [[parent manager]|].
    + assert (Hpush : log (snd (push_path strictContext target st3)) = log st3)
        by (unfold push_path; destruct (StrictLayoutContext.path strictContext);
            reflexivity).
      destruct (push_path strictContext target st3) as [bubbling st4].
      cbn [snd] in Hpush.
      destruct (performLayout fuel manager _ st4) as [st5|] eqn:Hparent;
        [|discriminate].
      injection Hst' as <-.
      destruct (performLayout_log _ _ _ _ _ Hparent) as [entries Hentries].
      exists entries.
      change (log (record_strategy this strictContext st5)) with (log st5).
      rewrite Hentries, Hpush. reflexivity.
    + cbn [mbind option_bind] in Hst'. injection Hst' as <-. exists [].
      rewrite app_nil_r. reflexivity.
Qed.

End FirstLayout.

Lemma first_layout_fallback_witness :
  let st :=
    Scene.scene (LayoutManager.constructor Scene.declining)
      (LayoutManager.constructor 200) (LayoutManager.constructor 300) in
  let request :=
    Scene.request initialization Scene.group_A [Scene.rect_a; Scene.rect_b] None in
  Scene.result_of Scene.declining = None
  /\ exists strictContext fallback st2,
       layout_pass (collaborators := Scene.collaborators) Scene.manager_A
         request st = (strictContext, Some fallback, st2)
       /\ LayoutResult.offset fallback = Point.zero
       /\ LayoutResult.prevCenter fallback = LayoutResult.nextCenter fallback
       /\ LayoutStrategyResult.width (LayoutResult.result fallback) = 200%Q
       /\ LayoutStrategyResult.height (LayoutResult.result fallback) = 100%Q.
Proof.
  intros st request. split; [reflexivity|].
  destruct (first_layout_fallback (collaborators := Scene.collaborators)
              3 Scene.manager_A request st eq_refl eq_refl eq_refl)
    as (Hpass & _).
  eexists _, _, _. split; [exact Hpass|]. repeat split.
Defined.

(** ** Bubbling *)

Section Bubbling.
Context {collaborators : Collaborators}.

(** C4. A pass that is not rejected, on a container whose group has a layout
    manager: after the pass proper (commit included) [onAfterLayout] calls the
    hook and fires the event, which are the last two entries of the log when
    the parent's manager is called; the container is pushed on the path of the
    context, a new array when the context had none; and the rest of
    [performLayout] is one call of [performLayout] on the parent's manager,
    followed by the recording of the strategy.  The context of that call is
    the strict context of the pass with two fields replaced: its [target] is
    the parent and its [path] is that array; the type, the targets, the
    trigger, the event, the strategy, the previous strategy and the flag of
    strategy change are those of the strict context of the child. *)
Theorem performLayout_bubbles fuel this context st :
  rejected (mgr st this) context = false ->
  let '(strictContext, result, st1) := layout_pass this context st in
  let target := LayoutContext.target context in
  forall parent manager,
    FabricObject.group (obj st1 target) = Some parent ->
    FabricObject.layoutManager (obj st1 parent) = Some manager ->
    exists a st2,
      strictContext = strictContext_of (mgr st this) context
      /\ log st2
         = log st1 ++ [Call_onAfterLayout target strictContext result;
                       Fire_layout target strictContext result]
      /\ objects st2 = objects st1
      /\ managers st2 = managers st1
      /\ match StrictLayoutContext.path strictContext with
         | Some a0 => a = a0 /\ array st2 a = array st1 a0 ++ [target]
         | None => (a ∉ dom (arrays st1)) /\ array st2 a = [target]
         end
      /\ (forall a', a' <> a -> arrays st2 !! a' = arrays st1 !! a')
      /\ LayoutContext.target
           (bubbled_context (StrictLayoutContext.set_path (Some a) strictContext)
              parent) = parent
      /\ performLayout (S fuel) this context st
         = (performLayout fuel manager
              (bubbled_context
                 (StrictLayoutContext.set_path (Some a) strictContext) parent)
              st2
            ≫= fun st3 => Some (record_strategy this strictContext st3))
      /\ bubbled_context (StrictLayoutContext.set_path (Some a) strictContext)
           parent
         = LayoutContext.make
             (StrictLayoutContext.type strictContext)
             parent
             (StrictLayoutContext.targets strictContext)
             (StrictLayoutContext.objectsRelativeToGroup strictContext)
             (StrictLayoutContext.trigger strictContext)
             (StrictLayoutContext.e strictContext)
             (Some a)
             (Some (StrictLayoutContext.strategy strictContext))
             (Some (StrictLayoutContext.prevStrategy strictContext))
             (Some (StrictLayoutContext.strategyChange strictContext))
      /\ performLayout (S fuel) this context st
         = (performLayout fuel manager
              (LayoutContext.make
                 (StrictLayoutContext.type strictContext)
                 parent
                 (StrictLayoutContext.targets strictContext)
                 (StrictLayoutContext.objectsRelativeToGroup strictContext)
                 (StrictLayoutContext.trigger strictContext)
                 (StrictLayoutContext.e strictContext)
                 (Some a)
                 (Some (StrictLayoutContext.strategy strictContext))
                 (Some (StrictLayoutContext.prevStrategy strictContext))
                 (Some (StrictLayoutContext.strategyChange strictContext)))
              st2
            ≫= fun st3 =>
                 Some (update_mgr this
                         (LayoutManager.set_prevLayoutStrategy
                            (Some (StrictLayoutContext.strategy strictContext)))
                         st3)).
Proof.
  intros Hr. rewrite (performLayout_pass _ _ _ _ Hr).
  destruct (layout_pass_frame this context st) as (result & st1 & Hpass & _).
  rewrite Hpass. intros target parent manager Hgroup Hmanager.
  set (strictContext := strictContext_of (mgr st this) context) in *.
  unfold onAfterLayout.
  replace (StrictLayoutContext.target strictContext) with target by reflexivity.
  set (st_hook := append_log (Fire_layout target strictContext result)
                    (append_log (Call_onAfterLayout target strictContext result) st1)).
  assert (Hparent : parent_layoutManager st_hook target = Some (parent, manager)).
  { unfold parent_layoutManager.
    change (obj st_hook target) with (obj st1 target). rewrite Hgroup.
    change (obj st_hook parent) with (obj st1 parent). rewrite Hmanager.
    reflexivity. }
  rewrite Hparent. unfold push_path.
  destruct (StrictLayoutContext.path strictContext) as [a0|] eqn:Hpath.
  - exists a0, (push a0 target st_hook).
    assert (Hsame : StrictLayoutContext.set_path (Some a0) strictContext
                    = strictContext)
      by (destruct strictContext; simpl in *; subst; reflexivity).
    split; [reflexivity|].
    split; [simpl; rewrite <- app_assoc; reflexivity|].
    split; [reflexivity|]. split; [reflexivity|].
    split; [split; [reflexivity|]; rewrite array_push;
            destruct (decide (a0 = a0)); [reflexivity | congruence]|].
    split; [intros a' Ha'; simpl; apply lookup_insert_ne; congruence|].
    split; [reflexivity|].
    split; [rewrite Hsame; reflexivity|].
    split; [reflexivity|].
    replace (Some a0) with (StrictLayoutContext.path strictContext).
    reflexivity.
  - unfold new_array.
    set (a := fresh (dom (arrays st_hook))).
    exists a, (push a target (set_arrays (<[a := []]> (arrays st_hook)) st_hook)).
    split; [reflexivity|].
    split; [simpl; rewrite <- app_assoc; reflexivity|].
    split; [reflexivity|]. split; [reflexivity|].
    split; [split; [apply is_fresh|]|].
    { rewrite array_push. destruct (decide (a = a)); [|congruence].
      unfold array; simpl. rewrite lookup_insert_eq. reflexivity. }
    split; [intros a' Ha'; simpl; rewrite !lookup_insert_ne by congruence;
            reflexivity|].
    split; [reflexivity|]. split; [reflexivity|]. split; reflexivity.
Qed.

End Bubbling.

Lemma performLayout_bubbles_witness :
  let request := Scene.request object_modified Scene.group_A [] None in
  let '(strictContext, result, st1) :=
    layout_pass (collaborators := Scene.collaborators) Scene.manager_A request
      Scene.settled_scene in
  FabricObject.group (obj st1 Scene.group_A) = Some Scene.group_B
  /\ FabricObject.layoutManager (obj st1 Scene.group_B) = Some Scene.manager_B
  /\ exists a st2,
       array st2 a = [Scene.group_A]
       /\ Scene.run 4 Scene.manager_A request Scene.settled_scene
          = (Scene.run 3 Scene.manager_B
               (LayoutContext.make object_modified Scene.group_B [] false None
                  None (Some a) (Some 100%nat) (Some (Some 100%nat)) (Some false))
               st2
             ≫= fun st3 => Some (record_strategy Scene.manager_A strictContext st3)).
Proof.
  intros request.
  pose proof (performLayout_bubbles (collaborators := Scene.collaborators)
                3 Scene.manager_A request Scene.settled_scene eq_refl) as Hbubbles.
  destruct (layout_pass Scene.manager_A request Scene.settled_scene)
    as [[strictContext result] st1] eqn:Hpass.
  assert (Hst1 : st1 = snd (layout_pass (collaborators := Scene.collaborators)
                              Scene.manager_A request Scene.settled_scene))
    by (rewrite Hpass; reflexivity).
  assert (Hgroup : FabricObject.group (obj st1 Scene.group_A) = Some Scene.group_B)
    by (rewrite Hst1; vm_compute; reflexivity).
  assert (Hmanager : FabricObject.layoutManager (obj st1 Scene.group_B)
                     = Some Scene.manager_B)
    by (rewrite Hst1; vm_compute; reflexivity).
  split; [exact Hgroup|]. split; [exact Hmanager|].
  destruct (Hbubbles Scene.group_B Scene.manager_B Hgroup Hmanager)
    as (a & st2 & Hsc & _ & _ & _ & Hpath & _ & _ & _ & _ & Hrun).
  exists a, st2.
  assert (Hnone : StrictLayoutContext.path strictContext = None)
    by (rewrite Hsc; reflexivity).
  rewrite Hnone in Hpath. split; [apply Hpath|].
  unfold Scene.run. rewrite Hrun, Hsc. reflexivity.
Defined.

(** ** Listeners *)

Lemma filter_filter_andb {A} (P Q : A -> bool) (l : list A) :
  List.filter P (List.filter Q l) = List.filter (fun a => Q a && P a) l.
Proof.
  induction l as [|a l IH]; simpl; [reflexivity|].
  destruct (Q a); simpl; [destruct (P a)|]; rewrite IH; reflexivity.
Qed.

Lemma filter_none {A} (P : A -> bool) (l : list A) :
  (forall a, In a l -> P a = false) -> List.filter P l = [].
Proof.
  induction l as [|a l IH]; simpl; intros Hall; [reflexivity|].
  rewrite (Hall a) by (left; reflexivity). apply IH. intros b Hb. apply Hall.
  right. exact Hb.
Qed.

Lemma filter_all {A} (P : A -> bool) (l : list A) :
  (forall a, In a l -> P a = true) -> List.filter P l = l.
Proof.
  induction l as [|a l IH]; simpl; intros Hall; [reflexivity|].
  rewrite (Hall a) by (left; reflexivity). f_equal. apply IH. intros b Hb.
  apply Hall. right. exact Hb.
Qed.

Lemma forallb_filter {A} (f g : A -> bool) (l : list A) :
  forallb f l = true -> forallb f (List.filter g l) = true.
Proof.
  rewrite !forallb_forall. intros Hall a Ha. apply Hall.
  apply filter_In in Ha. tauto.
Qed.

Lemma listeners_dispose d st o :
  listeners (dispose d st) o
  = if decide (d_object d = o)
    then List.filter (fun l => negb (disposes d l)) (listeners st o)
    else listeners st o.
Proof.
  unfold listeners, dispose. rewrite obj_update_obj.
  destruct (decide (d_object d = o)); subst; reflexivity.
Qed.

Lemma listeners_foldl_dispose ds : forall st o,
  listeners (foldl (fun st d => dispose d st) st ds) o
  = List.filter (survives ds o) (listeners st o).
Proof.
  induction ds as [|d ds IH]; intros st o; cbn [foldl].
  - symmetry. apply filter_all. reflexivity.
  - rewrite IH, listeners_dispose. unfold survives. cbn [forallb].
    destruct (decide (d_object d = o)) as [Heq|Hne].
    + rewrite filter_filter_andb. apply filter_ext. intros l.
      rewrite Heq, Nat.eqb_refl. reflexivity.
    + apply filter_ext. intros l.
      destruct (Nat.eqb_spec (d_object d) o); [congruence | reflexivity].
Qed.

Lemma managers_foldl_dispose ds : forall st,
  managers (foldl (fun st d => dispose d st) st ds) = managers st
  /\ next_handler (foldl (fun st d => dispose d st) st ds) = next_handler st.
Proof.
  induction ds as [|d ds IH]; intros st; simpl; [split; reflexivity|].
  destruct (IH (dispose d st)) as [-> ->]. split; reflexivity.
Qed.

Lemma existsb_disposer_of object ls l :
  In l ls ->
  existsb (fun d => Nat.eqb (d_object d) object && disposes d l)
          (map (disposer_of object) ls) = true.
Proof.
  intros Hin. apply existsb_exists. exists (disposer_of object l). split.
  - apply in_map, Hin.
  - unfold disposes, disposer_of; simpl.
    rewrite !Nat.eqb_refl, String.eqb_refl. reflexivity.
Qed.

Lemma on_add_listener object event handler st :
  on object event handler st
  = (mkDisposer object event (next_handler st),
     add_listener object (event, handler (next_handler st)) st).
Proof. reflexivity. Qed.

Lemma next_handler_add_listener object l st :
  next_handler (add_listener object l st) = S (next_handler st).
Proof. reflexivity. Qed.

Lemma listeners_add_listener_eq object l st :
  listeners (add_listener object l st) object = listeners st object ++ [l].
Proof.
  unfold listeners, add_listener.
  change (obj (set_next_handler ?k ?s) object) with (obj s object).
  rewrite obj_update_obj_eq. reflexivity.
Qed.

Lemma add_listeners_nil object st : add_listeners object [] st = st.
Proof. reflexivity. Qed.

Lemma add_listeners_cons object l ls st :
  add_listeners object (l :: ls) st
  = add_listeners object ls (add_listener object l st).
Proof. reflexivity. Qed.

Lemma add_listeners_app object ls ls' st :
  add_listeners object (ls ++ ls') st
  = add_listeners object ls' (add_listeners object ls st).
Proof. unfold add_listeners. apply foldl_app. Qed.

Lemma listeners_add_listeners object ls : forall st,
  listeners (add_listeners object ls st) object = listeners st object ++ ls.
Proof.
  induction ls as [|l ls IH]; intros st; unfold add_listeners; cbn [foldl].
  - rewrite app_nil_r. reflexivity.
  - fold (add_listeners object ls (add_listener object l st)).
    rewrite IH, listeners_add_listener_eq, <- app_assoc. reflexivity.
Qed.

Lemma listeners_add_listeners_ne object ls o : forall st,
  object <> o -> listeners (add_listeners object ls st) o = listeners st o.
Proof.
  induction ls as [|l ls IH]; intros st Hne; [reflexivity|].
  rewrite add_listeners_cons, IH by exact Hne.
  unfold listeners, add_listener.
  change (obj (set_next_handler ?k ?s) o) with (obj s o).
  rewrite obj_update_obj_ne by exact Hne. reflexivity.
Qed.

Lemma next_handler_add_listeners object ls : forall st,
  next_handler (add_listeners object ls st) = (length ls + next_handler st)%nat.
Proof.
  induction ls as [|l ls IH]; intros st; unfold add_listeners; cbn [foldl].
  - reflexivity.
  - fold (add_listeners object ls (add_listener object l st)).
    rewrite IH, next_handler_add_listener. simpl. lia.
Qed.

Lemma managers_add_listeners object ls : forall st,
  managers (add_listeners object ls st) = managers st.
Proof.
  induction ls as [|l ls IH]; intros st; [reflexivity|].
  rewrite add_listeners_cons, IH. reflexivity.
Qed.

Lemma on_each_eq object keys handler : forall st,
  on_each object keys handler st
  = (each_disposers object keys (next_handler st),
     add_listeners object (each_listeners keys handler (next_handler st)) st).
Proof.
  induction keys as [|key keys IH]; intros st;
    cbn [on_each each_listeners each_disposers].
  - reflexivity.
  - rewrite on_add_listener. cbv beta iota. rewrite IH.
    rewrite next_handler_add_listener. reflexivity.
Qed.

Lemma map_disposer_of_each object keys handler :
  (forall key n, h_id (handler key n) = n) ->
  forall n, map (disposer_of object) (each_listeners keys handler n)
            = each_disposers object keys n.
Proof.
  intros Hid. induction keys as [|key keys IH]; intros n;
    cbn [each_listeners each_disposers map]; [reflexivity|].
  rewrite IH. unfold disposer_of at 1. cbn [fst snd]. rewrite Hid. reflexivity.
Qed.

Lemma subscribed_listeners_eq this target object n :
  subscribed_listeners this target object n
  = ("modified"%string, mkHandler n this "modified" object_modified object target)
    :: each_listeners TModificationEvents
         (fun key id => mkHandler id this key object_modifying object target)
         (S n)
    ++ [("changed"%string,
         mkHandler
           (length (each_listeners TModificationEvents
                      (fun key id =>
                         mkHandler id this key object_modifying object target)
                      (S n))
            + S n)
           this "text:changed" object_modifying object target)].
Proof. reflexivity. Qed.

Lemma owned_listeners_listeners this o st :
  owned_listeners this o st
  = List.filter (fun l => Nat.eqb (h_manager (snd l)) this) (listeners st o).
Proof. reflexivity. Qed.

Lemma owned_append_log this o en st :
  owned_listeners this o (append_log en st) = owned_listeners this o st.
Proof. reflexivity. Qed.

Lemma owned_subscribed this target object n :
  List.filter (fun l => Nat.eqb (h_manager (snd l)) this)
    (subscribed_listeners this target object n)
  = subscribed_listeners this target object n.
Proof.
  apply filter_all. intros l Hl. unfold subscribed_listeners in Hl.
  repeat (destruct Hl as [<-|Hl]; [apply Nat.eqb_refl|]). destruct Hl.
Qed.

(** ** [unsubscribe] and [subscribe] *)

Lemma listeners_unsubscribe this context object st o :
  listeners (unsubscribe this context object st) o
  = List.filter (survives (subscription this object st) o) (listeners st o).
Proof. unfold unsubscribe. apply listeners_foldl_dispose. Qed.

Lemma managers_unsubscribe this context object st :
  managers (unsubscribe this context object st) = managers st
  /\ next_handler (unsubscribe this context object st) = next_handler st.
Proof. unfold unsubscribe. apply managers_foldl_dispose. Qed.

Lemma subscription_unsubscribe this context object st o :
  subscription this o (unsubscribe this context object st) = subscription this o st.
Proof.
  unfold subscription, mgr.
  destruct (managers_unsubscribe this context object st) as [-> _]. reflexivity.
Qed.

Lemma owned_unsubscribe this context object st m o :
  owned_listeners m o (unsubscribe this context object st)
  = List.filter (survives (subscription this object st) o)
      (owned_listeners m o st).
Proof.
  unfold owned_listeners. fold (listeners (unsubscribe this context object st) o).
  fold (listeners st o). rewrite listeners_unsubscribe, !filter_filter_andb.
  apply filter_ext. intros l. apply andb_comm.
Qed.

(** After [unsubscribe] no listener of the manager is left on the object. *)
Lemma owned_unsubscribe_covered this context object st :
  covered this object st = true ->
  owned_listeners this object (unsubscribe this context object st) = [].
Proof.
  intros Hcov. rewrite owned_unsubscribe. apply filter_none. intros l Hl.
  unfold covered in Hcov. rewrite forallb_forall in Hcov.
  specialize (Hcov l Hl). apply existsb_exists in Hcov as (d & Hd & Hdl).
  unfold survives. apply not_true_is_false. intros Hall.
  rewrite forallb_forall in Hall. specialize (Hall d Hd).
  rewrite Hdl in Hall. discriminate.
Qed.

Lemma covered_unsubscribe this context object st o :
  covered this o st = true ->
  covered this o (unsubscribe this context object st) = true.
Proof.
  unfold covered. rewrite owned_unsubscribe, subscription_unsubscribe.
  apply forallb_filter.
Qed.

Lemma owned_foldl_unsubscribe this context targets : forall st,
  (forall o, In o targets -> covered this o st = true) ->
  forall o, In o targets ->
    owned_listeners this o
      (foldl (fun st object => unsubscribe this context object st) st targets)
    = [].
Proof.
  assert (Hkeep : forall targets st o,
    owned_listeners this o st = [] ->
    owned_listeners this o
      (foldl (fun st object => unsubscribe this context object st) st targets)
    = []).
  { induction targets0 as [|t ts IH]; intros st o Hnil; simpl; [exact Hnil|].
    apply IH. rewrite owned_unsubscribe, Hnil. reflexivity. }
  induction targets as [|t ts IH]; intros st Hcov o Hin; simpl; [destruct Hin|].
  destruct (decide (o = t)) as [->|Hne].
  - apply Hkeep, owned_unsubscribe_covered, Hcov. left. reflexivity.
  - apply IH; [|destruct Hin; [congruence | assumption]].
    intros o' Ho'. apply covered_unsubscribe, Hcov. right. exact Ho'.
Qed.

(** [subscribe] in one piece: dispose, install the eight listeners, write the
    entry of the table. *)
Lemma subscribe_eq this context object st :
  let st0 := unsubscribe this context object st in
  let installed :=
    subscribed_listeners this (StrictLayoutContext.target context) object
      (next_handler st0) in
  subscribe this context object st
  = update_mgr this (fun m =>
      LayoutManager.set_subscriptions
        (<[object := map (disposer_of object) installed]>
           (LayoutManager._subscriptions m)) m)
      (add_listeners object installed st0).
Proof.
  intros st0 installed. subst installed. unfold subscribe. fold st0.
  rewrite on_add_listener. cbv beta iota.
  rewrite on_each_eq. cbv beta iota.
  rewrite on_add_listener. cbv beta iota.
  rewrite next_handler_add_listeners, !next_handler_add_listener.
  rewrite subscribed_listeners_eq.
  rewrite add_listeners_cons, add_listeners_app, add_listeners_cons,
    add_listeners_nil.
  rewrite map_cons, map_app, map_disposer_of_each by reflexivity.
  reflexivity.
Qed.

Lemma subscribe_effect this context object st :
  let st0 := unsubscribe this context object st in
  let installed :=
    subscribed_listeners this (StrictLayoutContext.target context) object
      (next_handler st) in
  listeners (subscribe this context object st) object
  = listeners st0 object ++ installed
  /\ subscription this object (subscribe this context object st)
     = map (disposer_of object) installed
  /\ next_handler (subscribe this context object st) = (8 + next_handler st)%nat.
Proof.
  intros st0 installed.
  destruct (managers_unsubscribe this context object st) as [_ Hnext].
  fold st0 in Hnext. rewrite subscribe_eq. fold st0. rewrite Hnext.
  fold installed. split; [|split].
  - rewrite listeners_update_mgr. apply listeners_add_listeners.
  - unfold subscription. rewrite mgr_update_mgr_eq.
    cbn [LayoutManager._subscriptions LayoutManager.set_subscriptions].
    rewrite lookup_insert_eq. reflexivity.
  - rewrite next_handler_update_mgr, next_handler_add_listeners, Hnext.
    reflexivity.
Qed.

(** The listeners of a manager on an object after a [subscribe] of [this] on
    [object]: those that survived the disposers, and the new ones when the
    manager is [this] and the object is [object]. *)
Lemma owned_subscribe this context object st m o :
  owned_listeners m o (subscribe this context object st)
  = List.filter (survives (subscription this object st) o)
      (owned_listeners m o st)
    ++ (if decide (object = o)
        then List.filter (fun l => Nat.eqb (h_manager (snd l)) m)
               (subscribed_listeners this (StrictLayoutContext.target context)
                  object (next_handler st))
        else []).
Proof.
  destruct (managers_unsubscribe this context object st) as [_ Hnext].
  rewrite owned_listeners_listeners, subscribe_eq, listeners_update_mgr, Hnext.
  destruct (decide (object = o)) as [<-|Hne].
  - rewrite listeners_add_listeners, List.filter_app,
      <- owned_listeners_listeners, owned_unsubscribe. reflexivity.
  - rewrite listeners_add_listeners_ne by exact Hne.
    rewrite <- owned_listeners_listeners, owned_unsubscribe, app_nil_r.
    reflexivity.
Qed.

Lemma subscription_subscribe this context object st m o :
  m <> this \/ o <> object ->
  subscription m o (subscribe this context object st) = subscription m o st.
Proof.
  intros Hne. unfold subscription. rewrite subscribe_eq, mgr_update_mgr.
  assert (Hmgr : forall m',
    mgr (add_listeners object
           (subscribed_listeners this (StrictLayoutContext.target context) object
              (next_handler (unsubscribe this context object st)))
           (unsubscribe this context object st)) m' = mgr st m').
  { intros m'. unfold mgr. rewrite managers_add_listeners.
    destruct (managers_unsubscribe this context object st) as [-> _].
    reflexivity. }
  destruct (decide (this = m)) as [<-|Hm].
  - cbn [LayoutManager._subscriptions LayoutManager.set_subscriptions].
    rewrite lookup_insert_ne by (destruct Hne; congruence).
    rewrite Hmgr. reflexivity.
  - rewrite Hmgr. reflexivity.
Qed.

(** A [subscribe] of [this] on [object] keeps every other entry of every
    table in account of its listeners. *)
Lemma covered_subscribe_other this context object st m o :
  m <> this \/ o <> object ->
  covered m o st = true ->
  covered m o (subscribe this context object st) = true.
Proof.
  intros Hne Hcov. unfold covered in *.
  rewrite owned_subscribe, (subscription_subscribe _ _ _ _ _ _ Hne).
  rewrite forallb_app. apply andb_true_intro. split.
  - apply forallb_filter, Hcov.
  - destruct (decide (object = o)) as [<-|Ho]; [|reflexivity].
    destruct Hne as [Hm|Ho]; [|congruence].
    rewrite filter_none; [reflexivity|]. intros l Hl.
    unfold subscribed_listeners in Hl.
    repeat (destruct Hl as [<-|Hl];
            [cbn [snd h_manager]; apply Nat.eqb_neq; congruence|]).
    destruct Hl.
Qed.

(** One [subscribe] on an object whose listeners the table accounts for. *)
Lemma subscribe_owned this context object st :
  covered this object st = true ->
  let installed :=
    subscribed_listeners this (StrictLayoutContext.target context) object
      (next_handler st) in
  owned_listeners this object (subscribe this context object st) = installed
  /\ subscription this object (subscribe this context object st)
     = map (disposer_of object) installed
  /\ covered this object (subscribe this context object st) = true
  /\ next_handler (subscribe this context object st) = (8 + next_handler st)%nat.
Proof.
  intros Hcov installed.
  destruct (subscribe_effect this context object st) as (Hls & Hsub & Hnext).
  fold installed in Hls, Hsub.
  assert (Hown : owned_listeners this object (subscribe this context object st)
                 = installed).
  { rewrite owned_listeners_listeners, Hls, List.filter_app,
      <- owned_listeners_listeners.
    rewrite (owned_unsubscribe_covered _ _ _ _ Hcov). apply owned_subscribed. }
  split; [exact Hown|]. split; [exact Hsub|]. split; [|exact Hnext].
  unfold covered. rewrite Hown, Hsub. apply forallb_forall. intros l Hl.
  apply existsb_disposer_of, Hl.
Qed.

(** ** The subscription table *)

(** C5. For an object whose listeners the table of the manager accounts for,
    [subscribe] leaves on the object exactly the eight listeners it installs
    (one on [modified], one on each of the six modification events, one more
    on [changed] for text), whatever the manager had installed there before;
    the entry of the table for the object is the list of their disposers, so
    the table accounts for the listeners again, and every entry of every table
    that accounted for its listeners still does; a second [subscribe] leaves
    the eight listeners of the second call and none of the first.  And
    [onBeforeLayout] with the type [removed] leaves no listener of the
    manager on any object of [targets]. *)
Theorem subscription_table_one_active_set this context object st :
  covered this object st = true ->
  forallb (fun o => covered this o st) (StrictLayoutContext.targets context)
  = true ->
  let n := next_handler st in
  let st' := subscribe this context object st in
  owned_listeners this object st'
  = subscribed_listeners this (StrictLayoutContext.target context) object n
  /\ subscription this object st'
     = map (disposer_of object)
         (subscribed_listeners this (StrictLayoutContext.target context) object n)
  /\ length (owned_listeners this object st') = 8%nat
  /\ covered this object st' = true
  /\ (forall m o, covered m o st = true -> covered m o st' = true)
  /\ (forall context2,
        owned_listeners this object (subscribe this context2 object st')
        = subscribed_listeners this (StrictLayoutContext.target context2) object
            (8 + n))
  /\ (StrictLayoutContext.type context = removed ->
      forall o, In o (StrictLayoutContext.targets context) ->
        owned_listeners this o (onBeforeLayout this context st) = []).
Proof.
  intros Hcov Htargets n st'.
  destruct (subscribe_owned this context object st Hcov)
    as (Hown & Hsub & Hcov' & Hnext).
  fold st' in Hown, Hsub, Hcov', Hnext. fold n in Hown, Hsub, Hnext.
  split; [exact Hown|]. split; [exact Hsub|].
  split; [rewrite Hown; reflexivity|]. split; [exact Hcov'|]. split; [|split].
  - intros m o Hmo.
    destruct (decide (m = this)) as [->|Hm];
      [destruct (decide (o = object)) as [->|Ho]|].
    + exact Hcov'.
    + apply covered_subscribe_other; [right; exact Ho | exact Hmo].
    + apply covered_subscribe_other; [left; exact Hm | exact Hmo].
  - intros context2.
    destruct (subscribe_owned this context2 object st' Hcov') as (Hown2 & _).
    rewrite Hown2, Hnext. reflexivity.
  - intros Hty o Ho. unfold onBeforeLayout. rewrite Hty.
    rewrite !owned_append_log. apply owned_foldl_unsubscribe; [|exact Ho].
    rewrite forallb_forall in Htargets. exact Htargets.
Qed.

Lemma subscription_table_one_active_set_witness :
  let context :=
    strictContext_of (mgr Scene.settled_scene Scene.manager_A)
      (Scene.request removed Scene.group_A [Scene.rect_a] None) in
  let st := subscribe Scene.manager_A
              context Scene.rect_a Scene.settled_scene in
  covered Scene.manager_A Scene.rect_a st = true
  /\ length (owned_listeners Scene.manager_A Scene.rect_a st) = 8%nat
  /\ length (owned_listeners Scene.manager_A Scene.rect_a
               (subscribe Scene.manager_A
                  context Scene.rect_a st)) = 8%nat
  /\ owned_listeners Scene.manager_A Scene.rect_a
       (onBeforeLayout Scene.manager_A
          context st) = [].
Proof.
  intros context st.
  assert (Hcov : covered Scene.manager_A Scene.rect_a st = true)
    by (vm_compute; reflexivity).
  assert (Htargets :
    forallb (fun o => covered Scene.manager_A o st)
      (StrictLayoutContext.targets context) = true)
    by (vm_compute; reflexivity).
  destruct (subscription_table_one_active_set
              Scene.manager_A context Scene.rect_a st Hcov Htargets)
    as (_ & _ & Hlen & _ & _ & _ & Hremoved).
  split; [exact Hcov|]. split; [vm_compute; reflexivity|].
  split; [exact Hlen|].
  apply Hremoved; [reflexivity | left; reflexivity].
Defined.

(** ** Numeric equality of points *)

Lemma Point_equiv_refl p : Point.equiv p p.
Proof. split; reflexivity. Qed.

Lemma Point_equiv_trans p q r :
  Point.equiv p q -> Point.equiv q r -> Point.equiv p r.
Proof. intros [Hx Hy] [Hx' Hy']. split; etransitivity; eassumption. Qed.

Lemma Point_add_zero p offset :
  Point.equiv offset Point.zero -> Point.equiv (Point.add p offset) p.
Proof.
  intros [Hx Hy]. unfold Point.add, Point.equiv in *. simpl in *.
  rewrite Hx, Hy. split; ring.
Qed.


Lemma same_positions_refl st : same_positions st st.
Proof. intros o. apply Point_equiv_refl. Qed.

Lemma same_positions_trans st1 st2 st3 :
  same_positions st1 st2 -> same_positions st2 st3 -> same_positions st1 st3.
Proof. intros H1 H2 o. eapply Point_equiv_trans; [apply H2 | apply H1]. Qed.

(** ** Idempotence *)

Section Idempotence.
Context {collaborators : Collaborators}.

Lemma layoutObject_zero context layoutResult object st :
  Point.equiv (LayoutResult.offset layoutResult) Point.zero ->
  same_positions st (layoutObject context layoutResult object st).
Proof.
  intros Hzero o. unfold layoutObject. rewrite obj_update_obj.
  destruct (decide (object = o)) as [->|Hne]; [|apply Point_equiv_refl].
  unfold FabricObject.setRelativeXY, FabricObject.getRelativeXY at 1.
  cbn [FabricObject.left FabricObject.top FabricObject.set_left_top].
  eapply Point_equiv_trans; [|apply (Point_add_zero _ _ Hzero)].
  split; reflexivity.
Qed.

Lemma foldl_layoutObject_zero context layoutResult target l : forall st,
  Point.equiv (LayoutResult.offset layoutResult) Point.zero ->
  same_positions st
    (foldl (fun st object =>
              if bool_decide (FabricObject.group (obj st object) = Some target)
              then layoutObject context layoutResult object st
              else st) st l).
Proof.
  induction l as [|a l IH]; intros st Hzero; cbn [foldl];
    [apply same_positions_refl|].
  eapply same_positions_trans; [|apply IH, Hzero].
  destruct (bool_decide _);
    [apply layoutObject_zero, Hzero | apply same_positions_refl].
Qed.

Lemma layoutObjects_zero context layoutResult st :
  Point.equiv (LayoutResult.offset layoutResult) Point.zero ->
  same_positions st (layoutObjects context layoutResult st).
Proof.
  intros Hzero. unfold layoutObjects.
  match goal with |- context [foldl ?f st ?l] =>
    assert (Hfold : same_positions st (foldl f st l)) end.
  { apply foldl_layoutObject_zero, Hzero. }
  assert (Hclip : forall st1, same_positions st st1 ->
    same_positions st
      (match FabricObject.clipPath (obj st1 (StrictLayoutContext.target context)) with
       | Some clipPath =>
           if negb (FabricObject.absolutePositioned (obj st1 clipPath))
           then layoutObject context layoutResult clipPath st1
           else st1
       | None => st1
       end)).
  { intros st1 H1. destruct (FabricObject.clipPath _); [|exact H1].
    destruct (negb _); [|exact H1].
    eapply same_positions_trans; [exact H1 | apply layoutObject_zero, Hzero]. }
  destruct (negb _ || negb _).
  - destruct (shouldLayoutClipPath _ _ _); [apply Hclip|]; exact Hfold.
  - destruct (shouldLayoutClipPath _ _ _); [apply Hclip|];
      apply same_positions_refl.
Qed.

Lemma commitLayout_zero context layoutResult st o :
  Point.equiv (LayoutResult.offset layoutResult) Point.zero ->
  o <> StrictLayoutContext.target context ->
  Point.equiv
    (FabricObject.getRelativeXY (obj (commitLayout context layoutResult st) o))
    (FabricObject.getRelativeXY (obj st o)).
Proof.
  intros Hzero Hne. unfold commitLayout.
  set (target := StrictLayoutContext.target context) in *.
  rewrite obj_update_obj_ne by congruence.
  match goal with |- context [obj (if ?b then update_obj target ?f ?s else ?s) o] =>
    replace (obj (if b then update_obj target f s else s) o) with (obj s o)
      by (destruct b; [rewrite obj_update_obj_ne by congruence|]; reflexivity)
  end.
  match goal with
  |- context [obj (if ?b then update_obj target ?f ?s
                   else if ?c then update_obj target ?g ?s else ?s) o] =>
    replace (obj (if b then update_obj target f s
                  else if c then update_obj target g s else s) o)
      with (obj s o)
      by (destruct b; [|destruct c];
          try rewrite obj_update_obj_ne by congruence; reflexivity)
  end.
  eapply Point_equiv_trans; [apply (layoutObjects_zero _ _ _ Hzero)|].
  rewrite obj_update_obj_ne by congruence. apply Point_equiv_refl.
Qed.




End Idempotence.



(** ** The flag [strategyChange] *)

Section StrategyChange.
Context {collaborators : Collaborators}.

(** C7, amended.  When the incoming context does not carry [strategyChange]
    itself, the flag of the strict context is true exactly when a previous
    strategy was recorded and differs from the manager's strategy.  In
    particular, for a manager with nothing recorded and two contexts that
    carry neither [strategy] nor [strategyChange]: the flag of the first call
    is false; when that call is not rejected (the manager has laid out
    before, or the type of the call is [initialization]), after it has run
    and once the manager's strategy has been replaced by another instance,
    the flag of the second call is true; when the first call is rejected it
    records nothing, and the flag of the second call is false as well.  A
    context that carries [strategyChange], as every bubbled context does,
    keeps its value. *)
Theorem strategyChange_of_own_fields this context st :
  LayoutContext.strategyChange context = None ->
  (StrictLayoutContext.strategyChange (strictContext_of (mgr st this) context)
   = true
   <-> exists prev,
         LayoutManager._prevLayoutStrategy (mgr st this) = Some prev
         /\ prev <> LayoutManager.strategy (mgr st this))
  /\ (forall fuel st1 s2 context2,
        LayoutManager._prevLayoutStrategy (mgr st this) = None ->
        LayoutContext.strategy context = None ->
        rejected (mgr st this) context = false ->
        performLayout fuel this context st = Some st1 ->
        s2 <> LayoutManager.strategy (mgr st this) ->
        LayoutContext.strategyChange context2 = None ->
        StrictLayoutContext.strategyChange
          (strictContext_of (mgr st this) context) = false
        /\ StrictLayoutContext.strategyChange
             (strictContext_of
                (mgr (update_mgr this (set_strategy s2) st1) this) context2)
           = true)
  /\ (forall (m : LayoutManager.t) carrying flag,
        LayoutContext.strategyChange carrying = Some flag ->
        StrictLayoutContext.strategyChange (strictContext_of m carrying) = flag)
  /\ (forall child_context parent,
        LayoutContext.strategyChange (bubbled_context child_context parent)
        = Some (StrictLayoutContext.strategyChange child_context))
  /\ (forall fuel st1 s2 context2,
        LayoutManager._prevLayoutStrategy (mgr st this) = None ->
        rejected (mgr st this) context = true ->
        performLayout fuel this context st = Some st1 ->
        LayoutContext.strategyChange context2 = None ->
        StrictLayoutContext.strategyChange
          (strictContext_of (mgr st this) context) = false
        /\ StrictLayoutContext.strategyChange
             (strictContext_of
                (mgr (update_mgr this (set_strategy s2) st1) this) context2)
           = false).
Proof.
  intros Hplain.
  split; [|split; [|split; [|split; [reflexivity|]]]]; cycle 2.
  { intros m carrying flag Hflag. unfold strictContext_of; simpl.
    rewrite Hflag. reflexivity. }
  { intros fuel st1 s2 context2 Hnone Hr Hrun Hplain2.
    destruct fuel as [|fuel]; [discriminate|].
    rewrite (performLayout_rejected _ _ _ _ Hr) in Hrun. injection Hrun as <-.
    split; unfold strictContext_of; simpl.
    - rewrite Hplain, Hnone. reflexivity.
    - rewrite Hplain2; simpl. rewrite mgr_update_mgr_eq. unfold set_strategy; simpl.
      rewrite Hnone. reflexivity. }
  - unfold strictContext_of; simpl. rewrite Hplain; simpl.
    destruct (LayoutManager._prevLayoutStrategy (mgr st this)) as [prev|]; simpl.
    + rewrite negb_true_iff, bool_decide_eq_false. split.
      * intros Hne. exists prev. split; [reflexivity|]. congruence.
      * intros (p & [= <-] & Hne). congruence.
    + split; [discriminate|]. intros (p & Hp & _). discriminate.
  - intros fuel st1 s2 context2 Hnone Hstrategy Hr Hrun Hs2 Hplain2. split.
    + unfold strictContext_of; simpl. rewrite Hplain, Hnone. reflexivity.
    + pose proof (performLayout_records_strategy _ _ _ _ _ Hr Hrun) as Hrec.
      unfold strictContext_of in Hrec; simpl in Hrec.
      rewrite Hstrategy in Hrec; simpl in Hrec.
      unfold strictContext_of; simpl. rewrite Hplain2; simpl.
      rewrite mgr_update_mgr_eq. unfold set_strategy; simpl. rewrite Hrec; simpl.
      rewrite negb_true_iff, bool_decide_eq_false. congruence.
Qed.


End StrategyChange.

(** The parent swapped its strategy since its last layout (200 recorded, 201
    now); the child did not.  The pass on the child bubbles, and the strict
    context of the parent has the flag of the child, false, and the strategy
    of the child, 100: the strategy recorded by the parent differs from both. *)
Lemma strategyChange_bubbled_counterexample :
  let st :=
    Scene.scene (Scene.laid_out 100 (Some 100%nat))
      (Scene.laid_out 201 (Some 200%nat)) (Scene.laid_out 300 (Some 300%nat)) in
  let request := Scene.request object_modified Scene.group_A [] None in
  let this := mgr st Scene.manager_B in
  let strictContext :=
    strictContext_of this
      (bubbled_context
         (StrictLayoutContext.set_path (Some 8%nat)
            (strictContext_of (mgr st Scene.manager_A) request))
         Scene.group_B) in
  (Scene.run 4 Scene.manager_A request st ≫= fun st' => log st' !! 4%nat)
  = Some (Call_onBeforeLayout Scene.group_B strictContext)
  /\ StrictLayoutContext.strategy strictContext = 100%nat
  /\ ~ (StrictLayoutContext.strategyChange strictContext = true
        <-> exists prev,
              LayoutManager._prevLayoutStrategy this = Some prev
              /\ prev <> LayoutManager.strategy this)
  /\ ~ (StrictLayoutContext.strategyChange strictContext = true
        <-> exists prev,
              LayoutManager._prevLayoutStrategy this = Some prev
              /\ prev <> StrictLayoutContext.strategy strictContext).
Proof.
  intros st request this strictContext.
  split; [vm_compute; reflexivity|]. split; [reflexivity|].
  split; intros [_ Hflag];
    (assert (Habsurd : StrictLayoutContext.strategyChange strictContext = true)
       by (apply Hflag; exists 200%nat; split; [reflexivity | discriminate]));
    vm_compute in Habsurd; discriminate.
Qed.

Lemma strategyChange_of_own_fields_witness :
  let request := Scene.request initialization Scene.group_C [Scene.group_B] None in
  let request2 := Scene.request object_modified Scene.group_C [] None in
  exists st1,
    Scene.run 1 Scene.manager_C request Scene.fresh_scene = Some st1
    /\ StrictLayoutContext.strategyChange
         (strictContext_of (mgr Scene.fresh_scene Scene.manager_C) request)
       = false
    /\ StrictLayoutContext.strategyChange
         (strictContext_of
            (mgr (update_mgr Scene.manager_C (set_strategy 301) st1)
               Scene.manager_C) request2)
       = true.
Proof.
  intros request request2.
  destruct (Scene.run 1 Scene.manager_C request Scene.fresh_scene)
    as [st1|] eqn:Hrun; [|vm_compute in Hrun; discriminate].
  exists st1. split; [reflexivity|].
  destruct (strategyChange_of_own_fields (collaborators := Scene.collaborators)
              Scene.manager_C request Scene.fresh_scene eq_refl)
    as (_ & Htwo & _).
  apply (Htwo 1%nat st1 301%nat request2); try reflexivity.
  - exact Hrun.
  - vm_compute. discriminate.
Defined.

(** ** The context of the caller *)

Section CallerContext.
Context {collaborators : Collaborators}.

(** What a call does to the arrays of the heap: those that exist and are not
    the path of the context keep their contents, the path of the context
    keeps its contents as a prefix, and no array disappears. *)
Lemma performLayout_arrays fuel : forall this context st st',
  performLayout fuel this context st = Some st' ->
  (forall a, a ∈ dom (arrays st) -> LayoutContext.path context <> Some a ->
             arrays st' !! a = arrays st !! a)
  /\ (forall a, LayoutContext.path context = Some a ->
                exists pushed, array st' a = array st a ++ pushed)
  /\ dom (arrays st) ⊆ dom (arrays st').
Proof.
  induction fuel as [|fuel IH]; intros this context st st' Hrun; [discriminate|].
  destruct (rejected (mgr st this) context) eqn:Hr.
  - rewrite (performLayout_rejected _ _ _ _ Hr) in Hrun. injection Hrun as <-.
    split; [reflexivity|]. split; [|reflexivity].
    intros a _. exists []. rewrite app_nil_r. reflexivity.
  - rewrite (performLayout_pass _ _ _ _ Hr) in Hrun.
    destruct (layout_pass_frame this context st)
      as (result & st1 & Hpass & Harr & _).
    rewrite Hpass in Hrun. unfold onAfterLayout in Hrun.
    set (strictContext := strictContext_of (mgr st this) context) in *.
    set (target := StrictLayoutContext.target strictContext) in *.
    set (st_hook := append_log (Fire_layout target strictContext result)
                      (append_log (Call_onAfterLayout target strictContext result)
                         st1)) in *.
    assert (Hhook : arrays st_hook = arrays st) by exact Harr.
    destruct (parent_layoutManager st_hook target) as [[parent manager]|].
    + unfold push_path in Hrun.
      replace (StrictLayoutContext.path strictContext)
        with (LayoutContext.path context) in Hrun by reflexivity.
      destruct (LayoutContext.path context) as [a0|] eqn:Hpath.
      * destruct (performLayout fuel manager _ _) as [st3|] eqn:Hparent;
          [|discriminate].
        injection Hrun as <-.
        destruct (IH _ _ _ _ Hparent) as (Hother & Hpath' & Hdom).
        change (arrays (record_strategy this strictContext st3)) with (arrays st3).
        change (array (record_strategy this strictContext st3)) with (array st3).
        assert (Hpush : arrays (push a0 target st_hook)
                        = <[a0 := array st a0 ++ [target]]> (arrays st)).
        { unfold push, array; simpl. rewrite Harr. reflexivity. }
        split; [|split].
        -- intros a Ha Hne. rewrite Hother.
           ++ rewrite Hpush. apply lookup_insert_ne. congruence.
           ++ rewrite Hpush, dom_insert_L. apply elem_of_union_r, Ha.
           ++ simpl. rewrite Hpath. exact Hne.
        -- intros a [= <-]. destruct (Hpath' a0) as [pushed Hpushed].
           { simpl. exact Hpath. }
           exists (target :: pushed). rewrite Hpushed.
           unfold array at 1. rewrite Hpush, lookup_insert_eq. simpl.
           rewrite <- app_assoc. reflexivity.
        -- etrans; [|exact Hdom]. rewrite Hpush, dom_insert_L.
           apply union_subseteq_r.
      * unfold new_array in Hrun.
        set (a := fresh (dom (arrays st_hook))) in *.
        destruct (performLayout fuel manager _ _) as [st3|] eqn:Hparent;
          [|discriminate].
        injection Hrun as <-.
        destruct (IH _ _ _ _ Hparent) as (Hother & _ & Hdom).
        change (arrays (record_strategy this strictContext st3)) with (arrays st3).
        assert (Hfresh : a ∉ dom (arrays st)).
        { unfold a. rewrite Hhook. apply is_fresh. }
        match type of Hparent with performLayout _ _ _ ?s = _ =>
          assert (Hpush : arrays s = <[a := [target]]> (<[a := []]> (arrays st))) end.
        { unfold push, array; simpl. rewrite lookup_insert_eq, Harr. reflexivity. }
        split; [|split].
        -- intros a' Ha' _.
           assert (Hne : a <> a') by (intros ->; exact (Hfresh Ha')).
           rewrite Hother.
           ++ rewrite Hpush, !lookup_insert_ne by exact Hne. reflexivity.
           ++ rewrite Hpush, !dom_insert_L. apply elem_of_union_r, elem_of_union_r, Ha'.
           ++ simpl. congruence.
        -- discriminate.
        -- etrans; [|exact Hdom]. rewrite Hpush, !dom_insert_L.
           etrans; [|apply union_subseteq_r]. apply union_subseteq_r.
    + injection Hrun as <-.
      change (arrays (record_strategy this strictContext st_hook)) with (arrays st_hook).
      change (array (record_strategy this strictContext st_hook)) with (array st_hook).
      rewrite Hhook. split; [reflexivity|]. split; [|reflexivity].
      intros a _. exists []. rewrite app_nil_r.
      apply array_app_of_lookup. rewrite Hhook. reflexivity.
Qed.

(** C8, amended.  [performLayout] works on a copy of the context it is given,
    and an array of the caller is touched only as the path of that context.
    A context without a path leaves every array of the heap as it was.  A
    path supplied by the caller is shared with the copy: it keeps its
    contents as a prefix and every other array is left as it was; it is
    unchanged when the request is rejected or the container has no group with
    a layout manager, and it has the target pushed after its contents when the
    layout bubbles. *)
Theorem performLayout_path_array fuel this context st st' :
  performLayout fuel this context st = Some st' ->
  let target := LayoutContext.target context in
  let st1 := snd (layout_pass this context st) in
  (LayoutContext.path context = None ->
   forall a, a ∈ dom (arrays st) -> arrays st' !! a = arrays st !! a)
  /\ (forall a, LayoutContext.path context = Some a ->
        (forall a', a' ∈ dom (arrays st) -> a' <> a ->
                    arrays st' !! a' = arrays st !! a')
        /\ (exists pushed, array st' a = array st a ++ pushed)
        /\ (rejected (mgr st this) context = true
            \/ parent_layoutManager st1 target = None ->
            array st' a = array st a)
        /\ (rejected (mgr st this) context = false ->
            parent_layoutManager st1 target <> None ->
            exists pushed, array st' a = array st a ++ target :: pushed)).
Proof.
  intros Hrun target st1.
  destruct (performLayout_arrays _ _ _ _ _ Hrun) as (Hother & Hpath & _).
  split.
  - intros Hnone a Ha. apply Hother; [exact Ha|]. rewrite Hnone. discriminate.
  - intros a Ha. split; [|split; [exact (Hpath a Ha)|]].
    { intros a' Ha' Hne. apply Hother; [exact Ha'|]. rewrite Ha. congruence. }
    destruct fuel as [|fuel]; [discriminate|].
    destruct (rejected (mgr st this) context) eqn:Hr.
    + rewrite (performLayout_rejected _ _ _ _ Hr) in Hrun. injection Hrun as <-.
      split; [reflexivity | discriminate].
    + rewrite (performLayout_pass _ _ _ _ Hr) in Hrun.
      destruct (layout_pass_frame this context st)
        as (result & st1' & Hpass & Harr & _).
      assert (Hst1 : st1 = st1') by (unfold st1; rewrite Hpass; reflexivity).
      rewrite Hpass in Hrun. unfold onAfterLayout in Hrun.
      set (strictContext := strictContext_of (mgr st this) context) in *.
      replace (StrictLayoutContext.target strictContext) with target in Hrun
        by reflexivity.
      set (st_hook := append_log (Fire_layout target strictContext result)
                        (append_log (Call_onAfterLayout target strictContext result)
                           st1')) in *.
      change (parent_layoutManager st_hook target)
        with (parent_layoutManager st1' target) in Hrun.
      rewrite <- Hst1 in Hrun.
      destruct (parent_layoutManager st1 target) as [[parent manager]|].
      * split; [intros [?|?]; discriminate|]. intros _ _.
        unfold push_path in Hrun.
        replace (StrictLayoutContext.path strictContext)
          with (LayoutContext.path context) in Hrun by reflexivity.
        rewrite Ha in Hrun.
        destruct (performLayout fuel manager _ _) as [st3|] eqn:Hparent;
          [|discriminate].
        injection Hrun as <-.
        destruct (performLayout_arrays _ _ _ _ _ Hparent) as (_ & Hpath' & _).
        destruct (Hpath' a) as [pushed Hpushed]; [simpl; exact Ha|].
        exists pushed.
        change (array (record_strategy this strictContext st3)) with (array st3).
        rewrite Hpushed, array_push.
        destruct (decide (a = a)); [|congruence].
        change (array st_hook a) with (array st1' a).
        rewrite (array_app_of_lookup st st1' a) by (rewrite Harr; reflexivity).
        rewrite <- app_assoc. reflexivity.
      * split; [|congruence]. intros _. injection Hrun as <-.
        change (array (record_strategy this strictContext st_hook) a)
          with (array st1' a).
        apply array_app_of_lookup. rewrite Harr. reflexivity.
Qed.

End CallerContext.

(** The caller's path [[rect_a]] has grown by the two containers that
    bubbled. *)
Lemma performLayout_path_counterexample :
  let request := Scene.request object_modified Scene.group_A [] (Some 7%nat) in
  array Scene.settled_scene 7 = [Scene.rect_a]
  /\ (Scene.run 4 Scene.manager_A request Scene.settled_scene ≫= fun st' =>
      Some (array st' 7))
     = Some [Scene.rect_a; Scene.group_A; Scene.group_B].
Proof. split; vm_compute; reflexivity. Qed.

Lemma performLayout_path_array_witness :
  let request := Scene.request object_modified Scene.group_A [] None in
  exists st',
    Scene.run 4 Scene.manager_A request Scene.settled_scene = Some st'
    /\ arrays st' !! 7%nat = Some [Scene.rect_a].
Proof.
  intros request.
  destruct (Scene.run 4 Scene.manager_A request Scene.settled_scene)
    as [st'|] eqn:Hrun; [|vm_compute in Hrun; discriminate].
  exists st'. split; [reflexivity|].
  destruct (performLayout_path_array (collaborators := Scene.collaborators)
              4 Scene.manager_A request Scene.settled_scene st' Hrun)
    as [Hnone _].
  rewrite (Hnone eq_refl 7%nat); [reflexivity|].
  apply elem_of_dom. exists [Scene.rect_a]. reflexivity.
Defined.

(** ** [groupSVGElements] *)

Section GroupSVGElements.
Context {Group : GroupClass}.

(** The call on a list that is not a single element: the manager and its
    strategy are made, in a heap that is otherwise the one found, and the
    constructor of [Group] is called with the properties in that heap. *)
Lemma groupSVGElements_new elements options st :
  length elements <> 1%nat ->
  let m := fresh (dom (managers st)) in
  let s := fresh (dom (strategies st)) in
  let props :=
    default ∅ options ∪ {["layoutManager"%string := prop_layoutManager m]} in
  let st1 :=
    set_managers (<[m := LayoutManager.constructor s]> (managers st))
      (set_strategies (<[s := FitContentLayout]> (strategies st)) st) in
  new_LayoutManager None st = (m, st1)
  /\ groupSVGElements elements options st
     = (the_group (fst (new_Group elements props st1)),
        snd (new_Group elements props st1)).
Proof.
  intros Hlen m s props st1. split; [reflexivity|].
  destruct elements as [|element [|element' elements]];
    [|destruct Hlen; reflexivity|];
    unfold groupSVGElements, new_LayoutManager, new_FitContentLayout;
    cbn [managers set_strategies]; fold m s; fold props; fold st1;
    destruct (new_Group _ props st1); reflexivity.
Qed.

(** C9, amended.  [groupSVGElements] returns its element when the list has
    exactly one, and leaves the heap as it is.  In every other case, the
    empty list included, it returns the group that the constructor of [Group]
    makes of the elements and of the properties: the options, and
    [layoutManager] bound to a manager made for the occasion unless the
    options bind [layoutManager] themselves, and then their value is the one
    kept.  The manager is made before the constructor runs, whether the
    options bind [layoutManager] or not: when the constructor is called the
    heap is the one [groupSVGElements] found with one more manager, never
    laid out and without subscription, whose strategy is one more
    [FitContentLayout]; what the call returns is what the constructor
    returns. *)
Theorem groupSVGElements_result elements options st :
  match elements with
  | [element] => groupSVGElements elements options st = (the_element element, st)
  | _ =>
      exists m s props st1,
        groupSVGElements elements options st
        = (the_group (fst (new_Group elements props st1)),
           snd (new_Group elements props st1))
        /\ (m ∉ dom (managers st))
        /\ (s ∉ dom (strategies st))
        /\ st1
           = mkState (objects st)
               (<[m := LayoutManager.make false None s ∅]> (managers st))
               (<[s := FitContentLayout]> (strategies st))
               (arrays st) (next_handler st) (log st)
        /\ props !! "layoutManager"%string
           = Some (default (prop_layoutManager m)
                     (default ∅ options !! "layoutManager"%string))
        /\ forall key, key <> "layoutManager"%string ->
             props !! key = default ∅ options !! key
  end.
Proof.
  assert (Hgroup : length elements <> 1%nat ->
    exists m s props st1,
        groupSVGElements elements options st
        = (the_group (fst (new_Group elements props st1)),
           snd (new_Group elements props st1))
        /\ (m ∉ dom (managers st))
        /\ (s ∉ dom (strategies st))
        /\ st1
           = mkState (objects st)
               (<[m := LayoutManager.make false None s ∅]> (managers st))
               (<[s := FitContentLayout]> (strategies st))
               (arrays st) (next_handler st) (log st)
        /\ props !! "layoutManager"%string
           = Some (default (prop_layoutManager m)
                     (default ∅ options !! "layoutManager"%string))
        /\ forall key, key <> "layoutManager"%string ->
             props !! key = default ∅ options !! key).
  { intros Hlen.
    destruct (groupSVGElements_new elements options st Hlen) as [_ Hcall].
    exists (fresh (dom (managers st))), (fresh (dom (strategies st))).
    eexists. eexists. split; [exact Hcall|].
    split; [apply is_fresh|]. split; [apply is_fresh|].
    split; [reflexivity|]. split.
    - rewrite lookup_union.
      destruct (default ∅ options !! "layoutManager"%string) as [v|] eqn:Hv;
        rewrite lookup_singleton_eq; reflexivity.
    - intros key Hkey. rewrite lookup_union, lookup_singleton_ne by congruence.
      destruct (default ∅ options !! key); reflexivity. }
  destruct elements as [|element [|element' elements]];
    [apply Hgroup; discriminate | reflexivity | apply Hgroup; discriminate].
Qed.

End GroupSVGElements.

(** No element: a group, not an element.  Options that bind [layoutManager]:
    the constructor of [Group] gets their manager, here one that has laid out
    before, and the group it makes has that manager. *)
Lemma groupSVGElements_counterexample :
  (~ exists element,
       fst (groupSVGElements (Group := scene_Group) [] None Scene.settled_scene)
       = the_element element)
  /\ (exists props st1,
        groupSVGElements (Group := scene_Group) [Scene.rect_a; Scene.rect_b]
          (Some {["layoutManager"%string := prop_layoutManager Scene.manager_A]})
          Scene.settled_scene
        = (the_group
             (fst (new_Group (GroupClass := scene_Group)
                     [Scene.rect_a; Scene.rect_b] props st1)),
           snd (new_Group (GroupClass := scene_Group)
                  [Scene.rect_a; Scene.rect_b] props st1))
        /\ props !! "layoutManager"%string
           = Some (prop_layoutManager Scene.manager_A)
        /\ LayoutManager._firstLayoutDone (mgr st1 Scene.manager_A) = true)
  /\ (exists group st',
        groupSVGElements (Group := scene_Group) [Scene.rect_a; Scene.rect_b]
          (Some {["layoutManager"%string := prop_layoutManager Scene.manager_A]})
          Scene.settled_scene
        = (the_group group, st')
        /\ FabricObject.layoutManager (obj st' group) = Some Scene.manager_A).
Proof.
  split; [|split].
  - intros [element Hel]. vm_compute in Hel. discriminate.
  - destruct (groupSVGElements_new (Group := scene_Group)
                [Scene.rect_a; Scene.rect_b]
                (Some {["layoutManager"%string
                        := prop_layoutManager Scene.manager_A]})
                Scene.settled_scene ltac:(discriminate)) as [_ Hcall].
    eexists. eexists. split; [exact Hcall|]. split; vm_compute; reflexivity.
  - eexists. eexists. split; vm_compute; reflexivity.
Qed.

(** ** The spread of the incoming context *)

Section Spread.
Context {collaborators : Collaborators}.

(** C10, amended.  The three fields that [performLayout] attaches are
    overridden by the incoming context wherever it carries them, and the
    manager's own strategy is used only when the context carries none.  A
    bubbled context carries all three with the values of the child's strict
    context, so the strict context of the parent is the child's with [target]
    replaced; the strategy the parent's pass asks for a result is the one of the
    child's strict context; a parent that does not reject the request
    records that strategy in [_prevLayoutStrategy]; a parent that rejects it
    is left as it was. *)
Theorem bubbled_context_overrides this child_context parent st :
  let context := bubbled_context child_context parent in
  let strictContext := strictContext_of (mgr st this) context in
  strictContext
  = StrictLayoutContext.make
      (StrictLayoutContext.type child_context) parent
      (StrictLayoutContext.targets child_context)
      (StrictLayoutContext.objectsRelativeToGroup child_context)
      (StrictLayoutContext.trigger child_context)
      (StrictLayoutContext.e child_context)
      (StrictLayoutContext.path child_context)
      (StrictLayoutContext.strategy child_context)
      (StrictLayoutContext.prevStrategy child_context)
      (StrictLayoutContext.strategyChange child_context)
  /\ (forall st1,
        getLayoutResult strictContext st1 = None
        <-> calcLayoutResult (StrictLayoutContext.strategy child_context)
              strictContext (FabricObject._objects (obj st1 parent)) st1 = None)
  /\ (forall fuel st',
        rejected (mgr st this) context = false ->
        performLayout fuel this context st = Some st' ->
        LayoutManager._prevLayoutStrategy (mgr st' this)
        = Some (StrictLayoutContext.strategy child_context))
  /\ (forall fuel,
        rejected (mgr st this) context = true ->
        performLayout (S fuel) this context st = Some st)
  /\ (forall (m : LayoutManager.t) (c : LayoutContext.t),
        StrictLayoutContext.strategy (strictContext_of m c)
        = default (LayoutManager.strategy m) (LayoutContext.strategy c)
        /\ StrictLayoutContext.prevStrategy (strictContext_of m c)
           = default (LayoutManager._prevLayoutStrategy m)
               (LayoutContext.prevStrategy c)
        /\ (forall b, LayoutContext.strategyChange c = Some b ->
            StrictLayoutContext.strategyChange (strictContext_of m c) = b)).
Proof.
  intros context strictContext.
  assert (Hstrict : strictContext
    = StrictLayoutContext.make
        (StrictLayoutContext.type child_context) parent
        (StrictLayoutContext.targets child_context)
        (StrictLayoutContext.objectsRelativeToGroup child_context)
        (StrictLayoutContext.trigger child_context)
        (StrictLayoutContext.e child_context)
        (StrictLayoutContext.path child_context)
        (StrictLayoutContext.strategy child_context)
        (StrictLayoutContext.prevStrategy child_context)
        (StrictLayoutContext.strategyChange child_context)) by reflexivity.
  split; [exact Hstrict|]. split; [|split; [|split; [|split; [|split]]]].
  - intros st1. unfold getLayoutResult.
    replace (StrictLayoutContext.strategy strictContext)
      with (StrictLayoutContext.strategy child_context) by reflexivity.
    replace (StrictLayoutContext.target strictContext) with parent by reflexivity.
    destruct (calcLayoutResult _ _ _ _); split; congruence.
  - intros fuel st' Hr Hrun.
    rewrite (performLayout_records_strategy _ _ _ _ _ Hr Hrun). reflexivity.
  - intros fuel Hr. apply performLayout_rejected, Hr.
  - reflexivity.
  - reflexivity.
  - intros b Hb. unfold strictContext_of; simpl. rewrite Hb. reflexivity.
Qed.

End Spread.

(** Three levels: the pass on [group_A] bubbles to [group_B] and from there to
    [group_C], whose manager records the strategy of [manager_A], not the one of
    the manager of its child [group_B].  And a parent that never laid out
    records nothing. *)
Lemma bubbled_strategy_counterexample :
  let request := Scene.request object_modified Scene.group_A [] None in
  FabricObject.group (obj Scene.settled_scene Scene.group_B) = Some Scene.group_C
  /\ FabricObject.layoutManager (obj Scene.settled_scene Scene.group_B)
     = Some Scene.manager_B
  /\ LayoutManager.strategy (mgr Scene.settled_scene Scene.manager_B) = 200%nat
  /\ (Scene.run 4 Scene.manager_A request Scene.settled_scene ≫= fun st' =>
      Some (LayoutManager._prevLayoutStrategy (mgr st' Scene.manager_C),
            LayoutManager.strategy (mgr st' Scene.manager_B)))
     = Some (Some 100%nat, 200%nat)
  /\ (let st :=
        Scene.scene (Scene.laid_out 100 (Some 100%nat))
          (LayoutManager.constructor 200) (LayoutManager.constructor 300) in
      (Scene.run 4 Scene.manager_A request st ≫= fun st' =>
       Some (LayoutManager._prevLayoutStrategy (mgr st' Scene.manager_B)))
      = Some None).
Proof.
  intros request. repeat split; vm_compute; reflexivity.
Qed.

Lemma bubbled_context_overrides_witness :
  let request := Scene.request object_modified Scene.group_A [] None in
  let child_context :=
    strictContext_of (mgr Scene.settled_scene Scene.manager_A) request in
  let context := bubbled_context child_context Scene.group_B in
  exists st',
    Scene.run 3 Scene.manager_B context Scene.settled_scene = Some st'
    /\ LayoutManager._prevLayoutStrategy (mgr st' Scene.manager_B)
       = Some 100%nat.
Proof.
  intros request child_context context.
  destruct (Scene.run 3 Scene.manager_B context Scene.settled_scene)
    as [st'|] eqn:Hrun; [|vm_compute in Hrun; discriminate].
  exists st'. split; [reflexivity|].
  destruct (bubbled_context_overrides (collaborators := Scene.collaborators)
              Scene.manager_B child_context Scene.group_B Scene.settled_scene)
    as (_ & _ & Hrecord & _).
  apply (Hrecord 3%nat st' eq_refl Hrun).
Defined.

(** * Further properties of the code *)

(** ** What the commit of a result leaves alone *)

Section Projections.
Context {collaborators : Collaborators}.
Context {A : Type} (proj : State -> A).
Hypothesis proj_update_obj : forall o f st, proj (update_obj o f st) = proj st.

Lemma layoutObject_proj context layoutResult object st :
  proj (layoutObject context layoutResult object st) = proj st.
Proof. apply proj_update_obj. Qed.

Lemma layoutObjects_proj context layoutResult st :
  proj (layoutObjects context layoutResult st) = proj st.
Proof.
  unfold layoutObjects.
  match goal with |- context [foldl ?f st ?l] =>
    assert (Hfold : forall l0 st0, proj (foldl f st0 l0) = proj st0) end.
  { induction l0 as [|a l0 IH]; intros st0; cbn [foldl]; [reflexivity|].
    rewrite IH. destruct (bool_decide _); [apply layoutObject_proj | reflexivity]. }
  assert (Hclip : forall st1,
    proj (match FabricObject.clipPath (obj st1 (StrictLayoutContext.target context)) with
          | Some clipPath =>
              if negb (FabricObject.absolutePositioned (obj st1 clipPath))
              then layoutObject context layoutResult clipPath st1
              else st1
          | None => st1
          end) = proj st1).
  { intros st1. destruct (FabricObject.clipPath _); [|reflexivity].
    destruct (negb _); [apply layoutObject_proj | reflexivity]. }
  destruct (negb _ || negb _);
    (destruct (shouldLayoutClipPath _ _ _); [rewrite Hclip|]);
    first [apply Hfold | reflexivity].
Qed.

Lemma commitLayout_proj context layoutResult st :
  proj (commitLayout context layoutResult st) = proj st.
Proof.
  unfold commitLayout. rewrite proj_update_obj.
  match goal with |- proj (if ?b then update_obj ?o ?f ?s else ?s) = _ =>
    transitivity (proj s); [destruct b; [apply proj_update_obj | reflexivity]|] end.
  match goal with
  |- proj (if ?b then update_obj ?o ?f ?s
           else if ?c then update_obj ?o ?g ?s else ?s) = _ =>
    transitivity (proj s);
      [destruct b; [|destruct c]; try apply proj_update_obj; reflexivity|] end.
  rewrite layoutObjects_proj. apply proj_update_obj.
Qed.

End Projections.

(** ** Invariants of [performLayout] *)

Section Invariant.
Context {collaborators : Collaborators}.
Variable accepts : LayoutType -> Prop.
Variable R : State -> State -> Prop.
Hypothesis R_refl : forall st, R st st.
Hypothesis R_trans : forall st1 st2 st3, R st1 st2 -> R st2 st3 -> R st1 st3.
Hypothesis R_pass : forall this context st,
  accepts (LayoutContext.type context) ->
  R st (snd (layout_pass this context st)).
Hypothesis R_log : forall en st, R st (append_log en st).
Hypothesis R_arrays : forall v st, R st (set_arrays v st).
Hypothesis R_record : forall this s st,
  R st (update_mgr this (LayoutManager.set_prevLayoutStrategy s) st).

(** A relation between heaps that every step of a pass respects holds between
    the heap [performLayout] finds and the one it leaves, for the requests
    whose type is in [accepts]: bubbling keeps the type. *)
Lemma performLayout_invariant fuel : forall this context st st',
  accepts (LayoutContext.type context) ->
  performLayout fuel this context st = Some st' -> R st st'.
Proof.
  induction fuel as [|fuel IH]; intros this context st st' Hty Hrun; [discriminate|].
  destruct (rejected (mgr st this) context) eqn:Hr.
  - rewrite (performLayout_rejected _ _ _ _ Hr) in Hrun. injection Hrun as <-.
    apply R_refl.
  - rewrite (performLayout_pass _ _ _ _ Hr) in Hrun.
    pose proof (R_pass this context st Hty) as Hpass1.
    destruct (layout_pass_frame this context st) as (result & st1 & Hpass & _).
    rewrite Hpass in Hrun, Hpass1. cbn [snd] in Hpass1.
    set (strictContext := strictContext_of (mgr st this) context) in *.
    unfold onAfterLayout in Hrun.
    match type of Hrun with context [parent_layoutManager ?s ?t] =>
      assert (Hhook : R st s)
        by (eapply R_trans; [eapply R_trans; [exact Hpass1 | apply R_log]
                            | apply R_log]);
      destruct (parent_layoutManager s t) as [[parent manager]|] end.
    + match type of Hrun with context [push_path ?c ?t ?s] =>
        assert (Hpush : R st (snd (push_path c t s))
                        /\ StrictLayoutContext.type (fst (push_path c t s))
                           = LayoutContext.type context)
          by (unfold push_path; destruct (StrictLayoutContext.path c);
              cbn [fst snd]; (split; [|reflexivity]);
              [|unfold new_array; cbn [fst snd]; eapply R_trans; [|apply R_arrays]];
              (eapply R_trans; [exact Hhook | apply R_arrays]));
        destruct (push_path c t s) as [bubbling st2] end.
      cbn [fst snd] in Hpush. destruct Hpush as [Hpush Hsame].
      destruct (performLayout fuel manager _ st2) as [st3|] eqn:Hparent;
        [|discriminate].
      injection Hrun as <-.
      eapply R_trans; [|apply R_record].
      eapply R_trans; [exact Hpush|].
      apply (IH _ _ _ _ (eq_ind_r accepts Hty Hsame : accepts
               (LayoutContext.type (bubbled_context bubbling parent))) Hparent).
    + injection Hrun as <-.
      eapply R_trans; [exact Hhook | apply R_record].
Qed.

End Invariant.

(** ** The fields of the managers *)

Section Bookkeeping.
Context {collaborators : Collaborators}.

Lemma managers_append_log en st : managers (append_log en st) = managers st.
Proof. reflexivity. Qed.

Lemma mgr_of_managers st st' m : managers st' = managers st -> mgr st' m = mgr st m.
Proof. unfold mgr. intros ->. reflexivity. Qed.

Lemma commitLayout_mgr context layoutResult st m :
  mgr (commitLayout context layoutResult st) m = mgr st m.
Proof.
  apply mgr_of_managers, (commitLayout_proj managers). reflexivity.
Qed.

(** The scalar fields of the managers after lines 30 to 62: the flag of
    [this] is set, and nothing else has changed. *)
Lemma layout_pass_bookkeeping this context st m :
  bookkeeping (mgr (snd (layout_pass this context st)) m)
  = if decide (this = m)
    then (true, LayoutManager._prevLayoutStrategy (mgr st m),
          LayoutManager.strategy (mgr st m))
    else bookkeeping (mgr st m).
Proof.
  unfold layout_pass.
  set (strictContext := strictContext_of (mgr st this) context).
  destruct (onBeforeLayout_frame this strictContext st) as [_ Hbook].
  assert (Hstep : forall st1,
    (forall m, bookkeeping (mgr st1 m) = bookkeeping (mgr st m)) ->
    bookkeeping (mgr (update_mgr this (LayoutManager.set_firstLayoutDone true) st1) m)
    = if decide (this = m)
      then (true, LayoutManager._prevLayoutStrategy (mgr st m),
            LayoutManager.strategy (mgr st m))
      else bookkeeping (mgr st m)).
  { intros st1 H1. rewrite mgr_update_mgr.
    destruct (decide (this = m)) as [->|_]; [|apply H1].
    specialize (H1 m). unfold bookkeeping in *. cbn. congruence. }
  destruct (getLayoutResult strictContext _) as [layoutResult|].
  - cbn [snd]. apply Hstep. intros m'. rewrite commitLayout_mgr. apply Hbook.
  - destruct (negb _); cbn [snd]; apply Hstep, Hbook.
Qed.

Lemma flag_of_bookkeeping m m' :
  bookkeeping m' = bookkeeping m ->
  LayoutManager._firstLayoutDone m' = LayoutManager._firstLayoutDone m
  /\ LayoutManager._prevLayoutStrategy m' = LayoutManager._prevLayoutStrategy m
  /\ LayoutManager.strategy m' = LayoutManager.strategy m.
Proof. unfold bookkeeping. intros [= -> -> ->]. repeat split. Qed.

Lemma performLayout_flag_kept fuel this context st st' :
  performLayout fuel this context st = Some st' ->
  forall m, LayoutManager._firstLayoutDone (mgr st m) = true ->
            LayoutManager._firstLayoutDone (mgr st' m) = true.
Proof.
  apply (performLayout_invariant (fun _ => True)
           (fun st st' => forall m,
              LayoutManager._firstLayoutDone (mgr st m) = true ->
              LayoutManager._firstLayoutDone (mgr st' m) = true)); try tauto.
  - intros st1 st2 st3 H1 H2 m Hm. apply H2, H1, Hm.
  - intros this0 context0 st0 _ m Hm.
    pose proof (layout_pass_bookkeeping this0 context0 st0 m) as Hbook.
    destruct (decide (this0 = m)) as [->|_].
    + apply (f_equal (fun b => fst (fst b))) in Hbook. exact Hbook.
    + apply flag_of_bookkeeping in Hbook. destruct Hbook as (-> & _). exact Hm.
  - intros this0 s st0 m Hm. rewrite mgr_update_mgr.
    destruct (decide (this0 = m)) as [->|_]; exact Hm.
Qed.

(** X1. The flag [_firstLayoutDone] is only ever set: a call of
    [performLayout] that returns leaves it true on every manager on which it
    was true, whatever the managers it bubbled through.  And a call that was
    not rejected leaves it true on its own manager, which from then on
    rejects no request, of whatever type. *)
Theorem performLayout_first_layout_done fuel this context st st' :
  performLayout fuel this context st = Some st' ->
  (forall m, LayoutManager._firstLayoutDone (mgr st m) = true ->
             LayoutManager._firstLayoutDone (mgr st' m) = true)
  /\ (rejected (mgr st this) context = false ->
      LayoutManager._firstLayoutDone (mgr st' this) = true
      /\ forall context', rejected (mgr st' this) context' = false).
Proof.
  intros Hrun. split; [exact (performLayout_flag_kept _ _ _ _ _ Hrun)|].
  intros Hr.
  assert (Hdone : LayoutManager._firstLayoutDone (mgr st' this) = true).
  { destruct fuel as [|fuel]; [discriminate|].
    rewrite (performLayout_pass _ _ _ _ Hr) in Hrun.
    pose proof (layout_pass_bookkeeping this context st this) as Hbook.
    destruct (layout_pass this context st) as [[strictContext result] st1].
    cbn [snd] in Hbook. destruct (decide (this = this)); [|congruence].
    apply (f_equal (fun b => fst (fst b))) in Hbook. cbn [fst bookkeeping] in Hbook.
    unfold onAfterLayout in Hrun.
    match type of Hrun with context [parent_layoutManager ?s ?t] =>
      destruct (parent_layoutManager s t) as [[parent manager]|] end.
    - match type of Hrun with context [push_path ?c ?t ?s] =>
        assert (Hpush : mgr (snd (push_path c t s)) this = mgr st1 this)
          by (unfold push_path; destruct (StrictLayoutContext.path c); reflexivity);
        destruct (push_path c t s) as [bubbling st2] end.
      cbn [snd] in Hpush.
      destruct (performLayout fuel manager _ st2) as [st3|] eqn:Hparent;
        [|discriminate].
      injection Hrun as <-. unfold record_strategy. rewrite mgr_update_mgr_eq.
      cbn [LayoutManager._firstLayoutDone LayoutManager.set_prevLayoutStrategy].
      apply (performLayout_flag_kept _ _ _ _ _ Hparent). rewrite Hpush. exact Hbook.
    - injection Hrun as <-. unfold record_strategy. rewrite mgr_update_mgr_eq.
      exact Hbook. }
  split; [exact Hdone|]. intros context'. unfold rejected. rewrite Hdone.
  reflexivity.
Qed.

End Bookkeeping.

Lemma performLayout_first_layout_done_witness :
  let request := Scene.request initialization Scene.group_A [Scene.rect_a] None in
  let st' := default Scene.fresh_scene (Scene.run 4 Scene.manager_A request Scene.fresh_scene) in
  LayoutManager._firstLayoutDone (mgr Scene.fresh_scene Scene.manager_A) = false
  /\ LayoutManager._firstLayoutDone (mgr st' Scene.manager_A) = true
  /\ rejected (mgr st' Scene.manager_A)
       (Scene.request object_modified Scene.group_A [] None) = false.
Proof.
  intros request st'.
  assert (Hrun : Scene.run 4 Scene.manager_A request Scene.fresh_scene = Some st')
    by (vm_compute; reflexivity).
  destruct (performLayout_first_layout_done (collaborators := Scene.collaborators)
              4 Scene.manager_A request Scene.fresh_scene st' Hrun) as [_ Hown].
  destruct (Hown eq_refl) as [Hdone Hlater].
  split; [reflexivity|]. split; [exact Hdone | apply Hlater].
Defined.

Section Frames.
Context {collaborators : Collaborators}.

(** X2. [performLayout] never assigns [strategy]: when it returns, every
    manager has the strategy it had, and the strategy objects of the heap are
    the ones it found.  Swapping the strategy is left to the user. *)
Theorem performLayout_keeps_strategy fuel this context st st' :
  performLayout fuel this context st = Some st' ->
  strategies st' = strategies st
  /\ forall m, LayoutManager.strategy (mgr st' m) = LayoutManager.strategy (mgr st m).
Proof.
  apply (performLayout_invariant (fun _ => True)
           (fun st st' =>
              strategies st' = strategies st
              /\ forall m, LayoutManager.strategy (mgr st' m)
                           = LayoutManager.strategy (mgr st m))); try tauto.
  - intros st1 st2 st3 [Hs1 Hm1] [Hs2 Hm2]. split; [congruence|].
    intros m. rewrite Hm2. apply Hm1.
  - intros this0 context0 st0 _. split.
    + destruct (layout_pass_frame this0 context0 st0)
        as (result & st1 & -> & _ & Hs & _). exact Hs.
    + intros m. pose proof (layout_pass_bookkeeping this0 context0 st0 m) as Hbook.
      destruct (decide (this0 = m)) as [->|_].
      * apply (f_equal snd) in Hbook. exact Hbook.
      * apply flag_of_bookkeeping in Hbook. apply Hbook.
  - intros this0 s st0. split; [reflexivity|]. intros m. rewrite mgr_update_mgr.
    destruct (decide (this0 = m)) as [->|_]; reflexivity.
Qed.

Lemma foldl_unsubscribe_managers this context targets : forall st,
  managers (foldl (fun st object => unsubscribe this context object st) st targets)
  = managers st
  /\ next_handler
       (foldl (fun st object => unsubscribe this context object st) st targets)
     = next_handler st.
Proof.
  induction targets as [|a targets IH]; intros st; cbn [foldl]; [split; reflexivity|].
  destruct (IH (unsubscribe this context a st)) as [-> ->].
  apply managers_unsubscribe.
Qed.

(** The subscription tables and the counter of closures after a call whose
    type does not subscribe. *)
Lemma performLayout_tables fuel this context st st' :
  LayoutContext.type context <> initialization ->
  LayoutContext.type context <> added ->
  performLayout fuel this context st = Some st' ->
  next_handler st' = next_handler st
  /\ forall m, LayoutManager._subscriptions (mgr st' m)
               = LayoutManager._subscriptions (mgr st m).
Proof.
  intros Hinit Hadded.
  apply (performLayout_invariant
           (fun ty => ty <> initialization /\ ty <> added)
           (fun st st' =>
              next_handler st' = next_handler st
              /\ forall m, LayoutManager._subscriptions (mgr st' m)
                           = LayoutManager._subscriptions (mgr st m)));
    try tauto.
  - intros st1 st2 st3 [Hn1 Hm1] [Hn2 Hm2]. split; [congruence|].
    intros m. rewrite Hm2. apply Hm1.
  - intros this0 context0 st0 [Hi Ha]. unfold layout_pass.
    set (strictContext := strictContext_of (mgr st0 this0) context0).
    assert (Hbefore : managers (onBeforeLayout this0 strictContext st0) = managers st0
                      /\ next_handler (onBeforeLayout this0 strictContext st0)
                         = next_handler st0).
    { unfold onBeforeLayout.
      replace (StrictLayoutContext.type strictContext)
        with (LayoutContext.type context0) by reflexivity.
      destruct (LayoutContext.type context0); try congruence;
        try (split; reflexivity).
      apply (foldl_unsubscribe_managers this0 strictContext). }
    destruct Hbefore as [Hm Hn].
    assert (Hflag : forall st1,
      managers st1 = managers st0 -> next_handler st1 = next_handler st0 ->
      next_handler (update_mgr this0 (LayoutManager.set_firstLayoutDone true) st1)
      = next_handler st0
      /\ forall m,
           LayoutManager._subscriptions
             (mgr (update_mgr this0 (LayoutManager.set_firstLayoutDone true) st1) m)
           = LayoutManager._subscriptions (mgr st0 m)).
    { intros st1 Hm1 Hn1. split; [exact Hn1|]. intros m. rewrite mgr_update_mgr.
      destruct (decide (this0 = m)) as [->|_];
        rewrite (mgr_of_managers _ _ _ Hm1); reflexivity. }
    destruct (getLayoutResult strictContext _) as [layoutResult|].
    + cbn [snd]. apply Hflag.
      * rewrite (commitLayout_proj managers) by reflexivity. exact Hm.
      * rewrite (commitLayout_proj next_handler) by reflexivity. exact Hn.
    + destruct (negb _); cbn [snd]; apply Hflag; assumption.
  - intros this0 s st0. split; [reflexivity|]. intros m. rewrite mgr_update_mgr.
    destruct (decide (this0 = m)) as [->|_]; reflexivity.
Qed.

(** X3. Only the types [initialization] and [added] subscribe: a call of
    [performLayout] with any other type leaves the subscription table of every
    manager as it was, the managers it bubbled through included, and creates no
    listener.  In particular a [removed] request calls the disposers of its
    targets and keeps them in the table. *)
Theorem performLayout_keeps_subscriptions fuel this context st st' :
  LayoutContext.type context <> initialization ->
  LayoutContext.type context <> added ->
  performLayout fuel this context st = Some st' ->
  next_handler st' = next_handler st
  /\ forall m, LayoutManager._subscriptions (mgr st' m)
               = LayoutManager._subscriptions (mgr st m).
Proof. apply performLayout_tables. Qed.

End Frames.

Lemma performLayout_keeps_strategy_witness :
  let request := Scene.request initialization Scene.group_A [Scene.rect_a] None in
  let st' := default Scene.fresh_scene
               (Scene.run 4 Scene.manager_A request Scene.fresh_scene) in
  LayoutManager.strategy (mgr st' Scene.manager_B) = 200%nat
  /\ LayoutManager._prevLayoutStrategy (mgr st' Scene.manager_B) = Some 100%nat.
Proof.
  intros request st'.
  assert (Hrun : Scene.run 4 Scene.manager_A request Scene.fresh_scene = Some st')
    by (vm_compute; reflexivity).
  destruct (performLayout_keeps_strategy (collaborators := Scene.collaborators)
              4 Scene.manager_A request Scene.fresh_scene st' Hrun) as [_ Hkept].
  split; [rewrite Hkept; reflexivity | vm_compute; reflexivity].
Defined.

Lemma performLayout_keeps_subscriptions_witness :
  let context :=
    strictContext_of (mgr Scene.settled_scene Scene.manager_A)
      (Scene.request added Scene.group_A [Scene.rect_a] None) in
  let st := subscribe Scene.manager_A context Scene.rect_a Scene.settled_scene in
  let request := Scene.request removed Scene.group_A [Scene.rect_a] None in
  let st' := default st (Scene.run 4 Scene.manager_A request st) in
  length (subscription Scene.manager_A Scene.rect_a st) = 8%nat
  /\ subscription Scene.manager_A Scene.rect_a st'
     = subscription Scene.manager_A Scene.rect_a st
  /\ owned_listeners Scene.manager_A Scene.rect_a st' = [].
Proof.
  intros context st request st'.
  assert (Hrun : performLayout (collaborators := Scene.collaborators)
                   4 Scene.manager_A request st = Some st')
    by (vm_compute; reflexivity).
  destruct (performLayout_keeps_subscriptions (collaborators := Scene.collaborators)
              4 Scene.manager_A request st st'
              ltac:(discriminate) ltac:(discriminate) Hrun) as [_ Hkept].
  split; [vm_compute; reflexivity|]. split; [|vm_compute; reflexivity].
  unfold subscription. rewrite Hkept. reflexivity.
Defined.

(** ** Fuel *)

Section Fuel.
Context {collaborators : Collaborators}.

(** More fuel does not change the result of a call that returned. *)
Lemma performLayout_more_fuel fuel : forall fuel' this context st st',
  fuel <= fuel' ->
  performLayout fuel this context st = Some st' ->
  performLayout fuel' this context st = Some st'.
Proof.
  induction fuel as [|fuel IH]; intros fuel' this context st st' Hle Hrun;
    [discriminate|].
  destruct fuel' as [|fuel']; [lia|].
  destruct (rejected (mgr st this) context) eqn:Hr.
  - rewrite (performLayout_rejected _ _ _ _ Hr) in Hrun.
    rewrite (performLayout_rejected _ _ _ _ Hr). exact Hrun.
  - rewrite (performLayout_pass _ _ _ _ Hr) in Hrun.
    rewrite (performLayout_pass _ _ _ _ Hr).
    destruct (layout_pass this context st) as [[strictContext result] st1].
    unfold onAfterLayout in *.
    destruct (parent_layoutManager _ _) as [[parent manager]|]; [|exact Hrun].
    destruct (push_path _ _ _) as [bubbling st2].
    destruct (performLayout fuel manager _ st2) as [st3|] eqn:Hparent;
      [|discriminate].
    rewrite (IH fuel' _ _ _ _ ltac:(lia) Hparent). exact Hrun.
Qed.

Hypothesis setPositionByOrigin_links :
  forall p ox oy, keeps_links (setPositionByOrigin p ox oy).
Hypothesis setCoords_links : keeps_links setCoords.

(** X4. [performLayout] returns when the containers above the target are
    finitely many, for collaborators that leave the links of the scene graph
    as they are: with [n] containers to bubble through, the call returns
    within [n + 1] nested calls, and its result is the same for any larger
    bound. *)
Theorem performLayout_terminates n this context st :
  bubbles_at_most n st (LayoutContext.target context) = true ->
  exists st',
    forall fuel, n < fuel -> performLayout fuel this context st = Some st'.
Proof.
  intros Hchain.
  destruct (performLayout_returns setPositionByOrigin_links setCoords_links
              n this context st Hchain) as [st' Hst'].
  exists st'. intros fuel Hlt.
  apply (performLayout_more_fuel (S n)); [lia | exact Hst'].
Qed.

(** The links of the scene graph after a pass. *)
Lemma onAfterLayout_parent this context st :
  let '(strictContext, result, st1) := layout_pass this context st in
  parent_layoutManager
    (append_log (Fire_layout (StrictLayoutContext.target strictContext)
                   strictContext result)
       (append_log (Call_onAfterLayout (StrictLayoutContext.target strictContext)
                      strictContext result) st1))
    (StrictLayoutContext.target strictContext)
  = parent_layoutManager st (LayoutContext.target context)
  /\ same_links st st1.
Proof.
  pose proof (layout_pass_links setPositionByOrigin_links setCoords_links
                this context st) as Hlinks.
  destruct (layout_pass_frame this context st) as (result & st1 & Hpass & _).
  rewrite Hpass in Hlinks |- *. cbn [snd] in Hlinks. split; [|exact Hlinks].
  apply (same_links_parent st). exact Hlinks.
Qed.

Lemma ancestor_same_links k : forall st st' target,
  same_links st st' -> ancestor k st' target = ancestor k st target.
Proof.
  induction k as [|k IH]; intros st st' target Hlinks; cbn [ancestor];
    [reflexivity|].
  rewrite (same_links_parent _ _ _ Hlinks).
  destruct (parent_layoutManager st target) as [[parent manager]|];
    [apply IH, Hlinks | reflexivity].
Qed.

Lemma ancestor_S k : forall st target,
  ancestor (S k) st target
  = match ancestor k st target with
    | Some top =>
        match parent_layoutManager st top with
        | Some (parent, _) => Some parent
        | None => None
        end
    | None => None
    end.
Proof.
  induction k as [|k IH]; intros st target.
  - cbn [ancestor]. destruct (parent_layoutManager st target) as [[parent manager]|];
      reflexivity.
  - change (ancestor (S (S k)) st target)
      with (match parent_layoutManager st target with
            | Some (parent, _) => ancestor (S k) st parent
            | None => None
            end).
    cbn [ancestor] in *.
    destruct (parent_layoutManager st target) as [[parent manager]|];
      [apply IH | reflexivity].
Qed.

(** X5. Nothing guards against a cycle: when the target is its own ancestor
    through groups that have a layout manager, an [initialization] request is
    rejected nowhere and bubbles for ever; no number of nested calls is enough
    for [performLayout] to return.  The collaborators are those that leave the
    links of the scene graph as they are. *)
Theorem performLayout_cycle k fuel : forall this context st,
  LayoutContext.type context = initialization ->
  ancestor (S k) st (LayoutContext.target context)
  = Some (LayoutContext.target context) ->
  performLayout fuel this context st = None.
Proof.
  induction fuel as [|fuel IH]; intros this context st Hty Hcycle; [reflexivity|].
  assert (Hr : rejected (mgr st this) context = false).
  { unfold rejected. rewrite Hty, andb_false_r. reflexivity. }
  rewrite (performLayout_pass _ _ _ _ Hr).
  pose proof (onAfterLayout_parent this context st) as Hparent.
  destruct (layout_pass_frame this context st) as (result & st1 & Hpass & _).
  rewrite Hpass in Hparent |- *. destruct Hparent as [Hparent Hlinks].
  unfold onAfterLayout. rewrite Hparent.
  set (target := LayoutContext.target context) in *.
  pose proof Hcycle as Hstep. cbn [ancestor] in Hstep.
  destruct (parent_layoutManager st target) as [[parent manager]|] eqn:Hp;
    [|discriminate].
  match goal with |- context [push_path ?c ?t ?s] =>
    assert (Hpush : same_links st (snd (push_path c t s))
                    /\ StrictLayoutContext.type (fst (push_path c t s))
                       = initialization)
      by (unfold push_path; destruct (StrictLayoutContext.path c);
          cbn [fst snd]; (split; [exact Hlinks | exact Hty]));
    destruct (push_path c t s) as [bubbling st2] end.
  cbn [fst snd] in Hpush. destruct Hpush as [Hlinks2 Hty2].
  rewrite (IH manager (bubbled_context bubbling parent) st2); [reflexivity | exact Hty2 |].
  change (LayoutContext.target (bubbled_context bubbling parent)) with parent.
  rewrite (ancestor_same_links _ _ _ _ Hlinks2), ancestor_S, Hstep, Hp.
  reflexivity.
Qed.

End Fuel.

Lemma performLayout_terminates_witness :
  bubbles_at_most 2 Scene.settled_scene Scene.group_A = true
  /\ exists st',
       (forall fuel, 2 < fuel ->
          Scene.run fuel Scene.manager_A
            (Scene.request object_modified Scene.group_A [] None)
            Scene.settled_scene = Some st')
       /\ length (log st') = 12%nat.
Proof.
  split; [reflexivity|].
  destruct (performLayout_terminates (collaborators := Scene.collaborators)
              (fun p ox oy o => conj eq_refl eq_refl)
              (fun o => conj eq_refl eq_refl)
              2 Scene.manager_A
              (Scene.request object_modified Scene.group_A [] None)
              Scene.settled_scene eq_refl) as [st' Hst'].
  exists st'. split; [exact Hst'|].
  specialize (Hst' 3%nat ltac:(lia)).
  assert (Heq : st' = default Scene.settled_scene
                        (Scene.run 3 Scene.manager_A
                           (Scene.request object_modified Scene.group_A [] None)
                           Scene.settled_scene))
    by (unfold Scene.run; rewrite Hst'; reflexivity).
  rewrite Heq. vm_compute. reflexivity.
Defined.

Lemma performLayout_cycle_witness :
  ancestor 3 looped_scene Scene.group_A = Some Scene.group_A
  /\ forall fuel,
       Scene.run fuel Scene.manager_A
         (Scene.request initialization Scene.group_A [] None) looped_scene
       = None.
Proof.
  split; [reflexivity|]. intros fuel.
  apply (performLayout_cycle (collaborators := Scene.collaborators)
           (fun p ox oy o => conj eq_refl eq_refl)
           (fun o => conj eq_refl eq_refl) 2 fuel);
    reflexivity.
Defined.

(** ** The hooks and events of a pass *)

Section Hooks.
Context {collaborators : Collaborators}.

(** What a pass that is not rejected adds to the log. *)
Lemma performLayout_log_shape fuel this context st st' :
  rejected (mgr st this) context = false ->
  performLayout fuel this context st = Some st' ->
  let '(strictContext, result, st1) := layout_pass this context st in
  let target := LayoutContext.target context in
  exists entries,
    log st'
    = log st ++ [Call_onBeforeLayout target strictContext;
                 Fire_layout_before target strictContext;
                 Call_onAfterLayout target strictContext result;
                 Fire_layout target strictContext result] ++ entries
    /\ (parent_layoutManager st1 target = None -> entries = []).
Proof.
  intros Hr Hrun. destruct fuel as [|fuel]; [discriminate|].
  rewrite (performLayout_pass _ _ _ _ Hr) in Hrun.
  destruct (layout_pass_frame this context st)
    as (result & st1 & Hpass & _ & _ & Hlog).
  rewrite Hpass in Hrun |- *. cbv zeta.
  set (strictContext := strictContext_of (mgr st this) context) in *.
  set (target := LayoutContext.target context) in *.
  unfold onAfterLayout in Hrun.
  replace (StrictLayoutContext.target strictContext) with target in Hrun
    by reflexivity.
  set (st_hook := append_log (Fire_layout target strictContext result)
                    (append_log (Call_onAfterLayout target strictContext result)
                       st1)) in *.
  assert (Hhook : log st_hook
                  = log st ++ [Call_onBeforeLayout target strictContext;
                               Fire_layout_before target strictContext;
                               Call_onAfterLayout target strictContext result;
                               Fire_layout target strictContext result]).
  { change (log st_hook)
      with ((log st1 ++ [Call_onAfterLayout target strictContext result])
            ++ [Fire_layout target strictContext result]).
    rewrite Hlog, <- !app_assoc. reflexivity. }
  change (parent_layoutManager st_hook target)
    with (parent_layoutManager st1 target) in Hrun.
  destruct (parent_layoutManager st1 target) as [[parent manager]|].
  - assert (Hpush : log (snd (push_path strictContext target st_hook)) = log st_hook)
      by (unfold push_path; destruct (StrictLayoutContext.path strictContext);
          reflexivity).
    destruct (push_path strictContext target st_hook) as [bubbling st2].
    cbn [snd] in Hpush.
    destruct (performLayout fuel manager _ st2) as [st3|] eqn:Hparent;
      [|discriminate].
    injection Hrun as <-.
    destruct (performLayout_log _ _ _ _ _ Hparent) as [entries Hentries].
    exists entries. split; [|discriminate].
    change (log (record_strategy this strictContext st3)) with (log st3).
    rewrite Hentries, Hpush, Hhook, <- app_assoc. reflexivity.
  - injection Hrun as <-. exists []. split; [|reflexivity].
    change (log (record_strategy this strictContext st_hook)) with (log st_hook).
    rewrite Hhook. reflexivity.
Qed.

(** X6. Every pass that is not rejected tells its target four things, in
    this order and before any container above it is told anything: the hook
    [onBeforeLayout], the event [layout:before], the hook [onAfterLayout] and
    the event [layout].  The four carry the same strict context, and the last
    two the same result.  When the target has no group with a layout manager
    these four entries are all that the call adds to the log. *)
Theorem performLayout_hooks fuel this context st st' :
  rejected (mgr st this) context = false ->
  performLayout fuel this context st = Some st' ->
  let '(strictContext, result, st1) := layout_pass this context st in
  let target := LayoutContext.target context in
  exists entries,
    log st'
    = log st ++ [Call_onBeforeLayout target strictContext;
                 Fire_layout_before target strictContext;
                 Call_onAfterLayout target strictContext result;
                 Fire_layout target strictContext result] ++ entries
    /\ (parent_layoutManager st1 target = None -> entries = []).
Proof. apply performLayout_log_shape. Qed.

Lemma onBeforeLayout_managers this context st :
  StrictLayoutContext.type context <> initialization ->
  StrictLayoutContext.type context <> added ->
  managers (onBeforeLayout this context st) = managers st.
Proof.
  intros Hinit Hadded. unfold onBeforeLayout.
  destruct (StrictLayoutContext.type context); try congruence; try reflexivity.
  apply (foldl_unsubscribe_managers this context).
Qed.

(** X7. A manager that has laid out before and whose strategy gives no
    result: nothing is committed and there is no fallback.  When
    [onAfterLayout] is called every object has the fields it had, listeners
    apart, and every manager has the flag, the recorded strategy and the
    strategy it had; for a type other than [initialization] and [added] the
    managers are entirely as they were, tables included.  [onAfterLayout] and
    the event [layout] get no result, and the pass goes on to the parent as
    any other. *)
Theorem later_layout_without_result fuel this context st :
  LayoutManager._firstLayoutDone (mgr st this) = true ->
  let strictContext := strictContext_of (mgr st this) context in
  let target := LayoutContext.target context in
  let st1 := onBeforeLayout this strictContext st in
  calcLayoutResult (StrictLayoutContext.strategy strictContext) strictContext
    (FabricObject._objects (obj st1 target)) st1 = None ->
  let st2 := update_mgr this (LayoutManager.set_firstLayoutDone true) st1 in
  layout_pass this context st = (strictContext, None, st2)
  /\ (forall o, geometry (obj st2 o) = geometry (obj st o))
  /\ (forall m, bookkeeping (mgr st2 m) = bookkeeping (mgr st m))
  /\ (LayoutContext.type context <> initialization ->
      LayoutContext.type context <> added ->
      forall m, mgr st2 m = mgr st m)
  /\ forall st',
       performLayout fuel this context st = Some st' ->
       exists entries,
         log st'
         = log st ++ [Call_onBeforeLayout target strictContext;
                      Fire_layout_before target strictContext;
                      Call_onAfterLayout target strictContext None;
                      Fire_layout target strictContext None] ++ entries.
Proof.
  intros Hdone strictContext target st1 Hnone st2.
  destruct (onBeforeLayout_frame this strictContext st) as [Hgeo Hbook].
  fold st1 in Hgeo, Hbook.
  assert (Hdone1 : LayoutManager._firstLayoutDone (mgr st1 this) = true).
  { specialize (Hbook this). apply flag_of_bookkeeping in Hbook.
    destruct Hbook as (-> & _). exact Hdone. }
  assert (Hpass : layout_pass this context st = (strictContext, None, st2)).
  { unfold layout_pass. fold strictContext. fold st1. unfold getLayoutResult.
    replace (StrictLayoutContext.target strictContext) with target by reflexivity.
    rewrite Hnone, Hdone1. reflexivity. }
  split; [exact Hpass|]. split; [exact Hgeo|]. split; [|split].
  - intros m. unfold st2. rewrite mgr_update_mgr.
    destruct (decide (this = m)) as [->|_]; [|apply Hbook].
    rewrite <- Hbook. unfold bookkeeping. cbn. rewrite Hdone1. reflexivity.
  - intros Hinit Hadded m. unfold st2. rewrite mgr_update_mgr.
    assert (Hsame : forall m', mgr st1 m' = mgr st m')
      by (intros m'; apply mgr_of_managers, onBeforeLayout_managers; assumption).
    destruct (decide (this = m)) as [->|_]; [|apply Hsame].
    rewrite Hsame. rewrite Hsame in Hdone1.
    destruct (mgr st m); cbn in *; subst; reflexivity.
  - intros st' Hrun.
    assert (Hr : rejected (mgr st this) context = false)
      by (unfold rejected; rewrite Hdone; reflexivity).
    pose proof (performLayout_log_shape _ _ _ _ _ Hr Hrun) as Hshape.
    rewrite Hpass in Hshape. destruct Hshape as (entries & Hlog & _).
    exists entries. exact Hlog.
Qed.

End Hooks.

Lemma performLayout_hooks_witness :
  let request := Scene.request object_modified Scene.group_C [] None in
  let st' := default Scene.settled_scene
               (Scene.run 1 Scene.manager_C request Scene.settled_scene) in
  exists strictContext result,
    log st' = [Call_onBeforeLayout Scene.group_C strictContext;
               Fire_layout_before Scene.group_C strictContext;
               Call_onAfterLayout Scene.group_C strictContext (Some result);
               Fire_layout Scene.group_C strictContext (Some result)].
Proof.
  intros request st'.
  assert (Hrun : Scene.run 1 Scene.manager_C request Scene.settled_scene = Some st')
    by (vm_compute; reflexivity).
  pose proof (performLayout_hooks (collaborators := Scene.collaborators)
                1 Scene.manager_C request Scene.settled_scene st' eq_refl Hrun)
    as Hhooks.
  destruct (layout_pass Scene.manager_C request Scene.settled_scene)
    as [[strictContext result] st1] eqn:Hpass.
  assert (Hst1 : st1 = snd (layout_pass (collaborators := Scene.collaborators)
                              Scene.manager_C request Scene.settled_scene))
    by (rewrite Hpass; reflexivity).
  assert (Hresult : result
                    = snd (fst (layout_pass (collaborators := Scene.collaborators)
                                  Scene.manager_C request Scene.settled_scene)))
    by (rewrite Hpass; reflexivity).
  destruct Hhooks as (entries & Hlog & Htop).
  rewrite (Htop ltac:(rewrite Hst1; vm_compute; reflexivity)) in Hlog.
  assert (Hsome : is_Some result) by (rewrite Hresult; vm_compute; eauto).
  destruct Hsome as [layoutResult ->].
  exists strictContext, layoutResult. exact Hlog.
Defined.

Lemma later_layout_without_result_witness :
  let st :=
    Scene.scene (Scene.laid_out Scene.declining None) (Scene.laid_out 200 None)
      (Scene.laid_out 300 None) in
  let request := Scene.request object_modified Scene.group_A [] None in
  Scene.result_of Scene.declining = None
  /\ exists strictContext st2,
       layout_pass (collaborators := Scene.collaborators) Scene.manager_A
         request st = (strictContext, None, st2)
       /\ geometry (obj st2 Scene.rect_a) = geometry (obj st Scene.rect_a)
       /\ mgr st2 Scene.manager_A = mgr st Scene.manager_A.
Proof.
  intros st request. split; [reflexivity|].
  destruct (later_layout_without_result (collaborators := Scene.collaborators)
              3 Scene.manager_A request st eq_refl eq_refl)
    as (Hpass & Hgeo & _ & Hmanagers & _).
  eexists _, _. split; [exact Hpass|]. split; [apply Hgeo|].
  apply Hmanagers; discriminate.
Defined.

(** ** What the commit does to the objects *)

Section Commit.
Context {collaborators : Collaborators}.

(** [layoutObject] writes [left] and [top] and nothing else. *)
Lemma layoutObject_obj context layoutResult object st o :
  obj (layoutObject context layoutResult object st) o
  = if decide (object = o)
    then FabricObject.setRelativeXY
           (Point.add (FabricObject.getRelativeXY (obj st o))
                      (LayoutResult.offset layoutResult)) (obj st o)
    else obj st o.
Proof.
  unfold layoutObject. rewrite obj_update_obj.
  destruct (decide (object = o)) as [->|_]; reflexivity.
Qed.

Lemma layoutObject_placed context layoutResult object st o l t :
  FabricObject.set_left_top l t (obj (layoutObject context layoutResult object st) o)
  = FabricObject.set_left_top l t (obj st o).
Proof.
  rewrite layoutObject_obj. destruct (decide (object = o)); reflexivity.
Qed.

Lemma foldl_layoutObject_placed context layoutResult target children :
  forall st o l t,
    FabricObject.set_left_top l t
      (obj (foldl (fun st object =>
                     if bool_decide (FabricObject.group (obj st object) = Some target)
                     then layoutObject context layoutResult object st
                     else st) st children) o)
    = FabricObject.set_left_top l t (obj st o).
Proof.
  induction children as [|a children IH]; intros st o l t; cbn [foldl];
    [reflexivity|].
  rewrite IH. destruct (bool_decide _); [apply layoutObject_placed | reflexivity].
Qed.

(** [layoutObjects] writes [left] and [top] and nothing else. *)
Lemma layoutObjects_placed context layoutResult st o l t :
  FabricObject.set_left_top l t (obj (layoutObjects context layoutResult st) o)
  = FabricObject.set_left_top l t (obj st o).
Proof.
  unfold layoutObjects.
  assert (Hclip : forall st1,
    FabricObject.set_left_top l t
      (obj (match FabricObject.clipPath
                    (obj st1 (StrictLayoutContext.target context)) with
            | Some clipPath =>
                if negb (FabricObject.absolutePositioned (obj st1 clipPath))
                then layoutObject context layoutResult clipPath st1
                else st1
            | None => st1
            end) o)
    = FabricObject.set_left_top l t (obj st1 o)).
  { intros st1. destruct (FabricObject.clipPath _); [|reflexivity].
    destruct (negb _); [apply layoutObject_placed | reflexivity]. }
  destruct (negb _ || negb _);
    (destruct (shouldLayoutClipPath _ _ _); [rewrite Hclip|]);
    first [apply foldl_layoutObject_placed | reflexivity].
Qed.

(** The children that the loop of [layoutObjects] passes over. *)
Lemma foldl_layoutObject_untouched context layoutResult target children o :
  forall st,
    FabricObject.group (obj st o) <> Some target \/ ~ In o children ->
    obj (foldl (fun st object =>
                  if bool_decide (FabricObject.group (obj st object) = Some target)
                  then layoutObject context layoutResult object st
                  else st) st children) o
    = obj st o.
Proof.
  induction children as [|a children IH]; intros st Hskip; cbn [foldl];
    [reflexivity|].
  destruct (decide (a = o)) as [->|Hne].
  - destruct Hskip as [Hgroup|Hout]; [|destruct Hout; left; reflexivity].
    rewrite bool_decide_eq_false_2 by exact Hgroup.
    apply IH. left. exact Hgroup.
  - assert (Hsame : obj (if bool_decide (FabricObject.group (obj st a) = Some target)
                         then layoutObject context layoutResult a st else st) o
                    = obj st o).
    { destruct (bool_decide _); [|reflexivity].
      rewrite layoutObject_obj. destruct (decide (a = o)); congruence. }
    rewrite IH; [exact Hsame|]. rewrite Hsame.
    destruct Hskip as [Hgroup|Hout]; [left; exact Hgroup|].
    right. intros Hin. apply Hout. right. exact Hin.
Qed.

(** A child that the loop of [layoutObjects] meets once is moved by the
    offset. *)
Lemma foldl_layoutObject_moved context layoutResult target children o :
  forall st,
    NoDup children -> In o children ->
    FabricObject.group (obj st o) = Some target ->
    obj (foldl (fun st object =>
                  if bool_decide (FabricObject.group (obj st object) = Some target)
                  then layoutObject context layoutResult object st
                  else st) st children) o
    = FabricObject.setRelativeXY
        (Point.add (FabricObject.getRelativeXY (obj st o))
                   (LayoutResult.offset layoutResult)) (obj st o).
Proof.
  induction children as [|a children IH]; intros st Hnodup Hin Hgroup;
    [destruct Hin|].
  apply NoDup_cons in Hnodup. destruct Hnodup as [Hout Hnodup].
  rewrite list_elem_of_In in Hout.
  cbn [foldl]. destruct (decide (a = o)) as [->|Hne].
  - rewrite bool_decide_eq_true_2 by exact Hgroup.
    rewrite foldl_layoutObject_untouched by (right; exact Hout).
    rewrite layoutObject_obj. destruct (decide (o = o)); [reflexivity|congruence].
  - assert (Hsame : obj (if bool_decide (FabricObject.group (obj st a) = Some target)
                         then layoutObject context layoutResult a st else st) o
                    = obj st o).
    { destruct (bool_decide _); [|reflexivity].
      rewrite layoutObject_obj. destruct (decide (a = o)); congruence. }
    rewrite IH; [rewrite Hsame; reflexivity | exact Hnodup | | rewrite Hsame; exact Hgroup].
    destruct Hin as [Heq|Hin]; [congruence | exact Hin].
Qed.

(** The clip path step of [layoutObjects] on an object that is not a clip
    path to move. *)
Lemma clipPath_untouched context layoutResult st st1 o :
  (forall o' l t, FabricObject.set_left_top l t (obj st1 o')
                  = FabricObject.set_left_top l t (obj st o')) ->
  FabricObject.clipPath (obj st (StrictLayoutContext.target context)) <> Some o
  \/ FabricObject.absolutePositioned (obj st o) = true ->
  obj (match FabricObject.clipPath (obj st1 (StrictLayoutContext.target context)) with
       | Some clipPath =>
           if negb (FabricObject.absolutePositioned (obj st1 clipPath))
           then layoutObject context layoutResult clipPath st1
           else st1
       | None => st1
       end) o
  = obj st1 o.
Proof.
  intros Hplaced Hclip.
  assert (Hc : FabricObject.clipPath (obj st1 (StrictLayoutContext.target context))
               = FabricObject.clipPath (obj st (StrictLayoutContext.target context)))
    by exact (f_equal FabricObject.clipPath
                (Hplaced (StrictLayoutContext.target context) 0%Q 0%Q)).
  rewrite Hc.
  destruct (FabricObject.clipPath (obj st (StrictLayoutContext.target context)))
    as [c|]; [|reflexivity].
  destruct (decide (c = o)) as [->|Hne].
  - destruct Hclip as [Hclip|Habs]; [congruence|].
    assert (Ha : FabricObject.absolutePositioned (obj st1 o)
                 = FabricObject.absolutePositioned (obj st o))
      by exact (f_equal FabricObject.absolutePositioned (Hplaced o 0%Q 0%Q)).
    rewrite Ha, Habs. reflexivity.
  - destruct (negb _); [|reflexivity].
    rewrite layoutObject_obj. destruct (decide (c = o)); congruence.
Qed.

Lemma layoutObjects_untouched context layoutResult st o :
  negb (is_initialization (StrictLayoutContext.type context))
  || negb (StrictLayoutContext.objectsRelativeToGroup context) = false
  \/ FabricObject.group (obj st o) <> Some (StrictLayoutContext.target context)
  \/ ~ In o (FabricObject._objects (obj st (StrictLayoutContext.target context))) ->
  FabricObject.clipPath (obj st (StrictLayoutContext.target context)) <> Some o
  \/ FabricObject.absolutePositioned (obj st o) = true ->
  obj (layoutObjects context layoutResult st) o = obj st o.
Proof.
  intros Hskip Hclip. unfold layoutObjects.
  match goal with |- context [foldl ?f st ?l] => set (st1 := foldl f st l) end.
  assert (Hplaced : forall o' l t,
            FabricObject.set_left_top l t (obj st1 o')
            = FabricObject.set_left_top l t (obj st o'))
    by (intros; apply foldl_layoutObject_placed).
  destruct (negb _ || negb _) eqn:Hloop.
  - assert (Hfold : obj st1 o = obj st o).
    { apply foldl_layoutObject_untouched.
      destruct Hskip as [Hskip|Hskip]; [discriminate | exact Hskip]. }
    destruct (shouldLayoutClipPath _ _ _); [|exact Hfold].
    rewrite (clipPath_untouched context layoutResult st st1 o Hplaced Hclip).
    exact Hfold.
  - destruct (shouldLayoutClipPath _ _ _); [|reflexivity].
    apply (clipPath_untouched context layoutResult st st o); [reflexivity | exact Hclip].
Qed.

Lemma layoutObjects_moved context layoutResult st o :
  negb (is_initialization (StrictLayoutContext.type context))
  || negb (StrictLayoutContext.objectsRelativeToGroup context) = true ->
  NoDup (FabricObject._objects (obj st (StrictLayoutContext.target context))) ->
  In o (FabricObject._objects (obj st (StrictLayoutContext.target context))) ->
  FabricObject.group (obj st o) = Some (StrictLayoutContext.target context) ->
  FabricObject.clipPath (obj st (StrictLayoutContext.target context)) <> Some o
  \/ FabricObject.absolutePositioned (obj st o) = true ->
  obj (layoutObjects context layoutResult st) o
  = FabricObject.setRelativeXY
      (Point.add (FabricObject.getRelativeXY (obj st o))
                 (LayoutResult.offset layoutResult)) (obj st o).
Proof.
  intros Hloop Hnodup Hin Hgroup Hclip. unfold layoutObjects.
  match goal with |- context [foldl ?f st ?l] => set (st1 := foldl f st l) end.
  assert (Hplaced : forall o' l t,
            FabricObject.set_left_top l t (obj st1 o')
            = FabricObject.set_left_top l t (obj st o'))
    by (intros; apply foldl_layoutObject_placed).
  rewrite Hloop.
  assert (Hfold : obj st1 o
                  = FabricObject.setRelativeXY
                      (Point.add (FabricObject.getRelativeXY (obj st o))
                                 (LayoutResult.offset layoutResult)) (obj st o))
    by (apply foldl_layoutObject_moved; assumption).
  destruct (shouldLayoutClipPath _ _ _); [|exact Hfold].
  rewrite (clipPath_untouched context layoutResult st st1 o Hplaced Hclip).
  exact Hfold.
Qed.

(** What [commitLayout] does to an object other than its target is what
    [layoutObjects] does to it. *)
Lemma commitLayout_other context layoutResult st o :
  o <> StrictLayoutContext.target context ->
  obj (commitLayout context layoutResult st) o
  = obj (layoutObjects context layoutResult
           (update_obj (StrictLayoutContext.target context)
              (FabricObject.set_width_height
                 (LayoutStrategyResult.width (LayoutResult.result layoutResult))
                 (LayoutStrategyResult.height (LayoutResult.result layoutResult)))
              st)) o.
Proof.
  intros Hne. unfold commitLayout.
  set (target := StrictLayoutContext.target context) in *.
  rewrite obj_update_obj_ne by congruence.
  match goal with |- context [obj (if ?b then update_obj target ?f ?s else ?s) o] =>
    replace (obj (if b then update_obj target f s else s) o) with (obj s o)
      by (destruct b; [rewrite obj_update_obj_ne by congruence|]; reflexivity)
  end.
  match goal with
  |- context [obj (if ?b then update_obj target ?f ?s
                   else if ?c then update_obj target ?g ?s else ?s) o] =>
    replace (obj (if b then update_obj target f s
                  else if c then update_obj target g s else s) o)
      with (obj s o)
      by (destruct b; [|destruct c];
          try rewrite obj_update_obj_ne by congruence; reflexivity)
  end.
  reflexivity.
Qed.

End Commit.

Section CommitTheorems.
Context {collaborators : Collaborators}.

(** X8. The commit of an [initialization] layout leaves the container with
    the width and height of the result, with [left] and [top] at
    [nextCenter + (width, height) * (resolveOrigin originX, resolveOrigin
    originY)] and marked dirty; its other fields are the ones it had.  Neither
    the position it had nor its own transform nor [setPositionByOrigin] nor
    [setCoords] play a part. *)
Theorem commitLayout_initialization context layoutResult st :
  StrictLayoutContext.type context = initialization ->
  let target := StrictLayoutContext.target context in
  let width := LayoutStrategyResult.width (LayoutResult.result layoutResult) in
  let height := LayoutStrategyResult.height (LayoutResult.result layoutResult) in
  let origin :=
    Point.add (LayoutResult.nextCenter layoutResult)
      (Point.multiply (Point.new width height)
         (Point.new (resolveOrigin (FabricObject.originX (obj st target)))
                    (resolveOrigin (FabricObject.originY (obj st target))))) in
  obj (commitLayout context layoutResult st) target
  = FabricObject.set_dirty true
      (FabricObject.set_left_top (Point.x origin) (Point.y origin)
         (FabricObject.set_width_height width height (obj st target))).
Proof.
  intros Hty target width height origin. unfold commitLayout. rewrite Hty.
  cbn [is_initialization negb]. fold target. fold width. fold height.
  rewrite !obj_update_obj_eq.
  set (st1 := update_obj target (FabricObject.set_width_height width height) st).
  pose proof (fun l t => layoutObjects_placed context layoutResult st1 target l t)
    as Hplaced.
  assert (Hox : FabricObject.originX (obj (layoutObjects context layoutResult st1) target)
                = FabricObject.originX (obj st target)).
  { pose proof (f_equal FabricObject.originX (Hplaced 0%Q 0%Q)) as H.
    cbn [FabricObject.originX FabricObject.set_left_top] in H. rewrite H.
    unfold st1. rewrite obj_update_obj_eq. reflexivity. }
  assert (Hoy : FabricObject.originY (obj (layoutObjects context layoutResult st1) target)
                = FabricObject.originY (obj st target)).
  { pose proof (f_equal FabricObject.originY (Hplaced 0%Q 0%Q)) as H.
    cbn [FabricObject.originY FabricObject.set_left_top] in H. rewrite H.
    unfold st1. rewrite obj_update_obj_eq. reflexivity. }
  rewrite Hox, Hoy. fold origin. rewrite Hplaced. unfold st1.
  rewrite obj_update_obj_eq. reflexivity.
Qed.

(** The objects that [commitLayout] passes over. *)
Lemma commitLayout_untouched_obj context layoutResult st o :
  let target := StrictLayoutContext.target context in
  o <> target ->
  FabricObject.group (obj st o) <> Some target
  \/ ~ In o (FabricObject._objects (obj st target)) ->
  FabricObject.clipPath (obj st target) <> Some o
  \/ FabricObject.absolutePositioned (obj st o) = true ->
  obj (commitLayout context layoutResult st) o = obj st o.
Proof.
  intros target Hne Hskip Hclip.
  rewrite commitLayout_other by exact Hne. fold target.
  set (st1 := update_obj target _ st).
  assert (Ho : obj st1 o = obj st o)
    by (unfold st1; apply obj_update_obj_ne; congruence).
  assert (Ht : obj st1 target
               = FabricObject.set_width_height
                   (LayoutStrategyResult.width (LayoutResult.result layoutResult))
                   (LayoutStrategyResult.height (LayoutResult.result layoutResult))
                   (obj st target))
    by (unfold st1; apply obj_update_obj_eq).
  rewrite layoutObjects_untouched; [exact Ho | |]; fold target; rewrite Ho, Ht.
  - right. exact Hskip.
  - exact Hclip.
Qed.

(** X9. [commitLayout] moves the children of its target and no one else: an
    object other than the target that is not in the target's list of objects,
    or whose [group] is not the target, and that is not the target's clip
    path (or is an absolutely positioned one), has after the commit every
    field it had before, the dirty flag apart: position, size, scale, angle,
    origins, its place in the scene graph and its listeners. *)
Theorem commitLayout_untouched context layoutResult st o :
  let target := StrictLayoutContext.target context in
  o <> target ->
  FabricObject.group (obj st o) <> Some target
  \/ ~ In o (FabricObject._objects (obj st target)) ->
  FabricObject.clipPath (obj st target) <> Some o
  \/ FabricObject.absolutePositioned (obj st o) = true ->
  forall b,
    FabricObject.set_dirty b (obj (commitLayout context layoutResult st) o)
    = FabricObject.set_dirty b (obj st o).
Proof.
  intros target Hne Hchild Hclip b.
  rewrite (commitLayout_untouched_obj context layoutResult st o Hne Hchild Hclip).
  reflexivity.
Qed.

(** X10. Unless the layout is an [initialization] with objects relative to
    the group, [commitLayout] moves each child of the target by the offset of
    the result, once: a child that occurs in the target's list of objects,
    which has no duplicate, and whose [group] is the target, ends at
    [getRelativeXY() + offset], its other fields untouched.  The child is not
    at the same time a clip path that [layoutObjects] would move again. *)
Theorem commitLayout_moves_children context layoutResult st o :
  let target := StrictLayoutContext.target context in
  (StrictLayoutContext.type context <> initialization
   \/ StrictLayoutContext.objectsRelativeToGroup context = false) ->
  NoDup (FabricObject._objects (obj st target)) ->
  In o (FabricObject._objects (obj st target)) ->
  FabricObject.group (obj st o) = Some target ->
  o <> target ->
  FabricObject.clipPath (obj st target) <> Some o
  \/ FabricObject.absolutePositioned (obj st o) = true ->
  obj (commitLayout context layoutResult st) o
  = FabricObject.setRelativeXY
      (Point.add (FabricObject.getRelativeXY (obj st o))
                 (LayoutResult.offset layoutResult)) (obj st o).
Proof.
  intros target Hloop Hnodup Hin Hgroup Hne Hclip.
  rewrite commitLayout_other by exact Hne. fold target.
  set (st1 := update_obj target _ st).
  assert (Ho : obj st1 o = obj st o)
    by (unfold st1; apply obj_update_obj_ne; congruence).
  assert (Ht : obj st1 target
               = FabricObject.set_width_height
                   (LayoutStrategyResult.width (LayoutResult.result layoutResult))
                   (LayoutStrategyResult.height (LayoutResult.result layoutResult))
                   (obj st target))
    by (unfold st1; apply obj_update_obj_eq).
  rewrite layoutObjects_moved; fold target; rewrite ?Ho, ?Ht;
    try assumption; try reflexivity.
  destruct Hloop as [Hty|Hrel].
  - destruct (StrictLayoutContext.type context); try congruence; reflexivity.
  - rewrite Hrel. apply orb_true_r.
Qed.

(** X11. An [initialization] layout with [objectsRelativeToGroup] moves no
    child: the offset of the result is the zero point, the loop over the
    children is skipped, and after the commit every object other than the
    container is where it was; only a clip path may have been rewritten, with
    numerically the same position, and every other object has all the fields
    it had, the dirty flag apart. *)
Theorem initialization_relative_to_group context layoutResult st :
  StrictLayoutContext.type context = initialization ->
  StrictLayoutContext.objectsRelativeToGroup context = true ->
  getLayoutResult context st = Some layoutResult ->
  let target := StrictLayoutContext.target context in
  LayoutResult.offset layoutResult = Point.zero
  /\ forall o, o <> target ->
       Point.equiv
         (FabricObject.getRelativeXY (obj (commitLayout context layoutResult st) o))
         (FabricObject.getRelativeXY (obj st o))
       /\ (FabricObject.clipPath (obj st target) <> Some o ->
           forall b,
             FabricObject.set_dirty b (obj (commitLayout context layoutResult st) o)
             = FabricObject.set_dirty b (obj st o)).
Proof.
  intros Hty Hrel Hres target.
  assert (Hoffset : LayoutResult.offset layoutResult = Point.zero).
  { unfold getLayoutResult in Hres. rewrite Hty, Hrel in Hres.
    destruct (calcLayoutResult _ _ _ _); [|discriminate].
    injection Hres as <-. reflexivity. }
  split; [exact Hoffset|]. intros o Hne. split.
  - apply commitLayout_zero; [|exact Hne]. rewrite Hoffset. apply Point_equiv_refl.
  - intros Hclip b. apply (f_equal (FabricObject.set_dirty b)).
    rewrite commitLayout_other by exact Hne. fold target.
    set (st1 := update_obj target _ st).
    assert (Ho : obj st1 o = obj st o)
      by (unfold st1; apply obj_update_obj_ne; congruence).
    rewrite layoutObjects_untouched; [exact Ho | |].
    + left. rewrite Hty, Hrel. reflexivity.
    + left. fold target. unfold st1. rewrite obj_update_obj_eq. exact Hclip.
Qed.

(** X12. An [initialization] layout whose objects are not relative to the
    group re-centres the children on the new centre: each child of the
    container (listed once, with the container as [group], and not its clip
    path) ends at its position minus the centre that the strategy returned,
    plus the two corrections.  The position and the transform of the
    container do not enter. *)
Theorem initialization_recentres_children context st result o :
  StrictLayoutContext.type context = initialization ->
  StrictLayoutContext.objectsRelativeToGroup context = false ->
  let target := StrictLayoutContext.target context in
  calcLayoutResult (StrictLayoutContext.strategy context) context
    (FabricObject._objects (obj st target)) st = Some result ->
  NoDup (FabricObject._objects (obj st target)) ->
  In o (FabricObject._objects (obj st target)) ->
  FabricObject.group (obj st o) = Some target ->
  o <> target ->
  FabricObject.clipPath (obj st target) <> Some o ->
  exists layoutResult,
    getLayoutResult context st = Some layoutResult
    /\ let o' := obj (commitLayout context layoutResult st) o in
       (FabricObject.left o'
        == FabricObject.left (obj st o) - LayoutStrategyResult.centerX result
           + default 0 (LayoutStrategyResult.correctionX result)
           + default 0 (LayoutStrategyResult.relativeCorrectionX result))%Q
       /\ (FabricObject.top o'
           == FabricObject.top (obj st o) - LayoutStrategyResult.centerY result
              + default 0 (LayoutStrategyResult.correctionY result)
              + default 0 (LayoutStrategyResult.relativeCorrectionY result))%Q.
Proof.
  intros Hty Hrel target Hres Hnodup Hin Hgroup Hne Hclip.
  pose proof (getLayoutResult_result context st result Hres) as Heq.
  cbv zeta in Heq. rewrite Hty, Hrel in Heq. cbn [is_initialization andb] in Heq.
  eexists. split; [exact Heq|]. cbv zeta.
  rewrite commitLayout_other by exact Hne. fold target.
  set (st1 := update_obj target _ st).
  assert (Ho : obj st1 o = obj st o)
    by (unfold st1; apply obj_update_obj_ne; congruence).
  rewrite layoutObjects_moved; fold target; rewrite ?Ho;
    try (unfold st1; rewrite obj_update_obj_eq); try assumption.
  - unfold spec_offset, Point.transform, Point.subtract, Point.zero, Point.add,
      iMatrix.
    cbn. split; ring.
  - rewrite Hrel. apply orb_true_r.
  - left. exact Hclip.
Qed.

End CommitTheorems.

Lemma commitLayout_initialization_witness :
  let context :=
    strictContext_of (mgr Scene.fresh_scene Scene.manager_A)
      (Scene.request initialization Scene.group_A [Scene.rect_a; Scene.rect_b] None) in
  let layoutResult :=
    LayoutResult.make
      (LayoutStrategyResult.make 100 0 300 100 None None None None)
      Point.zero (Point.new 100 0) (Point.new (-100) 0) in
  let container :=
    obj (commitLayout (collaborators := Scene.collaborators) context layoutResult
           (update_obj Scene.group_A
              (fun o => Scene.container 7 9 2 (Some Scene.group_B) Scene.manager_A
                          [Scene.rect_a; Scene.rect_b])
              Scene.fresh_scene))
        (StrictLayoutContext.target context) in
  (FabricObject.left container == 100)%Q
  /\ (FabricObject.top container == 0)%Q
  /\ (FabricObject.width container == 300)%Q
  /\ FabricObject.dirty container = true.
Proof.
  intros context layoutResult container. unfold container.
  rewrite (commitLayout_initialization (collaborators := Scene.collaborators)
             context layoutResult _ eq_refl).
  vm_compute. repeat split.
Defined.

Lemma commitLayout_untouched_witness :
  let context :=
    strictContext_of (mgr Scene.settled_scene Scene.manager_B)
      (Scene.request object_modified Scene.group_B [] None) in
  let layoutResult :=
    LayoutResult.make
      (LayoutStrategyResult.make 200 0 200 100 None None None None)
      Point.zero (Point.new 200 0) (Point.new (-200) 0) in
  FabricObject.set_dirty false
    (obj (commitLayout (collaborators := Scene.collaborators) context layoutResult
            Scene.settled_scene) Scene.rect_a)
  = FabricObject.set_dirty false (obj Scene.settled_scene Scene.rect_a)
  /\ FabricObject.left
       (obj (commitLayout (collaborators := Scene.collaborators) context
               layoutResult Scene.settled_scene) Scene.group_A)
     = (0 + -200)%Q.
Proof.
  intros context layoutResult. split; [|vm_compute; reflexivity].
  apply (commitLayout_untouched (collaborators := Scene.collaborators)
           context layoutResult Scene.settled_scene Scene.rect_a).
  - vm_compute. discriminate.
  - left. vm_compute. discriminate.
  - left. vm_compute. discriminate.
Defined.

Lemma commitLayout_moves_children_witness :
  let context :=
    strictContext_of (mgr Scene.settled_scene Scene.manager_A)
      (Scene.request object_modified Scene.group_A [] None) in
  let layoutResult :=
    LayoutResult.make
      (LayoutStrategyResult.make 100 0 200 100 None None None None)
      Point.zero (Point.new 100 0) (Point.new (-50) 0) in
  let st' :=
    commitLayout (collaborators := Scene.collaborators) context layoutResult
      Scene.settled_scene in
  FabricObject.left (obj Scene.settled_scene Scene.rect_a) = (-50)%Q
  /\ (FabricObject.left (obj st' Scene.rect_a) == -100)%Q
  /\ FabricObject.width (obj st' Scene.rect_a) = 100%Q.
Proof.
  intros context layoutResult st'. split; [reflexivity|]. unfold st'.
  rewrite (commitLayout_moves_children (collaborators := Scene.collaborators)
             context layoutResult Scene.settled_scene Scene.rect_a).
  - vm_compute. split; reflexivity.
  - left. vm_compute. discriminate.
  - apply (bool_decide_unpack _). vm_compute. exact I.
  - vm_compute. left. reflexivity.
  - reflexivity.
  - vm_compute. discriminate.
  - left. vm_compute. discriminate.
Defined.

Lemma initialization_relative_to_group_witness :
  let context :=
    strictContext_of (mgr Scene.fresh_scene Scene.manager_A)
      (LayoutContext.make initialization Scene.group_A
         [Scene.rect_a; Scene.rect_b] true None None None None None None) in
  exists layoutResult,
    getLayoutResult (collaborators := Scene.collaborators) context
      Scene.fresh_scene = Some layoutResult
    /\ LayoutResult.offset layoutResult = Point.zero
    /\ FabricObject.set_dirty false
         (obj (commitLayout (collaborators := Scene.collaborators) context
                 layoutResult Scene.fresh_scene) Scene.rect_a)
       = FabricObject.set_dirty false (obj Scene.fresh_scene Scene.rect_a).
Proof.
  intros context.
  destruct (getLayoutResult (collaborators := Scene.collaborators) context
              Scene.fresh_scene) as [layoutResult|] eqn:Hres;
    [|vm_compute in Hres; discriminate].
  destruct (initialization_relative_to_group
              (collaborators := Scene.collaborators) context layoutResult
              Scene.fresh_scene eq_refl eq_refl Hres) as [Hoffset Hkept].
  exists layoutResult. split; [reflexivity|]. split; [exact Hoffset|].
  apply (Hkept Scene.rect_a); [vm_compute|vm_compute]; discriminate.
Defined.

Lemma initialization_recentres_children_witness :
  let context :=
    strictContext_of (mgr Scene.fresh_scene Scene.manager_A)
      (Scene.request initialization Scene.group_A [Scene.rect_a; Scene.rect_b] None) in
  FabricObject.left (obj Scene.fresh_scene Scene.rect_a) = (-50)%Q
  /\ exists layoutResult,
       getLayoutResult (collaborators := Scene.collaborators) context
         Scene.fresh_scene = Some layoutResult
       /\ (FabricObject.left
             (obj (commitLayout (collaborators := Scene.collaborators) context
                     layoutResult Scene.fresh_scene) Scene.rect_a)
           == -150)%Q.
Proof.
  intros context. split; [reflexivity|].
  destruct (initialization_recentres_children
              (collaborators := Scene.collaborators) context Scene.fresh_scene
              (LayoutStrategyResult.make 100 0 200 100 None None None None)
              Scene.rect_a eq_refl eq_refl eq_refl)
    as (layoutResult & Hres & Hleft & _).
  - apply (bool_decide_unpack _). vm_compute. exact I.
  - vm_compute. left. reflexivity.
  - reflexivity.
  - vm_compute. discriminate.
  - vm_compute. discriminate.
  - exists layoutResult. split; [exact Hres|]. rewrite Hleft. vm_compute.
    reflexivity.
Defined.

(** ** Subscribing the targets *)

Lemma keyed_spec this st :
  keyed this st = true
  <-> forall o d, In d (subscription this o st) -> d_object d = o.
Proof.
  unfold keyed, subscription. rewrite forallb_forall. split.
  - intros Hkeyed o d Hd.
    destruct (LayoutManager._subscriptions (mgr st this) !! o) as [ds|] eqn:Hds;
      [|destruct Hd].
    specialize (Hkeyed (o, ds)). cbn [fst snd] in Hkeyed.
    rewrite forallb_forall in Hkeyed.
    apply Nat.eqb_eq, Hkeyed; [|exact Hd].
    apply list_elem_of_In, elem_of_map_to_list. exact Hds.
  - intros Hkeyed [o ds] Hin. cbn [fst snd]. apply forallb_forall. intros d Hd.
    apply Nat.eqb_eq, Hkeyed.
    apply list_elem_of_In, elem_of_map_to_list in Hin. rewrite Hin. exact Hd.
Qed.

Lemma keyed_subscribe this context object st :
  keyed this st = true -> keyed this (subscribe this context object st) = true.
Proof.
  rewrite !keyed_spec. intros Hkeyed o d Hd.
  destruct (decide (o = object)) as [->|Hne].
  - destruct (subscribe_effect this context object st) as (_ & Hsub & _).
    rewrite Hsub in Hd. apply in_map_iff in Hd. destruct Hd as (l & <- & _).
    reflexivity.
  - rewrite subscription_subscribe in Hd by (right; exact Hne).
    apply Hkeyed, Hd.
Qed.

(** With a table that is keyed by object, [subscribe] does not touch the
    listeners of the other objects, whoever installed them. *)
Lemma owned_subscribe_other this context object st m o :
  keyed this st = true -> object <> o ->
  owned_listeners m o (subscribe this context object st) = owned_listeners m o st.
Proof.
  intros Hkeyed Hne. rewrite owned_subscribe.
  destruct (decide (object = o)); [congruence|]. rewrite app_nil_r.
  apply filter_all. intros l _. unfold survives. apply forallb_forall.
  intros d Hd. rewrite keyed_spec in Hkeyed. rewrite (Hkeyed _ _ Hd).
  destruct (Nat.eqb_spec object o); [congruence | reflexivity].
Qed.

Lemma foldl_subscribe_keyed this context targets : forall st,
  keyed this st = true ->
  keyed this (foldl (fun st object => subscribe this context object st) st targets)
  = true
  /\ next_handler st
     <= next_handler
          (foldl (fun st object => subscribe this context object st) st targets).
Proof.
  induction targets as [|a targets IH]; intros st Hkeyed; cbn [foldl];
    [split; [exact Hkeyed | lia]|].
  destruct (IH _ (keyed_subscribe this context a st Hkeyed)) as [Hk Hn].
  split; [exact Hk|].
  destruct (subscribe_effect this context a st) as (_ & _ & Hnext). lia.
Qed.

Lemma foldl_subscribe_other this context targets m o : forall st,
  keyed this st = true -> ~ In o targets ->
  owned_listeners m o
    (foldl (fun st object => subscribe this context object st) st targets)
  = owned_listeners m o st
  /\ (covered m o st = true ->
      covered m o
        (foldl (fun st object => subscribe this context object st) st targets)
      = true).
Proof.
  induction targets as [|a targets IH]; intros st Hkeyed Hout; cbn [foldl];
    [split; [reflexivity | tauto]|].
  assert (Hne : a <> o) by (intros ->; apply Hout; left; reflexivity).
  destruct (IH _ (keyed_subscribe this context a st Hkeyed)
              (fun Hin => Hout (or_intror Hin))) as [Hown Hcov].
  split.
  - rewrite Hown. apply owned_subscribe_other; assumption.
  - intros Hc. apply Hcov, covered_subscribe_other; [right; congruence | exact Hc].
Qed.

Lemma foldl_subscribe_targets this context targets o : forall st,
  keyed this st = true -> In o targets -> covered this o st = true ->
  let st' := foldl (fun st object => subscribe this context object st) st targets in
  covered this o st' = true
  /\ exists n,
       next_handler st <= n
       /\ owned_listeners this o st'
          = subscribed_listeners this (StrictLayoutContext.target context) o n.
Proof.
  induction targets as [|a targets IH]; intros st Hkeyed Hin Hcov; [destruct Hin|].
  cbn [foldl]. cbv zeta.
  pose proof (keyed_subscribe this context a st Hkeyed) as Hkeyed1.
  destruct (subscribe_effect this context a st) as (_ & _ & Hnext).
  destruct (in_dec Nat.eq_dec o targets) as [Hlater|Hlast].
  - assert (Hcov1 : covered this o (subscribe this context a st) = true).
    { destruct (decide (a = o)) as [->|Hne].
      - apply (subscribe_owned this context o st Hcov).
      - apply covered_subscribe_other; [right; congruence | exact Hcov]. }
    destruct (IH _ Hkeyed1 Hlater Hcov1) as (Hc & n & Hn & Hown).
    split; [exact Hc|]. exists n. split; [lia | exact Hown].
  - assert (Ha : a = o) by (destruct Hin as [Ha|Hin]; [exact Ha | contradiction]).
    subst a.
    destruct (subscribe_owned this context o st Hcov) as (Hown & _ & Hc & _).
    destruct (foldl_subscribe_other this context targets this o _ Hkeyed1 Hlast)
      as [Hsame Hcovered].
    split; [apply Hcovered, Hc|]. exists (next_handler st).
    split; [lia|]. rewrite Hsame. exact Hown.
Qed.

Lemma covered_append_log this o en st :
  covered this o (append_log en st) = covered this o st.
Proof. reflexivity. Qed.

Lemma keyed_append_log this en st : keyed this (append_log en st) = keyed this st.
Proof. reflexivity. Qed.

Lemma onBeforeLayout_subscribing this context st :
  StrictLayoutContext.type context = initialization
  \/ StrictLayoutContext.type context = added ->
  onBeforeLayout this context st
  = append_log (Fire_layout_before (StrictLayoutContext.target context) context)
      (append_log (Call_onBeforeLayout (StrictLayoutContext.target context) context)
         (foldl (fun st object => subscribe this context object st) st
            (StrictLayoutContext.targets context))).
Proof. unfold onBeforeLayout. intros [-> | ->]; reflexivity. Qed.

(** X13. A pass of type [initialization] or [added] subscribes every object
    of [targets], once: when [onBeforeLayout] is done, each target whose
    listeners the table accounted for carries exactly the eight listeners of
    one [subscribe], closures made during this call that request a layout of
    the target of the context, and the table accounts for them; a target named
    twice is not subscribed twice.  The listeners of the objects that are not
    targets are the ones they had.  The table is assumed to file its disposers
    under the object they belong to, as [subscribe] does, and it still does
    afterwards. *)
Theorem onBeforeLayout_subscribes_targets this context st :
  StrictLayoutContext.type context = initialization
  \/ StrictLayoutContext.type context = added ->
  keyed this st = true ->
  let st' := onBeforeLayout this context st in
  keyed this st' = true
  /\ (forall o, In o (StrictLayoutContext.targets context) ->
        covered this o st = true ->
        covered this o st' = true
        /\ exists n,
             next_handler st <= n
             /\ owned_listeners this o st'
                = subscribed_listeners this (StrictLayoutContext.target context) o n)
  /\ (forall m o, ~ In o (StrictLayoutContext.targets context) ->
        owned_listeners m o st' = owned_listeners m o st).
Proof.
  intros Hty Hkeyed st'. unfold st'. rewrite (onBeforeLayout_subscribing _ _ _ Hty).
  rewrite !keyed_append_log. split; [|split].
  - apply foldl_subscribe_keyed, Hkeyed.
  - intros o Hin Hcov. rewrite !covered_append_log.
    destruct (foldl_subscribe_targets this context _ o st Hkeyed Hin Hcov)
      as (Hc & n & Hn & Hown).
    split; [exact Hc|]. exists n. split; [exact Hn|].
    rewrite !owned_append_log. exact Hown.
  - intros m o Hout. rewrite !owned_append_log.
    apply foldl_subscribe_other; assumption.
Qed.

(** X14. A bubbled [added] or [initialization] pass subscribes the manager
    of the parent to the targets of the child's pass: the context handed to
    the parent keeps [type] and [targets] and names the parent as [target], so
    the parent's manager installs its own eight listeners on each of those
    objects, and these listeners request a layout of the parent. *)
Theorem bubbled_pass_subscribes_parent manager child_context parent st :
  StrictLayoutContext.type child_context = initialization
  \/ StrictLayoutContext.type child_context = added ->
  keyed manager st = true ->
  let context :=
    strictContext_of (mgr st manager) (bubbled_context child_context parent) in
  let st' := onBeforeLayout manager context st in
  forall o, In o (StrictLayoutContext.targets child_context) ->
    covered manager o st = true ->
    exists n,
      owned_listeners manager o st' = subscribed_listeners manager parent o n
      /\ forallb (fun l => Nat.eqb (h_target (snd l)) parent
                           && Nat.eqb (h_manager (snd l)) manager)
                 (owned_listeners manager o st') = true.
Proof.
  intros Hty Hkeyed context st' o Hin Hcov.
  assert (Hfold : onBeforeLayout manager context st
                  = append_log (Fire_layout_before parent context)
                      (append_log (Call_onBeforeLayout parent context)
                         (foldl (fun st object => subscribe manager context object st)
                            st (StrictLayoutContext.targets child_context))))
    by (apply (onBeforeLayout_subscribing manager context st); exact Hty).
  destruct (foldl_subscribe_targets manager context
              (StrictLayoutContext.targets child_context) o st Hkeyed Hin Hcov)
    as (_ & n & _ & Hown).
  exists n. unfold st'. rewrite Hfold, !owned_append_log, Hown.
  split; [reflexivity|].
  unfold subscribed_listeners. cbn [forallb snd h_target h_manager].
  rewrite !Nat.eqb_refl. reflexivity.
Qed.

Lemma onBeforeLayout_subscribes_targets_witness :
  let context :=
    strictContext_of (mgr Scene.settled_scene Scene.manager_A)
      (Scene.request added Scene.group_A
         [Scene.rect_a; Scene.rect_b; Scene.rect_a] None) in
  let st' := onBeforeLayout Scene.manager_A context Scene.settled_scene in
  keyed Scene.manager_A Scene.settled_scene = true
  /\ covered Scene.manager_A Scene.rect_a st' = true
  /\ length (owned_listeners Scene.manager_A Scene.rect_a st') = 8%nat
  /\ length (listeners st' Scene.rect_a) = 8%nat.
Proof.
  intros context st'.
  assert (Hkeyed : keyed Scene.manager_A Scene.settled_scene = true)
    by (vm_compute; reflexivity).
  destruct (onBeforeLayout_subscribes_targets Scene.manager_A context
              Scene.settled_scene (or_intror eq_refl) Hkeyed)
    as (_ & Htargets & _).
  destruct (Htargets Scene.rect_a (or_introl eq_refl) eq_refl)
    as (Hcov & n & _ & Hown).
  split; [exact Hkeyed|]. split; [exact Hcov|].
  split; [unfold st'; rewrite Hown; reflexivity | vm_compute; reflexivity].
Defined.

Lemma bubbled_pass_subscribes_parent_witness :
  let request := Scene.request added Scene.group_A [Scene.rect_a] None in
  let child_context :=
    strictContext_of (mgr Scene.settled_scene Scene.manager_A) request in
  let context :=
    strictContext_of (mgr Scene.settled_scene Scene.manager_B)
      (bubbled_context child_context Scene.group_B) in
  (exists n,
     owned_listeners Scene.manager_B Scene.rect_a
       (onBeforeLayout Scene.manager_B context Scene.settled_scene)
     = subscribed_listeners Scene.manager_B Scene.group_B Scene.rect_a n)
  /\ map (fun l => h_target (snd l))
       (owned_listeners Scene.manager_B Scene.rect_a
          (default Scene.settled_scene
             (Scene.run 4 Scene.manager_A request Scene.settled_scene)))
     = repeat Scene.group_B 8.
Proof.
  intros request child_context context. split; [|vm_compute; reflexivity].
  destruct (bubbled_pass_subscribes_parent Scene.manager_B child_context
              Scene.group_B Scene.settled_scene (or_intror eq_refl) eq_refl
              Scene.rect_a (or_introl eq_refl) eq_refl) as (n & Hown & _).
  exists n. exact Hown.
Defined.

(** ** The managers that [groupSVGElements] makes *)

Lemma new_LayoutManager_fresh st :
  let '(m, st1) := new_LayoutManager None st in
  (m ∉ dom (managers st))
  /\ objects st1 = objects st
  /\ (forall m', m' ∈ dom (managers st) -> managers st1 !! m' = managers st !! m')
  /\ exists s,
       (s ∉ dom (strategies st))
       /\ mgr st1 m = LayoutManager.constructor s
       /\ strategies st1 !! s = Some FitContentLayout.
Proof.
  unfold new_LayoutManager, new_FitContentLayout. cbn [managers set_strategies].
  split; [apply is_fresh|]. split; [reflexivity|]. split.
  - intros m' Hin. cbn [managers set_managers]. apply lookup_insert_ne.
    intros <-. exact (is_fresh (dom (managers st)) Hin).
  - exists (fresh (dom (strategies st))). split; [apply is_fresh|]. split.
    + unfold mgr. cbn [managers set_managers]. rewrite lookup_insert_eq.
      reflexivity.
    + cbn [strategies set_managers set_strategies]. apply lookup_insert_eq.
Qed.

Section OwnManager.
Context {Group : GroupClass}.

(** X15. Before it calls the constructor of [Group], every call of
    [groupSVGElements] on a list that is not a single element makes a layout
    manager with a [FitContentLayout] strategy, neither of which is in the
    heap the call finds, and writes no object and no other manager; unless
    the options bind [layoutManager], this manager, never laid out at that
    point, is the one the constructor gets.  So of two calls in a row the
    second makes a manager and a strategy that differ from those of the
    first, as long as these are still in the heap that the first call
    returned. *)
Theorem groupSVGElements_own_manager elements1 options1 elements2 options2 st :
  length elements1 <> 1%nat ->
  length elements2 <> 1%nat ->
  let '(m1, st1) := new_LayoutManager None st in
  let props1 :=
    default ∅ options1 ∪ {["layoutManager"%string := prop_layoutManager m1]} in
  let '(group1, st') := new_Group elements1 props1 st1 in
  let '(m2, st2) := new_LayoutManager None st' in
  let props2 :=
    default ∅ options2 ∪ {["layoutManager"%string := prop_layoutManager m2]} in
  groupSVGElements elements1 options1 st = (the_group group1, st')
  /\ groupSVGElements elements2 options2 st'
     = (the_group (fst (new_Group elements2 props2 st2)),
        snd (new_Group elements2 props2 st2))
  /\ (m1 ∉ dom (managers st)) /\ (m2 ∉ dom (managers st'))
  /\ (m1 ∈ dom (managers st') -> m1 <> m2)
  /\ objects st1 = objects st /\ objects st2 = objects st'
  /\ (forall m, m ∈ dom (managers st) -> managers st1 !! m = managers st !! m)
  /\ (forall m, m ∈ dom (managers st') -> managers st2 !! m = managers st' !! m)
  /\ (default ∅ options1 !! "layoutManager"%string = None ->
      props1 !! "layoutManager"%string = Some (prop_layoutManager m1))
  /\ (default ∅ options2 !! "layoutManager"%string = None ->
      props2 !! "layoutManager"%string = Some (prop_layoutManager m2))
  /\ exists s1 s2,
       (s1 ∉ dom (strategies st)) /\ (s2 ∉ dom (strategies st'))
       /\ (s1 ∈ dom (strategies st') -> s1 <> s2)
       /\ mgr st1 m1 = LayoutManager.constructor s1
       /\ mgr st2 m2 = LayoutManager.constructor s2
       /\ strategies st1 !! s1 = Some FitContentLayout
       /\ strategies st2 !! s2 = Some FitContentLayout.
Proof.
  intros Hlen1 Hlen2.
  destruct (groupSVGElements_new elements1 options1 st Hlen1) as [Hnew1 Hcall1].
  pose proof (new_LayoutManager_fresh st) as Hfresh1.
  rewrite Hnew1 in Hfresh1 |- *.
  set (m1 := fresh (dom (managers st))) in *.
  match type of Hnew1 with _ = (_, ?h) => set (st1 := h) in * end.
  lazy beta iota zeta in Hfresh1 |- *.
  destruct (new_Group elements1 _ st1) as [group1 st'] eqn:Hgroup1.
  cbn [fst snd] in Hcall1.
  destruct (groupSVGElements_new elements2 options2 st' Hlen2) as [Hnew2 Hcall2].
  pose proof (new_LayoutManager_fresh st') as Hfresh2.
  rewrite Hnew2 in Hfresh2 |- *.
  set (m2 := fresh (dom (managers st'))) in *.
  match type of Hnew2 with _ = (_, ?h) => set (st2 := h) in * end.
  lazy beta iota zeta in Hfresh2 |- *.
  destruct Hfresh1 as (Hout1 & Hobj1 & Hkept1 & s1 & Hs1 & Hmgr1 & Hstr1).
  destruct Hfresh2 as (Hout2 & Hobj2 & Hkept2 & s2 & Hs2 & Hmgr2 & Hstr2).
  assert (Hprops : forall (options : option (gmap string PropValue)) m,
            default ∅ options !! "layoutManager"%string = None ->
            (default ∅ options ∪ {["layoutManager"%string := prop_layoutManager m]})
              !! "layoutManager"%string = Some (prop_layoutManager m)).
  { intros options m Hnone. rewrite lookup_union, Hnone, lookup_singleton_eq.
    reflexivity. }
  split; [exact Hcall1|]. split; [exact Hcall2|].
  split; [exact Hout1|]. split; [exact Hout2|].
  split; [intros Hin <-; exact (Hout2 Hin)|].
  split; [exact Hobj1|]. split; [exact Hobj2|].
  split; [exact Hkept1|]. split; [exact Hkept2|].
  split; [apply Hprops|]. split; [apply Hprops|].
  exists s1, s2. split; [exact Hs1|]. split; [exact Hs2|].
  split; [intros Hin <-; exact (Hs2 Hin)|].
  repeat split; assumption.
Qed.

End OwnManager.

Lemma groupSVGElements_own_manager_witness :
  exists group1 group2 m1 m2 st' st'',
    groupSVGElements (Group := scene_Group) [Scene.rect_a; Scene.rect_b] None
      Scene.settled_scene = (the_group group1, st')
    /\ groupSVGElements (Group := scene_Group) [] None st' = (the_group group2, st'')
    /\ FabricObject.layoutManager (obj st'' group1) = Some m1
    /\ FabricObject.layoutManager (obj st'' group2) = Some m2
    /\ m1 <> m2
    /\ LayoutManager._firstLayoutDone (mgr st' m1) = true.
Proof.
  pose proof (groupSVGElements_own_manager (Group := scene_Group)
                [Scene.rect_a; Scene.rect_b] None [] None Scene.settled_scene
                ltac:(discriminate) ltac:(discriminate)) as Hown.
  destruct (new_LayoutManager None Scene.settled_scene) as [m1 st1] eqn:Hnew1.
  assert (Hm1 : m1 = fst (new_LayoutManager None Scene.settled_scene))
    by (rewrite Hnew1; reflexivity).
  assert (Hst1 : st1 = snd (new_LayoutManager None Scene.settled_scene))
    by (rewrite Hnew1; reflexivity).
  cbv zeta in Hown.
  destruct (new_Group (GroupClass := scene_Group) [Scene.rect_a; Scene.rect_b] _ st1)
    as [group1 st'] eqn:Hgroup1.
  assert (Hst' : st' = snd (new_Group (GroupClass := scene_Group)
                              [Scene.rect_a; Scene.rect_b]
                              (default ∅ None
                               ∪ {["layoutManager"%string := prop_layoutManager m1]})
                              st1))
    by (rewrite Hgroup1; reflexivity).
  assert (Hg1 : group1 = fst (new_Group (GroupClass := scene_Group)
                                [Scene.rect_a; Scene.rect_b]
                                (default ∅ None
                                 ∪ {["layoutManager"%string
                                     := prop_layoutManager m1]})
                                st1))
    by (rewrite Hgroup1; reflexivity).
  destruct (new_LayoutManager None st') as [m2 st2] eqn:Hnew2.
  assert (Hm2 : m2 = fst (new_LayoutManager None st'))
    by (rewrite Hnew2; reflexivity).
  assert (Hst2 : st2 = snd (new_LayoutManager None st'))
    by (rewrite Hnew2; reflexivity).
  destruct Hown as (Hcall1 & Hcall2 & _ & _ & Hne & _).
  eexists group1, _, m1, m2, st', _.
  split; [exact Hcall1|]. split; [exact Hcall2|].
  clear Hcall1 Hcall2 Hnew1 Hnew2 Hgroup1.
  assert (Hin : m1 ∈ dom (managers st'))
    by (subst; apply (bool_decide_unpack _); vm_compute; exact I).
  split; [|split; [|split; [exact (Hne Hin)|]]]; clear Hne Hin; subst;
    vm_compute; reflexivity.
Defined.

(** ** The container after a commit *)

Section Container.
Context {collaborators : Collaborators}.

(** X16. The commit of a layout that is not an [initialization], on a
    container that is not among its own children nor its own clip path: the
    container gets the width and height of the result; then, only when the
    centre of the result differs numerically from the previous centre, it is
    positioned by its centre with [setPositionByOrigin(nextCenter, CENTER,
    CENTER)]; then [setCoords] is called and the container is marked dirty. *)
Theorem commitLayout_container context layoutResult st :
  StrictLayoutContext.type context <> initialization ->
  let target := StrictLayoutContext.target context in
  FabricObject.group (obj st target) <> Some target
  \/ ~ In target (FabricObject._objects (obj st target)) ->
  FabricObject.clipPath (obj st target) <> Some target
  \/ FabricObject.absolutePositioned (obj st target) = true ->
  let sized :=
    FabricObject.set_width_height
      (LayoutStrategyResult.width (LayoutResult.result layoutResult))
      (LayoutStrategyResult.height (LayoutResult.result layoutResult))
      (obj st target) in
  obj (commitLayout context layoutResult st) target
  = FabricObject.set_dirty true
      (setCoords
         (if Point.eq (LayoutResult.nextCenter layoutResult)
                      (LayoutResult.prevCenter layoutResult)
          then sized
          else setPositionByOrigin (LayoutResult.nextCenter layoutResult)
                 CENTER CENTER sized)).
Proof.
  intros Hty target Hchild Hclip sized.
  assert (Hinit : is_initialization (StrictLayoutContext.type context) = false)
    by (destruct (StrictLayoutContext.type context); simpl; congruence).
  unfold commitLayout. rewrite Hinit. cbn [negb]. fold target.
  rewrite !obj_update_obj_eq.
  set (st1 := update_obj target _ st).
  assert (Ht : obj st1 target = sized) by (unfold st1; apply obj_update_obj_eq).
  assert (Hsame : obj (layoutObjects context layoutResult st1) target = sized).
  { rewrite layoutObjects_untouched; fold target; rewrite ?Ht; [reflexivity | |].
    - right. exact Hchild.
    - exact Hclip. }
  destruct (Point.eq _ _); cbn [negb];
    [|rewrite obj_update_obj_eq]; rewrite Hsame; reflexivity.
Qed.

End Container.

Lemma commitLayout_container_witness :
  let context :=
    strictContext_of (mgr Scene.settled_scene Scene.manager_A)
      (Scene.request object_modified Scene.group_A [] None) in
  let moved :=
    LayoutResult.make
      (LayoutStrategyResult.make 100 0 300 100 None None None None)
      Point.zero (Point.new 100 0) (Point.new (-50) 0) in
  let still :=
    LayoutResult.make
      (LayoutStrategyResult.make 0 0 300 100 None None None None)
      Point.zero (Point.new (0 # 7) 0) (Point.new 0 0) in
  let commit layoutResult :=
    obj (commitLayout (collaborators := Scene.collaborators) context layoutResult
           Scene.settled_scene) (StrictLayoutContext.target context) in
  (FabricObject.left (commit moved) == 100)%Q
  /\ (FabricObject.width (commit moved) == 300)%Q
  /\ FabricObject.left (commit still) = 0%Q
  /\ FabricObject.dirty (commit still) = true.
Proof.
  intros context moved still commit.
  assert (Hty : StrictLayoutContext.type context <> initialization)
    by discriminate.
  assert (Hchild :
    FabricObject.group (obj Scene.settled_scene (StrictLayoutContext.target context))
    <> Some (StrictLayoutContext.target context)
    \/ ~ In (StrictLayoutContext.target context)
           (FabricObject._objects
              (obj Scene.settled_scene (StrictLayoutContext.target context))))
    by (left; vm_compute; discriminate).
  assert (Hclip :
    FabricObject.clipPath (obj Scene.settled_scene (StrictLayoutContext.target context))
    <> Some (StrictLayoutContext.target context)
    \/ FabricObject.absolutePositioned
         (obj Scene.settled_scene (StrictLayoutContext.target context)) = true)
    by (left; vm_compute; discriminate).
  pose proof (commitLayout_container (collaborators := Scene.collaborators) context
                moved Scene.settled_scene Hty Hchild Hclip) as Hmoved.
  pose proof (commitLayout_container (collaborators := Scene.collaborators) context
                still Scene.settled_scene Hty Hchild Hclip) as Hstill.
  cbv zeta in Hmoved, Hstill. unfold commit. rewrite Hmoved, Hstill.
  vm_compute. repeat split.
Defined.

(** ** Managers that listen to the same object *)

Lemma table_forallb_spec (P : ObjId -> Disposer -> bool) m st :
  forallb (fun entry => forallb (P (fst entry)) (snd entry))
    (map_to_list (LayoutManager._subscriptions (mgr st m))) = true
  <-> forall o d, In d (subscription m o st) -> P o d = true.
Proof.
  unfold subscription. rewrite forallb_forall. split.
  - intros Hall o d Hd.
    destruct (LayoutManager._subscriptions (mgr st m) !! o) as [ds|] eqn:Hds;
      [|destruct Hd].
    specialize (Hall (o, ds)). cbn [fst snd] in Hall.
    rewrite forallb_forall in Hall. apply Hall; [|exact Hd].
    apply list_elem_of_In, elem_of_map_to_list. exact Hds.
  - intros Hall [o ds] Hin. cbn [fst snd]. apply forallb_forall. intros d Hd.
    apply Hall. apply list_elem_of_In, elem_of_map_to_list in Hin.
    rewrite Hin. exact Hd.
Qed.

Lemma listeners_made_spec st :
  listeners_made st = true
  <-> forall o l, In l (listeners st o) -> h_id (snd l) < next_handler st.
Proof.
  unfold listeners_made, listeners, obj. rewrite forallb_forall. split.
  - intros Hall o l Hl.
    destruct (objects st !! o) as [ob|] eqn:Hob; [|destruct Hl].
    specialize (Hall (o, ob)). cbn [snd] in Hall. rewrite forallb_forall in Hall.
    apply Nat.ltb_lt, Hall; [|exact Hl].
    apply list_elem_of_In, elem_of_map_to_list. exact Hob.
  - intros Hall [o ob] Hin. cbn [snd]. apply forallb_forall. intros l Hl.
    apply Nat.ltb_lt, (Hall o).
    apply list_elem_of_In, elem_of_map_to_list in Hin. rewrite Hin. exact Hl.
Qed.

Lemma closures_ok_spec m st :
  closures_ok m st = true
  <-> (forall o l, In l (listeners st o) -> h_id (snd l) < next_handler st)
      /\ (forall o d, In d (subscription m o st) -> d_handler d < next_handler st)
      /\ (forall o d l, In d (subscription m o st) ->
            In l (listeners st (d_object d)) -> disposes d l = true ->
            h_manager (snd l) = m).
Proof.
  unfold closures_ok, disposers_made, disposers_own.
  rewrite !andb_true_iff, listeners_made_spec.
  rewrite (table_forallb_spec (fun _ d => Nat.ltb (d_handler d) (next_handler st))).
  rewrite (table_forallb_spec
             (fun _ d =>
                forallb (fun l => implb (disposes d l)
                                    (Nat.eqb (h_manager (snd l)) m))
                        (listeners st (d_object d)))).
  split.
  - intros [[Hl Hd] Hown]. split; [exact Hl|]. split.
    + intros o d Hin. apply Nat.ltb_lt, (Hd o d Hin).
    + intros o d l Hin Hlin Hdis. specialize (Hown o d Hin).
      rewrite forallb_forall in Hown. specialize (Hown l Hlin).
      rewrite Hdis in Hown. apply Nat.eqb_eq. exact Hown.
  - intros (Hl & Hd & Hown). split; [split; [exact Hl|]|].
    + intros o d Hin. apply Nat.ltb_lt, (Hd o d Hin).
    + intros o d Hin. apply forallb_forall. intros l Hlin.
      destruct (disposes d l) eqn:Hdis; [|reflexivity].
      apply Nat.eqb_eq, (Hown o d l Hin Hlin Hdis).
Qed.

Lemma subscription_of_managers st st' m o :
  managers st' = managers st -> subscription m o st' = subscription m o st.
Proof. unfold subscription, mgr. intros ->. reflexivity. Qed.

Lemma installed_closures this target object n l :
  In l (subscribed_listeners this target object n) ->
  n <= h_id (snd l) < 8 + n /\ h_manager (snd l) = this.
Proof.
  unfold subscribed_listeners. cbn [In].
  intros H. repeat (destruct H as [<-|H]; [cbn; split; [lia | reflexivity]|]).
  destruct H.
Qed.

Lemma installed_other_manager this target object n m :
  m <> this ->
  List.filter (fun l => Nat.eqb (h_manager (snd l)) m)
    (subscribed_listeners this target object n) = [].
Proof.
  intros Hne. apply filter_none. intros l Hl.
  destruct (installed_closures _ _ _ _ _ Hl) as [_ ->].
  apply Nat.eqb_neq. congruence.
Qed.

Lemma listeners_subscribe this context object st o :
  listeners (subscribe this context object st) o
  = List.filter (survives (subscription this object st) o) (listeners st o)
    ++ (if decide (object = o)
        then subscribed_listeners this (StrictLayoutContext.target context) object
               (next_handler st)
        else []).
Proof.
  rewrite subscribe_eq. cbv zeta. rewrite listeners_update_mgr.
  destruct (managers_unsubscribe this context object st) as [_ ->].
  destruct (decide (object = o)) as [->|Hne].
  - rewrite listeners_add_listeners, listeners_unsubscribe. reflexivity.
  - rewrite listeners_add_listeners_ne by exact Hne.
    rewrite listeners_unsubscribe, app_nil_r. reflexivity.
Qed.

Lemma subscription_subscribe_eq this context object st m o :
  subscription m o (subscribe this context object st)
  = if decide (m = this /\ o = object)
    then map (disposer_of object)
           (subscribed_listeners this (StrictLayoutContext.target context) object
              (next_handler st))
    else subscription m o st.
Proof.
  destruct (decide (m = this /\ o = object)) as [[-> ->]|Hne].
  - apply subscribe_effect.
  - apply subscription_subscribe.
    destruct (decide (m = this)) as [->|Hm]; [right|left; exact Hm].
    intros ->. apply Hne. split; reflexivity.
Qed.

(** The disposers of one manager leave the listeners of the others. *)
Lemma survives_other_manager this object st m o l :
  closures_ok this st = true -> m <> this ->
  In l (owned_listeners m o st) ->
  survives (subscription this object st) o l = true.
Proof.
  rewrite closures_ok_spec. intros (_ & _ & Hown) Hne Hl.
  rewrite owned_listeners_listeners in Hl. apply filter_In in Hl.
  destruct Hl as [Hl Hm]. apply Nat.eqb_eq in Hm.
  unfold survives. apply forallb_forall. intros d Hd.
  destruct (Nat.eqb_spec (d_object d) o) as [Ho|]; [|reflexivity].
  destruct (disposes d l) eqn:Hdis; [|reflexivity].
  subst o. specialize (Hown object d l Hd Hl Hdis). congruence.
Qed.

Lemma owned_unsubscribe_other_manager this context object st m o :
  closures_ok this st = true -> m <> this ->
  owned_listeners m o (unsubscribe this context object st) = owned_listeners m o st.
Proof.
  intros Hok Hne. rewrite owned_unsubscribe. apply filter_all.
  intros l Hl. apply (survives_other_manager this object st m o l Hok Hne Hl).
Qed.

Lemma owned_subscribe_other_manager this context object st m o :
  closures_ok this st = true -> m <> this ->
  owned_listeners m o (subscribe this context object st) = owned_listeners m o st.
Proof.
  intros Hok Hne. rewrite owned_subscribe.
  rewrite (installed_other_manager _ _ _ _ _ Hne).
  destruct (decide (object = o)); rewrite app_nil_r; apply filter_all;
    intros l Hl; apply (survives_other_manager this object st m o l Hok Hne Hl).
Qed.

Lemma closures_ok_unsubscribe this context object st m :
  closures_ok m st = true ->
  closures_ok m (unsubscribe this context object st) = true.
Proof.
  rewrite !closures_ok_spec. intros (Hl & Hd & Hown).
  destruct (managers_unsubscribe this context object st) as [Hm Hn].
  assert (Hsub : forall o l, In l (listeners (unsubscribe this context object st) o)
                             -> In l (listeners st o)).
  { intros o l Hin. rewrite listeners_unsubscribe in Hin.
    apply filter_In in Hin. apply Hin. }
  rewrite Hn. split; [|split].
  - intros o l Hin. apply (Hl o), Hsub, Hin.
  - intros o d Hin. rewrite (subscription_of_managers _ _ _ _ Hm) in Hin.
    apply (Hd o d Hin).
  - intros o d l Hin Hlin Hdis.
    rewrite (subscription_of_managers _ _ _ _ Hm) in Hin.
    apply (Hown o d l Hin (Hsub _ _ Hlin) Hdis).
Qed.

Lemma closures_ok_subscribe this context object st m :
  closures_ok m st = true ->
  closures_ok m (subscribe this context object st) = true.
Proof.
  rewrite !closures_ok_spec. intros (Hl & Hd & Hown).
  destruct (subscribe_effect this context object st) as (_ & _ & Hn).
  set (n := next_handler st) in *.
  set (installed :=
         subscribed_listeners this (StrictLayoutContext.target context) object n).
  assert (Hlisteners : forall o l,
            In l (listeners (subscribe this context object st) o) ->
            In l (listeners st o) \/ (o = object /\ In l installed)).
  { intros o l Hin. rewrite listeners_subscribe in Hin. apply in_app_iff in Hin.
    destruct Hin as [Hin|Hin].
    - left. apply filter_In in Hin. apply Hin.
    - destruct (decide (object = o)) as [->|_]; [|destruct Hin].
      right. split; [reflexivity | exact Hin]. }
  assert (Hdisposers : forall o d,
            In d (subscription m o (subscribe this context object st)) ->
            In d (subscription m o st)
            \/ (m = this /\ exists l, In l installed /\ d = disposer_of object l)).
  { intros o d Hin. rewrite subscription_subscribe_eq in Hin.
    destruct (decide (m = this /\ o = object)) as [[-> ->]|_]; [|left; exact Hin].
    right. split; [reflexivity|]. apply in_map_iff in Hin.
    destruct Hin as (l & <- & Hin). exists l. split; [exact Hin | reflexivity]. }
  rewrite Hn. split; [|split].
  - intros o l Hin. destruct (Hlisteners o l Hin) as [Hold|[_ Hnew]].
    + specialize (Hl o l Hold). lia.
    + destruct (installed_closures _ _ _ _ _ Hnew) as [Hid _]. fold n in Hid. lia.
  - intros o d Hin. destruct (Hdisposers o d Hin) as [Hold|(_ & l & Hnew & ->)].
    + specialize (Hd o d Hold). lia.
    + destruct (installed_closures _ _ _ _ _ Hnew) as [Hid _]. fold n in Hid.
      cbn [d_handler disposer_of]. lia.
  - intros o d l Hin Hlin Hdis.
    assert (Hids : h_id (snd l) = d_handler d).
    { unfold disposes in Hdis. apply andb_true_iff in Hdis.
      apply Nat.eqb_eq, Hdis. }
    destruct (Hdisposers o d Hin) as [Hold|(-> & l0 & Hnew & ->)];
      (destruct (Hlisteners _ l Hlin) as [Hlold|[_ Hlnew]]).
    + apply (Hown o d l Hold Hlold Hdis).
    + destruct (installed_closures _ _ _ _ _ Hlnew) as [Hid _]. fold n in Hid.
      specialize (Hd o d Hold). lia.
    + destruct (installed_closures _ _ _ _ _ Hnew) as [Hid _]. fold n in Hid.
      cbn [d_object disposer_of] in Hlold. specialize (Hl _ l Hlold).
      cbn [d_handler disposer_of] in Hids. lia.
    + apply (installed_closures _ _ _ _ _ Hlnew).
Qed.

Lemma foldl_closures this (f : State -> ObjId -> State) targets :
  (forall st o m, closures_ok m st = true -> closures_ok m (f st o) = true) ->
  (forall st o m o', closures_ok this st = true -> m <> this ->
     owned_listeners m o' (f st o) = owned_listeners m o' st) ->
  forall st,
    closures_ok this st = true ->
    (forall m, closures_ok m st = true -> closures_ok m (foldl f st targets) = true)
    /\ (forall m o', m <> this ->
          owned_listeners m o' (foldl f st targets) = owned_listeners m o' st).
Proof.
  intros Hok Hother. induction targets as [|a targets IH]; intros st Hthis;
    cbn [foldl]; [split; [tauto | reflexivity]|].
  destruct (IH (f st a) (Hok st a this Hthis)) as [IHok IHother]. split.
  - intros m Hm. apply IHok, Hok, Hm.
  - intros m o' Hne. rewrite IHother by exact Hne. apply Hother; assumption.
Qed.

(** X17. Managers that listen to the same object do not disturb each other:
    whatever its type, [onBeforeLayout] on one manager leaves on every object
    the listeners that the other managers installed, even where it replaces
    its own.  The assumption is the one that calls of [subscribe] and of
    disposers maintain, for every manager: closures are numbered in the order
    of their creation, and the disposers in the table of the manager are those
    of listeners it installed. *)
Theorem onBeforeLayout_keeps_other_managers this context st :
  closures_ok this st = true ->
  let st' := onBeforeLayout this context st in
  (forall m o, m <> this -> owned_listeners m o st' = owned_listeners m o st)
  /\ (forall m, closures_ok m st = true -> closures_ok m st' = true).
Proof.
  intros Hthis st'. unfold st', onBeforeLayout.
  assert (Hlog : forall en s m, closures_ok m (append_log en s) = closures_ok m s)
    by reflexivity.
  destruct (foldl_closures this
              (fun st object => subscribe this context object st)
              (StrictLayoutContext.targets context)
              (fun st o m => closures_ok_subscribe this context o st m)
              (fun st o m o' => owned_subscribe_other_manager this context o st m o')
              st Hthis) as [Hsub_ok Hsub_other].
  destruct (foldl_closures this
              (fun st object => unsubscribe this context object st)
              (StrictLayoutContext.targets context)
              (fun st o m => closures_ok_unsubscribe this context o st m)
              (fun st o m o' => owned_unsubscribe_other_manager this context o st m o')
              st Hthis) as [Hunsub_ok Hunsub_other].
  split.
  - intros m o Hne. rewrite !owned_append_log.
    destruct (StrictLayoutContext.type context);
      first [apply Hsub_other | apply Hunsub_other | reflexivity]; exact Hne.
  - intros m Hm. rewrite !Hlog.
    destruct (StrictLayoutContext.type context);
      first [apply Hsub_ok | apply Hunsub_ok | idtac]; exact Hm.
Qed.

Lemma onBeforeLayout_keeps_other_managers_witness :
  let st :=
    default Scene.settled_scene
      (Scene.run 4 Scene.manager_A
         (Scene.request added Scene.group_A [Scene.rect_a] None)
         Scene.settled_scene) in
  let context :=
    strictContext_of (mgr st Scene.manager_A)
      (Scene.request added Scene.group_A [Scene.rect_a] None) in
  let st' := onBeforeLayout Scene.manager_A context st in
  closures_ok Scene.manager_A st = true
  /\ length (listeners st Scene.rect_a) = 24%nat
  /\ length (owned_listeners Scene.manager_B Scene.rect_a st) = 8%nat
  /\ owned_listeners Scene.manager_B Scene.rect_a st'
     = owned_listeners Scene.manager_B Scene.rect_a st
  /\ owned_listeners Scene.manager_A Scene.rect_a st'
     <> owned_listeners Scene.manager_A Scene.rect_a st.
Proof.
  intros st context st'.
  assert (Hok : closures_ok Scene.manager_A st = true) by (vm_compute; reflexivity).
  destruct (onBeforeLayout_keeps_other_managers Scene.manager_A context st Hok)
    as [Hother _].
  split; [exact Hok|]. split; [vm_compute; reflexivity|].
  split; [vm_compute; reflexivity|].
  split; [apply Hother; discriminate | vm_compute; discriminate].
Defined.

(** ** Removing an object and adding it again *)

Lemma keyed_of_managers this st st' :
  managers st' = managers st -> keyed this st' = keyed this st.
Proof. unfold keyed, mgr. intros ->. reflexivity. Qed.

Lemma foldl_unsubscribe_target this context targets o : forall st,
  covered this o st = true ->
  covered this o
    (foldl (fun st object => unsubscribe this context object st) st targets) = true
  /\ (In o targets \/ owned_listeners this o st = [] ->
      owned_listeners this o
        (foldl (fun st object => unsubscribe this context object st) st targets)
      = []).
Proof.
  induction targets as [|a targets IH]; intros st Hcov; cbn [foldl].
  - split; [exact Hcov|]. intros [[]|Hnone]. exact Hnone.
  - destruct (IH _ (covered_unsubscribe this context a st o Hcov)) as [Hc Hnone].
    split; [exact Hc|]. intros [[->|Hin]|Hempty].
    + apply Hnone. right. apply owned_unsubscribe_covered, Hcov.
    + apply Hnone. left. exact Hin.
    + apply Hnone. right. rewrite owned_unsubscribe, Hempty. reflexivity.
Qed.

(** X18. An object that is removed and added again: the [removed] pass
    leaves none of the manager's listeners on it, yet keeps its disposers in
    the table; the [added] pass that follows calls those spent disposers
    again, which does nothing, and leaves on the object exactly the eight
    listeners of one [subscribe]. *)
Theorem removed_then_added this removal addition o st :
  StrictLayoutContext.type removal = removed ->
  StrictLayoutContext.type addition = added ->
  In o (StrictLayoutContext.targets removal) ->
  In o (StrictLayoutContext.targets addition) ->
  keyed this st = true ->
  covered this o st = true ->
  let st1 := onBeforeLayout this removal st in
  let st2 := onBeforeLayout this addition st1 in
  owned_listeners this o st1 = []
  /\ subscription this o st1 = subscription this o st
  /\ covered this o st2 = true
  /\ exists n,
       owned_listeners this o st2
       = subscribed_listeners this (StrictLayoutContext.target addition) o n.
Proof.
  intros Hremoved Hadded Hin1 Hin2 Hkeyed Hcov st1 st2.
  assert (Hst1 : st1
                 = append_log
                     (Fire_layout_before (StrictLayoutContext.target removal) removal)
                     (append_log
                        (Call_onBeforeLayout (StrictLayoutContext.target removal)
                           removal)
                        (foldl (fun st object => unsubscribe this removal object st)
                           st (StrictLayoutContext.targets removal))))
    by (unfold st1, onBeforeLayout; rewrite Hremoved; reflexivity).
  destruct (foldl_unsubscribe_target this removal
              (StrictLayoutContext.targets removal) o st Hcov) as [Hcov1 Hnone].
  destruct (foldl_unsubscribe_managers this removal
              (StrictLayoutContext.targets removal) st) as [Hm _].
  assert (Hkeyed1 : keyed this st1 = true).
  { rewrite Hst1, !keyed_append_log, (keyed_of_managers _ _ _ Hm). exact Hkeyed. }
  assert (Hcovered1 : covered this o st1 = true)
    by (rewrite Hst1, !covered_append_log; exact Hcov1).
  split; [rewrite Hst1, !owned_append_log; apply Hnone; left; exact Hin1|].
  split; [rewrite Hst1; apply (subscription_of_managers _ _ _ _ Hm)|].
  unfold st2. rewrite (onBeforeLayout_subscribing _ _ _ (or_intror Hadded)).
  rewrite !covered_append_log.
  destruct (foldl_subscribe_targets this addition _ o st1 Hkeyed1 Hin2 Hcovered1)
    as (Hc & n & _ & Hown).
  split; [exact Hc|]. exists n. rewrite !owned_append_log. exact Hown.
Qed.

Lemma removed_then_added_witness :
  let added_context :=
    strictContext_of (mgr Scene.settled_scene Scene.manager_A)
      (Scene.request added Scene.group_A [Scene.rect_a] None) in
  let removal :=
    strictContext_of (mgr Scene.settled_scene Scene.manager_A)
      (Scene.request removed Scene.group_A [Scene.rect_a] None) in
  let st := onBeforeLayout Scene.manager_A added_context Scene.settled_scene in
  let st1 := onBeforeLayout Scene.manager_A removal st in
  let st2 := onBeforeLayout Scene.manager_A added_context st1 in
  length (listeners st Scene.rect_a) = 8%nat
  /\ listeners st1 Scene.rect_a = []
  /\ length (subscription Scene.manager_A Scene.rect_a st1) = 8%nat
  /\ exists n,
       owned_listeners Scene.manager_A Scene.rect_a st2
       = subscribed_listeners Scene.manager_A Scene.group_A Scene.rect_a n.
Proof.
  intros added_context removal st st1 st2.
  destruct (removed_then_added Scene.manager_A removal added_context Scene.rect_a st
              eq_refl eq_refl (or_introl eq_refl) (or_introl eq_refl))
    as (_ & _ & _ & n & Hown).
  - vm_compute. reflexivity.
  - vm_compute. reflexivity.
  - split; [vm_compute; reflexivity|]. split; [vm_compute; reflexivity|].
    split; [vm_compute; reflexivity|]. exists n. exact Hown.
Defined.

(** ** The listeners at work *)

Lemma installed_requests this target object n l :
  In l (subscribed_listeners this target object n) ->
  h_manager (snd l) = this /\ h_target (snd l) = target
  /\ h_object (snd l) = object
  /\ (h_type (snd l) = object_modified \/ h_type (snd l) = object_modifying).
Proof.
  unfold subscribed_listeners. cbn [In].
  intros H.
  repeat (destruct H as [<-|H]; [cbn; repeat split; auto|]).
  destruct H.
Qed.

Section Listeners.
Context {collaborators : Collaborators}.

(** The pass that a listener of [subscribe] runs on a manager that has laid
    out. *)
Lemma call_listener_pass fuel this target object n l st st' :
  In l (subscribed_listeners this target object n) ->
  LayoutManager._firstLayoutDone (mgr st this) = true ->
  call_listener fuel l st = Some st' ->
  exists strictContext result entries,
    StrictLayoutContext.target strictContext = target
    /\ (StrictLayoutContext.type strictContext = object_modified
        \/ StrictLayoutContext.type strictContext = object_modifying)
    /\ StrictLayoutContext.trigger strictContext = Some (h_trigger (snd l))
    /\ StrictLayoutContext.e strictContext = Some object
    /\ StrictLayoutContext.strategy strictContext
       = LayoutManager.strategy (mgr st this)
    /\ log st'
       = log st ++ [Call_onBeforeLayout target strictContext;
                    Fire_layout_before target strictContext;
                    Call_onAfterLayout target strictContext result;
                    Fire_layout target strictContext result] ++ entries.
Proof.
  intros Hl Hdone Hrun.
  destruct (installed_requests _ _ _ _ _ Hl) as (Hm & Ht & Ho & Hty).
  unfold call_listener in Hrun. rewrite Hm in Hrun.
  assert (Hr : rejected (mgr st this) (listener_context (snd l)) = false)
    by (unfold rejected; rewrite Hdone; reflexivity).
  pose proof (performLayout_log_shape _ _ _ _ _ Hr Hrun) as Hshape.
  destruct (layout_pass_frame this (listener_context (snd l)) st)
    as (result & st1 & Hpass & _).
  rewrite Hpass in Hshape. destruct Hshape as (entries & Hlog & _).
  cbn [LayoutContext.target listener_context] in Hlog. rewrite Ht in Hlog.
  exists (strictContext_of (mgr st this) (listener_context (snd l))), result, entries.
  split; [exact Ht|]. split; [exact Hty|]. split; [reflexivity|].
  split; [cbn; rewrite Ho; reflexivity|]. split; [reflexivity | exact Hlog].
Qed.

(** X19. What a listener installed by [subscribe] does when it is called.
    On a manager that has not laid out yet it does nothing.  Otherwise it runs
    one pass on the container that was the target when the listener was
    installed: the hooks see a context of type [object_modified] or
    [object_modifying] that carries the trigger of the listener, the object
    as the target of the event and the manager's own strategy.  In both cases
    the call subscribes and unsubscribes nothing. *)
Theorem listener_requests_layout fuel this target object n l st st' :
  In l (subscribed_listeners this target object n) ->
  call_listener fuel l st = Some st' ->
  (LayoutManager._firstLayoutDone (mgr st this) = false -> st' = st)
  /\ (LayoutManager._firstLayoutDone (mgr st this) = true ->
      exists strictContext result entries,
        StrictLayoutContext.target strictContext = target
        /\ (StrictLayoutContext.type strictContext = object_modified
            \/ StrictLayoutContext.type strictContext = object_modifying)
        /\ StrictLayoutContext.trigger strictContext = Some (h_trigger (snd l))
        /\ StrictLayoutContext.e strictContext = Some object
        /\ StrictLayoutContext.strategy strictContext
           = LayoutManager.strategy (mgr st this)
        /\ log st'
           = log st ++ [Call_onBeforeLayout target strictContext;
                        Fire_layout_before target strictContext;
                        Call_onAfterLayout target strictContext result;
                        Fire_layout target strictContext result] ++ entries)
  /\ next_handler st' = next_handler st
  /\ forall m, LayoutManager._subscriptions (mgr st' m)
               = LayoutManager._subscriptions (mgr st m).
Proof.
  intros Hl Hrun.
  destruct (installed_requests _ _ _ _ _ Hl) as (Hm & Ht & Ho & Hty).
  split; [|split].
  - intros Hdone. unfold call_listener in Hrun. rewrite Hm in Hrun.
    destruct fuel as [|fuel]; [discriminate|].
    rewrite performLayout_rejected in Hrun; [congruence|].
    unfold rejected. rewrite Hdone. cbn [listener_context LayoutContext.type].
    destruct Hty as [-> | ->]; reflexivity.
  - intros Hdone. apply (call_listener_pass fuel this target object n l st st');
      assumption.
  - apply (performLayout_tables fuel (h_manager (snd l))
             (listener_context (snd l)) st st'); [| |exact Hrun];
      cbn [listener_context LayoutContext.type];
      destruct Hty as [-> | ->]; discriminate.
Qed.

Lemma filter_changed this target object n :
  List.filter (fun l : string * Handler => String.eqb (fst l) "changed")
    (subscribed_listeners this target object n)
  = [("changed"%string,
      mkHandler (6 + n) this "changed" object_modifying object target);
     ("changed"%string,
      mkHandler (7 + n) this "text:changed" object_modifying object target)].
Proof. reflexivity. Qed.

(** X20. The event [changed] reaches two listeners of [subscribe], the one
    of the modification events and the one for text: on an object that
    carries the listeners of one [subscribe], of a manager that has laid out,
    one [changed] event runs two passes on the container, the first with the
    trigger [changed] and the second, once the first and its bubbling are
    done, with the trigger [text:changed]. *)
Theorem changed_lays_out_twice fuel this target object n st st' :
  listeners st object = subscribed_listeners this target object n ->
  LayoutManager._firstLayoutDone (mgr st this) = true ->
  fire fuel object "changed" st = Some st' ->
  exists context1 result1 entries1 context2 result2 entries2,
    StrictLayoutContext.trigger context1 = Some "changed"%string
    /\ StrictLayoutContext.trigger context2 = Some "text:changed"%string
    /\ log st'
       = log st
         ++ ([Call_onBeforeLayout target context1;
              Fire_layout_before target context1;
              Call_onAfterLayout target context1 result1;
              Fire_layout target context1 result1] ++ entries1)
         ++ ([Call_onBeforeLayout target context2;
              Fire_layout_before target context2;
              Call_onAfterLayout target context2 result2;
              Fire_layout target context2 result2] ++ entries2).
Proof.
  intros Hlisteners Hdone Hfire. unfold fire in Hfire.
  rewrite Hlisteners, filter_changed in Hfire.
  cbn [foldl mbind option_bind] in Hfire.
  match type of Hfire with context [call_listener fuel ?l st] =>
    set (l1 := l) in *;
    destruct (call_listener fuel l1 st) as [st1|] eqn:Hfirst end;
    [|discriminate].
  cbn [mbind option_bind] in Hfire.
  match type of Hfire with call_listener fuel ?l st1 = _ => set (l2 := l) in * end.
  assert (Hin1 : In l1 (subscribed_listeners this target object n))
    by (unfold subscribed_listeners; cbn [In]; tauto).
  assert (Hin2 : In l2 (subscribed_listeners this target object n))
    by (unfold subscribed_listeners; cbn [In]; tauto).
  assert (Hdone1 : LayoutManager._firstLayoutDone (mgr st1 this) = true)
    by (apply (performLayout_flag_kept _ _ _ _ _ Hfirst), Hdone).
  destruct (call_listener_pass _ _ _ _ _ _ _ _ Hin1 Hdone Hfirst)
    as (c1 & r1 & e1 & _ & _ & Ht1 & _ & _ & Hlog1).
  destruct (call_listener_pass _ _ _ _ _ _ _ _ Hin2 Hdone1 Hfire)
    as (c2 & r2 & e2 & _ & _ & Ht2 & _ & _ & Hlog2).
  exists c1, r1, e1, c2, r2, e2.
  split; [exact Ht1|]. split; [exact Ht2|].
  rewrite Hlog2, Hlog1, <- !app_assoc. reflexivity.
Qed.

End Listeners.

Lemma listener_requests_layout_witness :
  let l :=
    ("modified"%string,
     mkHandler 0 Scene.manager_A "modified" object_modified Scene.rect_a
       Scene.group_A) in
  let idle :=
    default Scene.settled_scene
      (call_listener (collaborators := Scene.collaborators) 4 l Scene.fresh_scene) in
  let st' :=
    default Scene.fresh_scene
      (call_listener (collaborators := Scene.collaborators) 4 l Scene.settled_scene) in
  idle = Scene.fresh_scene
  /\ next_handler st' = next_handler Scene.settled_scene
  /\ length (log st') = 12%nat.
Proof.
  intros l idle st'.
  assert (Hin : In l (subscribed_listeners Scene.manager_A Scene.group_A
                        Scene.rect_a 0))
    by (left; reflexivity).
  assert (Hidle : call_listener (collaborators := Scene.collaborators) 4 l
                    Scene.fresh_scene = Some idle)
    by (vm_compute; reflexivity).
  assert (Hrun : call_listener (collaborators := Scene.collaborators) 4 l
                   Scene.settled_scene = Some st')
    by (vm_compute; reflexivity).
  destruct (listener_requests_layout (collaborators := Scene.collaborators)
              4 Scene.manager_A Scene.group_A Scene.rect_a 0 l
              Scene.fresh_scene idle Hin Hidle) as (Hnothing & _).
  destruct (listener_requests_layout (collaborators := Scene.collaborators)
              4 Scene.manager_A Scene.group_A Scene.rect_a 0 l
              Scene.settled_scene st' Hin Hrun) as (_ & _ & Hnext & _).
  split; [apply Hnothing; reflexivity|]. split; [exact Hnext|].
  vm_compute. reflexivity.
Defined.

Lemma changed_lays_out_twice_witness :
  let context :=
    strictContext_of (mgr Scene.settled_scene Scene.manager_C)
      (Scene.request added Scene.group_C [Scene.group_B] None) in
  let st := subscribe Scene.manager_C context Scene.group_B Scene.settled_scene in
  let st' :=
    default st
      (fire (collaborators := Scene.collaborators) 2 Scene.group_B "changed" st) in
  listeners st Scene.group_B
  = subscribed_listeners Scene.manager_C Scene.group_C Scene.group_B 0
  /\ length (log st') = 8%nat
  /\ exists context1 context2 entries,
       StrictLayoutContext.trigger context1 = Some "changed"%string
       /\ StrictLayoutContext.trigger context2 = Some "text:changed"%string
       /\ log st'
          = log st ++ (Call_onBeforeLayout Scene.group_C context1 :: entries)
            /\ In (Call_onBeforeLayout Scene.group_C context2) entries.
Proof.
  intros context st st'.
  assert (Hlisteners :
    listeners st Scene.group_B
    = subscribed_listeners Scene.manager_C Scene.group_C Scene.group_B 0)
    by (vm_compute; reflexivity).
  assert (Hfire : fire (collaborators := Scene.collaborators) 2 Scene.group_B
                    "changed" st = Some st')
    by (vm_compute; reflexivity).
  destruct (changed_lays_out_twice (collaborators := Scene.collaborators)
              2 Scene.manager_C Scene.group_C Scene.group_B 0 st st'
              Hlisteners ltac:(vm_compute; reflexivity) Hfire)
    as (c1 & r1 & e1 & c2 & r2 & e2 & Ht1 & Ht2 & Hlog).
  split; [exact Hlisteners|]. split; [vm_compute; reflexivity|].
  eexists c1, c2, _. split; [exact Ht1|]. split; [exact Ht2|].
  split; [exact Hlog|].
  right. right. right. apply in_or_app. right. left. reflexivity.
Defined.

(** ** The fields that a layout leaves alone *)

Section Fields.
Context {collaborators : Collaborators}.
Context {A : Type} (field : FabricObject.t -> A).
Hypothesis field_left_top :
  forall l t o, field (FabricObject.set_left_top l t o) = field o.
Hypothesis field_width_height :
  forall w h o, field (FabricObject.set_width_height w h o) = field o.
Hypothesis field_dirty : forall b o, field (FabricObject.set_dirty b o) = field o.
Hypothesis field_listeners :
  forall ls o, field (FabricObject.set_listeners ls o) = field o.
Hypothesis field_setPositionByOrigin :
  forall p ox oy o, field (setPositionByOrigin p ox oy o) = field o.
Hypothesis field_setCoords : forall o, field (setCoords o) = field o.

Lemma update_obj_field o f st t :
  (forall ob, field (f ob) = field ob) ->
  field (obj (update_obj o f st) t) = field (obj st t).
Proof.
  intros Hf. rewrite obj_update_obj.
  destruct (decide (o = t)) as [->|_]; [apply Hf | reflexivity].
Qed.

Lemma layoutObjects_field context layoutResult st t :
  field (obj (layoutObjects context layoutResult st) t) = field (obj st t).
Proof.
  rewrite <- (field_left_top 0 0 (obj (layoutObjects _ _ _) t)).
  rewrite layoutObjects_placed. apply field_left_top.
Qed.

Lemma commitLayout_field context layoutResult st t :
  field (obj (commitLayout context layoutResult st) t) = field (obj st t).
Proof.
  unfold commitLayout.
  rewrite update_obj_field by (intros; apply field_dirty).
  match goal with |- field (obj (if ?b then update_obj ?o ?f ?s else ?s) t) = _ =>
    transitivity (field (obj s t));
      [destruct b; [apply update_obj_field; intros; apply field_setCoords
                   |reflexivity]|] end.
  match goal with
  |- field (obj (if ?b then update_obj ?o ?f ?s
                 else if ?c then update_obj ?o ?g ?s else ?s) t) = _ =>
    transitivity (field (obj s t));
      [destruct b; [|destruct c];
       [apply update_obj_field; intros; apply field_left_top
       |apply update_obj_field; intros; apply field_setPositionByOrigin
       |reflexivity]|] end.
  rewrite layoutObjects_field. apply update_obj_field. intros.
  apply field_width_height.
Qed.

Lemma geometry_field st st' t :
  geometry (obj st' t) = geometry (obj st t) ->
  field (obj st' t) = field (obj st t).
Proof.
  intros Hgeo. unfold geometry in Hgeo.
  rewrite <- (field_listeners [] (obj st' t)), Hgeo. apply field_listeners.
Qed.

Lemma layout_pass_field this context st t :
  field (obj (snd (layout_pass this context st)) t) = field (obj st t).
Proof.
  unfold layout_pass.
  set (strictContext := strictContext_of (mgr st this) context).
  assert (Hbefore : field (obj (onBeforeLayout this strictContext st) t)
                    = field (obj st t))
    by (apply geometry_field, onBeforeLayout_frame).
  destruct (getLayoutResult strictContext _) as [layoutResult|].
  - cbn [snd].
    change (obj (update_mgr this (LayoutManager.set_firstLayoutDone true)
                   (commitLayout strictContext layoutResult
                      (onBeforeLayout this strictContext st))) t)
      with (obj (commitLayout strictContext layoutResult
                   (onBeforeLayout this strictContext st)) t).
    rewrite commitLayout_field. exact Hbefore.
  - destruct (negb _); cbn [snd]; exact Hbefore.
Qed.

Lemma performLayout_field fuel this context st st' :
  performLayout fuel this context st = Some st' ->
  forall t, field (obj st' t) = field (obj st t).
Proof.
  apply (performLayout_invariant (fun _ => True)
           (fun st st' => forall t, field (obj st' t) = field (obj st t)));
    try tauto; try reflexivity.
  - intros st1 st2 st3 H1 H2 t. rewrite H2. apply H1.
  - intros this0 context0 st0 _ t. apply layout_pass_field.
Qed.

End Fields.

Section Untouched.
Context {collaborators : Collaborators}.
Hypothesis setPositionByOrigin_shape :
  forall p ox oy o, shape (setPositionByOrigin p ox oy o) = shape o.
Hypothesis setCoords_shape : forall o, shape (setCoords o) = shape o.

(** X21. [performLayout] assigns the position, the size, the dirty flag and
    the listeners of objects, and nothing else: when [setPositionByOrigin] and
    [setCoords] keep the scale, the angle, the origins, [group],
    [layoutManager], the list of objects, the clip path and
    [absolutePositioned] of their receiver, every object of the heap has these
    fields unchanged when [performLayout] returns, whatever the type of the
    request and however far it bubbled. *)
Theorem performLayout_keeps_shape fuel this context st st' :
  performLayout fuel this context st = Some st' ->
  forall o, shape (obj st' o) = shape (obj st o).
Proof.
  apply (performLayout_field shape); try reflexivity; assumption.
Qed.

Lemma shape_links o o' :
  shape o' = shape o ->
  FabricObject.group o' = FabricObject.group o
  /\ FabricObject.layoutManager o' = FabricObject.layoutManager o
  /\ FabricObject.clipPath o' = FabricObject.clipPath o.
Proof. unfold shape. intros [= _ _ _ _ _ -> -> _ -> _]. repeat split. Qed.

Lemma outside_same n : forall st st' target o,
  (forall t, shape (obj st' t) = shape (obj st t)) ->
  outside n st' target o = outside n st target o.
Proof.
  induction n as [|n IH]; intros st st' target o Hshape; cbn [outside];
    (assert (Hparent : parent_layoutManager st' target
                       = parent_layoutManager st target)
       by (apply same_links_parent; intros t;
           destruct (shape_links _ _ (Hshape t)) as (Hg & Hm & _);
           split; assumption));
    destruct (shape_links _ _ (Hshape o)) as (-> & _ & _);
    destruct (shape_links _ _ (Hshape target)) as (_ & _ & ->);
    rewrite Hparent; [reflexivity|].
  destruct (parent_layoutManager st target) as [[parent manager]|];
    [|reflexivity].
  rewrite (IH st st' parent o Hshape). reflexivity.
Qed.

Lemma layout_pass_outside this context st o :
  LayoutContext.type context = object_modified
  \/ LayoutContext.type context = object_modifying ->
  o <> LayoutContext.target context ->
  FabricObject.group (obj st o) <> Some (LayoutContext.target context) ->
  FabricObject.clipPath (obj st (LayoutContext.target context)) <> Some o ->
  obj (snd (layout_pass this context st)) o = obj st o.
Proof.
  intros Hty Hne Hgroup Hclip. unfold layout_pass.
  set (strictContext := strictContext_of (mgr st this) context).
  assert (Hbefore : forall t, obj (onBeforeLayout this strictContext st) t = obj st t).
  { intros t. unfold onBeforeLayout.
    replace (StrictLayoutContext.type strictContext)
      with (LayoutContext.type context) by reflexivity.
    destruct Hty as [-> | ->]; reflexivity. }
  destruct (getLayoutResult strictContext _) as [layoutResult|].
  - cbn [snd].
    change (obj (update_mgr this (LayoutManager.set_firstLayoutDone true)
                   (commitLayout strictContext layoutResult
                      (onBeforeLayout this strictContext st))) o)
      with (obj (commitLayout strictContext layoutResult
                   (onBeforeLayout this strictContext st)) o).
    rewrite commitLayout_untouched_obj; [apply Hbefore | | |];
      replace (StrictLayoutContext.target strictContext)
        with (LayoutContext.target context) by reflexivity;
      rewrite ?Hbefore.
    + exact Hne.
    + left. exact Hgroup.
    + left. exact Hclip.
  - destruct (negb _); cbn [snd]; apply Hbefore.
Qed.

(** The objects out of reach of a layout triggered by a modification. *)
Lemma performLayout_outside fuel : forall n this context st st' o,
  LayoutContext.type context = object_modified
  \/ LayoutContext.type context = object_modifying ->
  outside n st (LayoutContext.target context) o = true ->
  performLayout fuel this context st = Some st' ->
  obj st' o = obj st o.
Proof.
  induction fuel as [|fuel IH]; intros n this context st st' o Hty Hout Hrun;
    [discriminate|].
  destruct (rejected (mgr st this) context) eqn:Hr.
  - rewrite (performLayout_rejected _ _ _ _ Hr) in Hrun. congruence.
  - rewrite (performLayout_pass _ _ _ _ Hr) in Hrun.
    set (target := LayoutContext.target context) in *.
    assert (Hhere : o <> target
                    /\ FabricObject.group (obj st o) <> Some target
                    /\ FabricObject.clipPath (obj st target) <> Some o
                    /\ match parent_layoutManager st target with
                       | None => True
                       | Some (parent, _) =>
                           exists n', outside n' st parent o = true
                       end).
    { destruct n as [|n]; cbn [outside] in Hout;
        rewrite !andb_true_iff, !negb_true_iff, !bool_decide_eq_false in Hout;
        destruct Hout as [[[Hne Hgroup] Hclip] Hup];
        (split; [apply Nat.eqb_neq, Hne|]);
        (split; [exact Hgroup|]); (split; [exact Hclip|]);
        destruct (parent_layoutManager st target) as [[parent manager]|];
        try exact I; [discriminate | exists n; exact Hup]. }
    destruct Hhere as (Hne & Hgroup & Hclip & Hup).
    pose proof (layout_pass_outside this context st o Hty Hne Hgroup Hclip) as Hobj.
    pose proof (fun t => layout_pass_field shape
                  ltac:(reflexivity) ltac:(reflexivity) ltac:(reflexivity)
                  ltac:(reflexivity) setPositionByOrigin_shape setCoords_shape
                  this context st t) as Hshape.
    destruct (layout_pass_frame this context st) as (result & st1 & Hpass & _).
    rewrite Hpass in Hrun, Hobj, Hshape. cbn [snd] in Hobj, Hshape.
    unfold onAfterLayout in Hrun.
    set (strictContext := strictContext_of (mgr st this) context) in *.
    replace (StrictLayoutContext.target strictContext) with target in Hrun
      by reflexivity.
    match type of Hrun with context [parent_layoutManager ?s target] =>
      set (st_hook := s) in *;
      assert (Hparent : parent_layoutManager st_hook target
                        = parent_layoutManager st target)
        by (apply same_links_parent; intros t;
            destruct (shape_links _ _ (Hshape t)) as (Hg & Hm & _);
            split; assumption) end.
    rewrite Hparent in Hrun.
    destruct (parent_layoutManager st target) as [[parent manager]|].
    + destruct Hup as [n' Hup].
      assert (Hpush : (forall t, obj (snd (push_path strictContext target st_hook)) t
                                 = obj st1 t)
                      /\ StrictLayoutContext.type
                           (fst (push_path strictContext target st_hook))
                         = LayoutContext.type context)
        by (unfold push_path; destruct (StrictLayoutContext.path strictContext);
            split; reflexivity).
      destruct (push_path strictContext target st_hook) as [bubbling st2].
      cbn [fst snd] in Hpush. destruct Hpush as [Hpush Hsame].
      destruct (performLayout fuel manager _ st2) as [st3|] eqn:Hbubble;
        [|discriminate].
      injection Hrun as <-.
      change (obj (record_strategy this strictContext st3) o) with (obj st3 o).
      rewrite (IH n' manager (bubbled_context bubbling parent) st2 st3 o);
        [rewrite Hpush; exact Hobj | | | exact Hbubble].
      * change (LayoutContext.type (bubbled_context bubbling parent))
          with (StrictLayoutContext.type bubbling).
        rewrite Hsame. exact Hty.
      * change (LayoutContext.target (bubbled_context bubbling parent)) with parent.
        rewrite (outside_same n' st st2 parent o); [exact Hup|].
        intros t. rewrite Hpush. apply Hshape.
    + injection Hrun as <-. exact Hobj.
Qed.

(** X22. A layout triggered by a modification reaches the containers it
    bubbles through, their children and their clip paths, and no other
    object: an object that is none of these keeps every one of its fields,
    listeners included and the dirty flag apart, when [performLayout] returns.
    [setPositionByOrigin] and [setCoords] are assumed to keep the place of
    their receiver in the scene graph and its clip path. *)
Theorem performLayout_local fuel n this context st st' o :
  LayoutContext.type context = object_modified
  \/ LayoutContext.type context = object_modifying ->
  outside n st (LayoutContext.target context) o = true ->
  performLayout fuel this context st = Some st' ->
  forall b,
    FabricObject.set_dirty b (obj st' o) = FabricObject.set_dirty b (obj st o).
Proof.
  intros Hty Hout Hrun b.
  rewrite (performLayout_outside fuel n this context st st' o Hty Hout Hrun).
  reflexivity.
Qed.

End Untouched.

Lemma performLayout_keeps_shape_witness :
  let request :=
    Scene.request initialization Scene.group_A [Scene.rect_a; Scene.rect_b] None in
  let st' := default Scene.fresh_scene
               (Scene.run 4 Scene.manager_A request Scene.fresh_scene) in
  shape (obj st' Scene.group_A) = shape (obj Scene.fresh_scene Scene.group_A)
  /\ shape (obj st' Scene.rect_a) = shape (obj Scene.fresh_scene Scene.rect_a)
  /\ FabricObject.left (obj st' Scene.rect_a)
     <> FabricObject.left (obj Scene.fresh_scene Scene.rect_a).
Proof.
  intros request st'.
  assert (Hrun : performLayout (collaborators := Scene.collaborators) 4
                   Scene.manager_A request Scene.fresh_scene = Some st')
    by (vm_compute; reflexivity).
  pose proof (performLayout_keeps_shape (collaborators := Scene.collaborators)
                (fun p ox oy o => eq_refl) (fun o => eq_refl)
                4 Scene.manager_A request Scene.fresh_scene st' Hrun) as Hshape.
  split; [apply Hshape|]. split; [apply Hshape|]. vm_compute. discriminate.
Defined.

Lemma performLayout_local_witness :
  let request := Scene.request object_modified Scene.group_A [] None in
  let st' := default scene_with_clip
               (Scene.run 4 Scene.manager_A request scene_with_clip) in
  outside 2 scene_with_clip Scene.group_A 9 = true
  /\ FabricObject.set_dirty false (obj st' 9%nat)
     = FabricObject.set_dirty false (obj scene_with_clip 9%nat)
  /\ obj st' Scene.rect_a <> obj scene_with_clip Scene.rect_a.
Proof.
  intros request st'.
  assert (Hrun : performLayout (collaborators := Scene.collaborators) 4
                   Scene.manager_A request scene_with_clip = Some st')
    by (vm_compute; reflexivity).
  split; [reflexivity|]. split; [|vm_compute; discriminate].
  apply (performLayout_local (collaborators := Scene.collaborators)
           (fun p ox oy o => eq_refl) (fun o => eq_refl)
           4 2 Scene.manager_A request scene_with_clip st' 9%nat
           (or_introl eq_refl) eq_refl Hrun).
Defined.

(** ** The clip path *)

Section ClipPath.
Context {collaborators : Collaborators}.

Lemma layoutObjects_clip context layoutResult st :
  layoutObjects context layoutResult st
  = let st1 := layoutObjects_children context layoutResult st in
    if shouldLayoutClipPath (StrictLayoutContext.strategy context) context st1
    then
      match FabricObject.clipPath (obj st1 (StrictLayoutContext.target context)) with
      | Some clipPath =>
          if negb (FabricObject.absolutePositioned (obj st1 clipPath))
          then layoutObject context layoutResult clipPath st1
          else st1
      | None => st1
      end
    else st1.
Proof. reflexivity. Qed.

(** X23. The clip path of the container follows its children when the
    strategy says so.  [shouldLayoutClipPath] is asked once, when the size of
    the container is written and its children are moved; the clip path is
    neither the container nor one of its children.  If the answer is yes and
    the clip path is not absolutely positioned, the commit moves it by the
    offset of the result, like a child; if the answer is no, or if the clip
    path is absolutely positioned, it keeps its fields.  The dirty flag is
    left aside. *)
Theorem commitLayout_clipPath context layoutResult st clipPath :
  let target := StrictLayoutContext.target context in
  let asked :=
    layoutObjects_children context layoutResult
      (update_obj target
         (FabricObject.set_width_height
            (LayoutStrategyResult.width (LayoutResult.result layoutResult))
            (LayoutStrategyResult.height (LayoutResult.result layoutResult)))
         st) in
  FabricObject.clipPath (obj st target) = Some clipPath ->
  clipPath <> target ->
  FabricObject.group (obj st clipPath) <> Some target
  \/ ~ In clipPath (FabricObject._objects (obj st target)) ->
  forall b,
    FabricObject.set_dirty b (obj (commitLayout context layoutResult st) clipPath)
    = FabricObject.set_dirty b
        (if shouldLayoutClipPath (StrictLayoutContext.strategy context) context asked
            && negb (FabricObject.absolutePositioned (obj st clipPath))
         then FabricObject.setRelativeXY
                (Point.add (FabricObject.getRelativeXY (obj st clipPath))
                           (LayoutResult.offset layoutResult)) (obj st clipPath)
         else obj st clipPath).
Proof.
  intros target asked Hclip Hne Hchild b.
  apply (f_equal (FabricObject.set_dirty b)).
  rewrite commitLayout_other by exact Hne. fold target.
  rewrite layoutObjects_clip. cbv zeta. fold target. fold asked.
  set (st1 := update_obj target _ st) in *.
  assert (Hc : obj st1 clipPath = obj st clipPath)
    by (unfold st1; apply obj_update_obj_ne; congruence).
  assert (Hclip1 : FabricObject.clipPath (obj st1 target) = Some clipPath)
    by (unfold st1; rewrite obj_update_obj_eq; exact Hclip).
  assert (Hobjects : FabricObject._objects (obj st1 target)
                     = FabricObject._objects (obj st target))
    by (unfold st1; rewrite obj_update_obj_eq; reflexivity).
  assert (Hplaced : forall o' l t,
            FabricObject.set_left_top l t (obj asked o')
            = FabricObject.set_left_top l t (obj st1 o')).
  { intros o' l t. unfold asked, layoutObjects_children.
    destruct (negb _ || negb _); [apply foldl_layoutObject_placed | reflexivity]. }
  assert (Hloop : obj asked clipPath = obj st clipPath).
  { unfold asked, layoutObjects_children.
    destruct (negb _ || negb _); [|exact Hc].
    rewrite foldl_layoutObject_untouched; [exact Hc|].
    fold target. rewrite Hc, Hobjects. exact Hchild. }
  assert (Hloop_clip : FabricObject.clipPath (obj asked target) = Some clipPath).
  { rewrite <- Hclip1.
    exact (f_equal FabricObject.clipPath (Hplaced target 0%Q 0%Q)). }
  destruct (shouldLayoutClipPath _ _ asked); cbn [andb]; [|exact Hloop].
  rewrite Hloop_clip, Hloop.
  destruct (FabricObject.absolutePositioned (obj st clipPath)); cbn [negb];
    [exact Hloop|].
  rewrite layoutObject_obj. destruct (decide (clipPath = clipPath)); [|congruence].
  rewrite Hloop. reflexivity.
Qed.

End ClipPath.

Lemma commitLayout_clipPath_witness :
  let context :=
    strictContext_of (mgr scene_with_clip Scene.manager_A)
      (Scene.request object_modified Scene.group_A [] None) in
  let layoutResult :=
    LayoutResult.make
      (LayoutStrategyResult.make 100 0 200 100 None None None None)
      Point.zero (Point.new 100 0) (Point.new (-50) 0) in
  FabricObject.clipPath (obj scene_with_clip Scene.group_A) = Some 6%nat
  /\ FabricObject.left (obj scene_with_clip 6%nat) = 5%Q
  /\ (FabricObject.left
        (obj (commitLayout (collaborators := Scene.collaborators) context
                layoutResult scene_with_clip) 6%nat) == -45)%Q.
Proof.
  intros context layoutResult. split; [reflexivity|]. split; [reflexivity|].
  assert (Hclip : FabricObject.clipPath
                    (obj scene_with_clip (StrictLayoutContext.target context))
                  = Some 6%nat) by reflexivity.
  assert (Hne : 6%nat <> StrictLayoutContext.target context)
    by (vm_compute; discriminate).
  assert (Hchild :
    FabricObject.group (obj scene_with_clip 6%nat)
    <> Some (StrictLayoutContext.target context)
    \/ ~ In 6%nat (FabricObject._objects
                     (obj scene_with_clip (StrictLayoutContext.target context))))
    by (left; vm_compute; discriminate).
  pose proof (commitLayout_clipPath (collaborators := Scene.collaborators)
                context layoutResult scene_with_clip 6%nat Hclip Hne Hchild false)
    as Hmoved.
  apply (f_equal FabricObject.left) in Hmoved.
  cbn [FabricObject.left FabricObject.set_dirty] in Hmoved.
  rewrite Hmoved. vm_compute. reflexivity.
Defined.
